(** * Zenflow: the conversation state machine and its rule-based agents

    A shallow embedding of [adk_orchestrator.py], of the agents under
    [agents/] (emergency, collection, analysis, booking, calendar,
    recommendation) and of two routes of [main.py], followed by the
    properties of the decision engine.

    Conventions of the embedding.
    - A Python [str] is the list of its code points ([pystr]); literals are
      written with [py "..."], which decodes the UTF-8 bytes of the literal.
    - A Python number is its value: an integer is in [Z], a number that may
      be a float is in [Q], every finite float being a rational.  The hours
      of the agenda are added and subtracted with the operations of [PyLib],
      of which nothing is assumed, so that what is proved of them holds of
      the rounded sums of binary64; [binary64_lib] computes these.
    - A Python [dict] with optional keys is a record with [option] fields;
      the collected parameters and the session table are [gmap]s.
    - The standard-library functions [str.lower], [int] and [re.search] are
      the fields of the class [PyLib]; the definitions and theorems are
      stated for every implementation of them.
    - Whatever comes from outside the process (the Gemini model, the calendar
      endpoint) is an outcome recorded in [Collab], one record per turn.
    - A function is embedded on the values that its signature announces: the
      values extracted for the collected parameters are strings, the answers
      of the calendar endpoint have the documented shape, a count of weeks is
      within the length that [int] accepts.  The exceptions that the
      embedding follows are outcomes of their own ([KeyError], [Propagated],
      [WriteOtherError], the [None] of [py_int]). *)

From Stdlib Require Import ZArith NArith QArith Qminmax List String Ascii Lia Lqa Bool.
From Stdlib Require Import Sorting.Sorted Sorting.Permutation.
From Stdlib Require PrimFloat SpecFloat FloatOps Uint63.
From stdpp Require Import base option gmap list.
Import ListNotations.

(** ** Python strings *)

Definition pystr := list N.

Fixpoint utf8_decode (bs : list N) : pystr :=
  match bs with
  | [] => []
  | b :: r =>
    if (b <? 128)%N then b :: utf8_decode r
    else if (b <? 224)%N then
      match r with
      | b1 :: r1 => ((b - 192) * 64 + (b1 - 128))%N :: utf8_decode r1
      | [] => [b]
      end
    else if (b <? 240)%N then
      match r with
      | b1 :: b2 :: r2 =>
        ((b - 224) * 4096 + (b1 - 128) * 64 + (b2 - 128))%N :: utf8_decode r2
      | _ => [b]
      end
    else
      match r with
      | b1 :: b2 :: b3 :: r3 =>
        ((b - 240) * 262144 + (b1 - 128) * 4096 + (b2 - 128) * 64 + (b3 - 128))%N
          :: utf8_decode r3
      | _ => [b]
      end
  end.

Definition py (s : string) : pystr :=
  utf8_decode (map N_of_ascii (list_ascii_of_string s)).
Arguments py s%_string.

(** [bool(s)] for a string: the empty string is falsy. *)
Definition truthy (s : pystr) : bool :=
  match s with [] => false | _ :: _ => true end.

(** [s.startswith(p)] *)
Fixpoint startswith (p s : pystr) : bool :=
  match p, s with
  | [], _ => true
  | _ :: _, [] => false
  | a :: p', b :: s' => (a =? b)%N && startswith p' s'
  end.

(** [needle in hay] *)
Fixpoint str_in (needle hay : pystr) : bool :=
  startswith needle hay ||
  match hay with
  | [] => false
  | _ :: t => str_in needle t
  end.

(** [s.endswith(p)] *)
Definition endswith (p s : pystr) : bool := startswith (rev p) (rev s).

(** [any(word in s for word in words)] *)
Definition any_in (words : list pystr) (s : pystr) : bool :=
  existsb (fun word => str_in word s) words.

(** [s in tokens] for a list of strings *)
Definition str_eqb (a b : pystr) : bool := bool_decide (a = b).
Definition mem_str (s : pystr) (tokens : list pystr) : bool :=
  existsb (str_eqb s) tokens.

(** [c.isspace()] *)
Definition isspace (c : N) : bool :=
  ((9 <=? c) && (c <=? 13) || (28 <=? c) && (c <=? 32) || (c =? 133) || (c =? 160)
   || (c =? 5760) || (8192 <=? c) && (c <=? 8202) || (c =? 8232) || (c =? 8233)
   || (c =? 8239) || (c =? 8287) || (c =? 12288))%N.

Fixpoint lstrip (s : pystr) : pystr :=
  match s with
  | c :: t => if isspace c then lstrip t else s
  | [] => []
  end.

Definition rstrip (s : pystr) : pystr := rev (lstrip (rev s)).

(** [s.strip()] *)
Definition strip (s : pystr) : pystr := rstrip (lstrip s).

(** [s.split('/')[0]]: what precedes the first slash. *)
Fixpoint before_slash (s : pystr) : pystr :=
  match s with
  | [] => []
  | c :: t => if (c =? 47)%N then [] else c :: before_slash t
  end.

(** [len(s)] *)
Definition len (s : pystr) : Z := Z.of_nat (length s).

(** The standard-library functions the agents call.  [py_int s] is [None]
    where [int(s)] raises [ValueError]; [semaines_count s] is the value of
    [int(m.group(1))] for [m = re.search(r'(\d+)\s*semaines?', s)], and [None]
    where the search finds nothing.

    The hours of the agenda are Python numbers, integers or floats, each of
    them a rational.  [py_add a b], [py_sub a b] and [py_sum l] are the
    values of [a + b], [a - b] and [sum(l)] as Python computes them: on
    floats they are rounded, and nothing is assumed of them.  Comparisons
    and negation are exact. *)
Class PyLib := {
  str_lower : pystr -> pystr;
  py_int : pystr -> option Z;
  semaines_count : pystr -> option Z;
  py_sum : list Q -> Q;
  py_add : Q -> Q -> Q;
  py_sub : Q -> Q -> Q
}.

(** *** An implementation for Latin-1 text, ASCII digits and exact sums *)

Definition lower_char (c : N) : N :=
  if ((65 <=? c) && (c <=? 90) || (192 <=? c) && (c <=? 222) && negb (c =? 215))%N
  then (c + 32)%N else c.

Definition lower_latin1 (s : pystr) : pystr := map lower_char s.

Definition isdigit (c : N) : bool := ((48 <=? c) && (c <=? 57))%N.

(** Digits with single underscores between them, as [int] accepts them;
    [acc] is the value read so far and [us] tells that the previous
    character was an underscore. *)
Fixpoint digits_value (acc : Z) (us : bool) (s : pystr) : option Z :=
  match s with
  | [] => if us then None else Some acc
  | c :: t =>
    if isdigit c then digits_value (acc * 10 + Z.of_N (c - 48)) false t
    else if (c =? 95)%N && negb us then
      match t with [] => None | _ :: _ => digits_value acc true t end
    else None
  end.

Definition unsigned_value (s : pystr) : option Z :=
  match s with
  | c :: _ => if isdigit c then digits_value 0 false s else None
  | [] => None
  end.

Definition int_ascii (s : pystr) : option Z :=
  match strip s with
  | c :: t =>
    if (c =? 45)%N then Z.opp <$> unsigned_value t
    else if (c =? 43)%N then unsigned_value t
    else unsigned_value (c :: t)
  | [] => None
  end.

(** The digits at the head of [s] and what follows them. *)
Fixpoint span_digits (s : pystr) : pystr * pystr :=
  match s with
  | c :: t =>
    if isdigit c then let '(d, r) := span_digits t in (c :: d, r) else ([], s)
  | [] => ([], [])
  end.

(** A match of [(\d+)\s*semaines?] that starts exactly at the head of [s]. *)
Definition semaines_at (s : pystr) : option Z :=
  let '(d, r) := span_digits s in
  if truthy d && startswith (py "semaine") (lstrip r)
  then digits_value 0 false d else None.

(** The leftmost match. *)
Fixpoint semaines_ascii (s : pystr) : option Z :=
  match semaines_at s with
  | Some n => Some n
  | None => match s with [] => None | _ :: t => semaines_ascii t end
  end.

(** The arithmetic of [latin1_lib] is exact, as that of Python is on
    integers and on floats whose sums need no rounding. *)
Definition latin1_lib : PyLib :=
  {| str_lower := lower_latin1; py_int := int_ascii; semaines_count := semaines_ascii;
     py_sum := fun l => fold_left Qplus l 0%Q;
     py_add := Qplus;
     py_sub := Qminus |}.

(** *** The arithmetic of floats

    A Python float is a binary64 number, and a finite one is a rational.
    [float_of_Q q] is the float nearest to [q] when the numerator and the
    denominator of [q] are below 2^53: the division of two floats is rounded
    to nearest.  So [binary64 (31 # 10)] is the value of the literal [3.1],
    as [json.loads] and Python read it. *)
Definition float_of_Z (z : Z) : PrimFloat.float :=
  match z with
  | Z0 => PrimFloat.zero
  | Zpos _ => PrimFloat.of_uint63 (Uint63.of_Z z)
  | Zneg p => PrimFloat.opp (PrimFloat.of_uint63 (Uint63.of_Z (Zpos p)))
  end.

Definition float_of_Q (q : Q) : PrimFloat.float :=
  PrimFloat.div (float_of_Z (Qnum q)) (float_of_Z (Zpos (Qden q))).

(** The value of a finite float, in lowest terms. *)
Definition Q_of_float (f : PrimFloat.float) : Q :=
  match FloatOps.Prim2SF f with
  | SpecFloat.S754_finite s m e =>
    let v := match e with
             | Zneg k => Qmake (Zpos m) (2 ^ k)
             | _ => inject_Z (Zpos m * 2 ^ e)
             end in
    Qred (if s then Qopp v else v)
  | _ => 0%Q
  end.

Definition binary64 (q : Q) : Q := Q_of_float (float_of_Q q).

(** [a + b] and [a - b] on floats, and on a float and a small integer. *)
Definition float_add (a b : Q) : Q :=
  Q_of_float (PrimFloat.add (float_of_Q a) (float_of_Q b)).
Definition float_sub (a b : Q) : Q :=
  Q_of_float (PrimFloat.sub (float_of_Q a) (float_of_Q b)).

(** The library with the arithmetic of binary64.  [sum] adds its items one
    after the other, from 0, as CPython does before its version 3.12; the
    later versions compensate the rounding errors of a sum of floats.  The
    theorems are stated for every [PyLib], hence for both. *)
Definition binary64_lib : PyLib :=
  {| str_lower := lower_latin1; py_int := int_ascii; semaines_count := semaines_ascii;
     py_sum := fun l => fold_left float_add l 0%Q;
     py_add := float_add;
     py_sub := float_sub |}.

(** ** Data exchanged between the agents *)

(** An f-string whose numeric holes are kept as numbers. *)
Inductive piece :=
| Lit (s : pystr)
| Num (q : Q).

Definition fstr := list piece.

Inductive ConversationState :=
| ROUTING
| HANDLING_EMERGENCY
| COLLECTING_PARAMS
| WAITING_USER_CONFIRMATION
| ANALYZING_AND_RESPONDING
| FINAL_RESPONSE_READY.

#[export] Instance ConversationState_eq_dec : EqDecision ConversationState.
Proof. solve_decision. Defined.

(** The dictionary returned by [EmergencyAgent.detect_emergency]. *)
Record emergency_data := {
  ed_is_emergency : bool;
  ed_level : pystr;
  ed_keywords_found : list pystr;
  ed_type : option pystr;
  ed_urgency_score : Z
}.

Record banner := {
  bn_visible : bool;
  bn_title : pystr;
  bn_subtitle : pystr
}.

(** The dictionary returned by [EmergencyAgent._get_emergency_protocol]. *)
Record protocol := {
  pr_hotline : pystr;
  pr_hotline_name : pystr;
  pr_message : pystr;
  pr_actions : list pystr;
  pr_banner : banner
}.

(** A slot date is a literal from the model or an offset from today. *)
Inductive slot_date :=
| DateText (s : pystr)
| DaysFromNow (d : Z).

Record slot := {
  sl_date : slot_date;
  sl_time : pystr;
  sl_provider_name : pystr;
  sl_booking_link : pystr;
  sl_mode : pystr
}.

(** The context read by the booking agent; an absent key is [None].  The
    key [symptomes] is read by [should_propose_slots] and never used. *)
Record booking_context := {
  bc_severity_level : option pystr;
  bc_urgency_score : option Z;
  bc_duration : option pystr;
  bc_is_emergency : option bool
}.

Record booking_result := {
  bk_needs_booking : bool;
  bk_slots : list slot;
  bk_reason : pystr
}.

(** A calendar event as the endpoint returns it; an absent key is [None]. *)
Record event := {
  ev_id : option pystr;
  ev_title : option pystr;
  ev_duration_hours : option Q;
  ev_priority : option Q;
  ev_start : option pystr
}.

(** An entry of [proposed_changes] or of [actions_effectuees]. *)
Record change := {
  ch_action : pystr;
  ch_event_id : option pystr;
  ch_event_title : pystr;
  ch_event_start : option pystr;
  ch_duration : Q;
  ch_reason : fstr
}.

Record calendar_result := {
  cal_charge_totale_heures : Q;
  cal_nombre_evenements : nat;
  cal_charge_excessive : bool;
  cal_proposed_changes : list change;
  cal_actions_effectuees : list change;
  cal_calendar_message : fstr;
  cal_awaiting_confirmation : bool
}.

Record recommendation := {
  rec_type : pystr;
  rec_titre : pystr;
  rec_message : fstr;
  rec_proposed_changes : list change
}.

Inductive severity := Faible | Modere | Eleve.

#[export] Instance severity_eq_dec : EqDecision severity.
Proof. solve_decision. Defined.

(** The labels carried by [severity_level]. *)
Definition severity_label (s : severity) : pystr :=
  match s with
  | Faible => py "Faible"
  | Modere => py "Modéré"
  | Eleve => py "Élevé"
  end.

Record analysis_result := {
  an_severity_level : severity;
  an_urgency_score : Z;
  an_taux_mal_etre : Q;
  an_sentiment_score : Q;
  an_needs_orientation : bool;
  an_recommendations : list pystr;
  an_analyzed_params : gmap pystr pystr
}.

Record collection_result := {
  co_is_complete : bool;
  co_collected_params : gmap pystr pystr;
  co_missing_params : list pystr;
  co_next_question : option pystr;
  co_completion_rate : Q
}.

Record crisis_result := {
  cr_is_emergency : bool;
  cr_emergency_data : emergency_data;
  cr_booking : option booking_result;
  cr_recommendations : list recommendation;
  cr_protocol : option protocol;
  cr_context : option booking_context
}.

(** The response of a turn; a key that a handler does not set is [None].
    The timestamp of [metadata] is left out. *)
Record response := {
  r_success : bool;
  r_response : pystr;
  r_is_emergency : bool;
  r_needs_booking : option bool;
  r_slots : list slot;
  r_recommendations : list recommendation;
  r_emergency_data : option emergency_data;
  r_protocol : option protocol;
  r_analysis : option analysis_result;
  r_calendar_analysis : option (option calendar_result);
  r_session_id : pystr;
  r_params_complete : bool;
  r_collected_params : option (gmap pystr pystr);
  r_completion_rate : option Q;
  r_awaiting_confirmation : bool;
  r_awaiting_more_info : bool;
  r_agents_used : list pystr
}.

(** A session of [ZenflowOrchestrator.sessions]; [created_at] and the
    timestamps of the history are left out. *)
Record session := {
  s_session_id : pystr;
  s_state : ConversationState;
  s_collected_params : gmap pystr pystr;
  s_params_complete : bool;
  s_is_emergency : bool;
  s_user_confirmed : option bool;
  s_next_state : option ConversationState;
  s_emergency_data : option emergency_data;
  s_protocol : option protocol;
  s_final_response : option response;
  s_history : list pystr
}.

(** What an HTTP call to the calendar endpoint comes to. *)
Inductive read_outcome :=
| ReadOk (events : list event)
| ReadApiError
| ReadRequestError.

Inductive write_outcome :=
| WriteJson (success : bool) (message : option pystr)
| WriteRequestError (e : pystr)
| WriteOtherError (e : pystr).

(** One request sent to the calendar endpoint. *)
Inductive calendar_call :=
| CallConsult (date : pystr)
| CallPost (action : pystr) (date : pystr) (title : pystr) (duration_hours : Q)
    (description : fstr).

(** What the outside world answers during one turn.  A Gemini field is
    [None] when the call, or the parsing of its answer, raises.
    [gemini_extract] gives the items of the dictionary that [json.loads]
    builds, in their order: a dictionary has one item per key. *)
Record Collab := {
  gemini_extract : pystr -> option (list (pystr * pystr));
  gemini_question : pystr -> gmap pystr pystr -> option pystr;
  gemini_crisis_reply : pystr -> option pystr;
  gemini_slots : option (list slot);
  conversation_validation : pystr -> gmap pystr pystr -> pystr;
  calendar_get : pystr -> read_outcome;
  calendar_post : calendar_call -> write_outcome
}.

Section Agents.
Context {L : PyLib}.

(** ** agents/emergency_agent.py *)

Definition critical_self_harm : list pystr :=
  [ py "suicide"; py "suicidaire"; py "me tuer"; py "en finir";
    py "je veux mourir"; py "plus envie de vivre";
    py "mettre fin à mes jours"; py "me suicider";
    py "overdose"; py "surdose"; py "avaler des pilules";
    py "me jeter"; py "sauter"; py "pendaison"; py "pendre" ].

Definition detect_emergency (text : pystr) : emergency_data :=
  let text_lower := str_lower text in
  let keywords_found :=
    List.filter (fun keyword => str_in keyword text_lower) critical_self_harm in
  match keywords_found with
  | _ :: _ =>
    {| ed_is_emergency := true;
       ed_level := py "CRITIQUE";
       ed_keywords_found := keywords_found;
       ed_type := Some (py "self_harm");
       ed_urgency_score := 10 |}
  | [] =>
    {| ed_is_emergency := false;
       ed_level := py "NORMAL";
       ed_keywords_found := [];
       ed_type := None;
       ed_urgency_score := 0 |}
  end.

Definition _get_emergency_protocol (crisis_type : option pystr) : protocol :=
  if bool_decide (crisis_type = Some (py "self_harm")) then
    {| pr_hotline := py "3114";
       pr_hotline_name := py "Numéro National de Prévention du Suicide";
       pr_message :=
         py "Votre sécurité est notre priorité. Le 3114 est disponible 24h/24 et 7j/7.";
       pr_actions :=
         [ py "Appeler le 3114 immédiatement";
           py "Contacter un proche de confiance";
           py "Se rendre aux urgences si danger imminent" ];
       pr_banner :=
         {| bn_visible := true;
            bn_title := py "🆘 Numéro d'urgence : 3114";
            bn_subtitle := py "Disponible 24h/24 - Appel gratuit et confidentiel" |} |}
  else
    {| pr_hotline := py "15";
       pr_hotline_name := py "SAMU";
       pr_message := py "En cas d'urgence médicale, contactez le 15.";
       pr_actions := [ py "Appeler le 15 si danger imminent" ];
       pr_banner :=
         {| bn_visible := true;
            bn_title := py "🆘 Urgence : 15";
            bn_subtitle := py "SAMU - Disponible 24h/24" |} |}.

Definition should_trigger_emergency_booking (emergency : emergency_data) : bool :=
  ed_is_emergency emergency && str_eqb (ed_level emergency) (py "CRITIQUE").

(** ** agents/booking_agent.py *)

Definition should_propose_slots (context : booking_context) : bool :=
  let severity_level := default (py "Faible") (bc_severity_level context) in
  let urgency_score := default 0%Z (bc_urgency_score context) in
  let duration := default [] (bc_duration context) in
  let is_emergency := default false (bc_is_emergency context) in
  if is_emergency then true
  else if mem_str severity_level [py "Élevé"; py "Elevé"] then true
  else if (7 <=? urgency_score)%Z then true
  else
    let duration_lower := if truthy duration then str_lower duration else [] in
    if any_in [py "mois"; py "ans"; py "années"; py "année"] duration_lower then true
    else if match semaines_count duration_lower with
            | Some n => (2 <? n)%Z
            | None => false
            end then true
    else if str_eqb severity_level (py "Modéré") then true
    else false.

Definition _fallback_slots : list slot :=
  [ {| sl_date := DaysFromNow 2; sl_time := py "10:00";
       sl_provider_name := py "Dr. Martin Dubois";
       sl_booking_link := py "https://www.doctolib.fr/booking/demo";
       sl_mode := py "présentiel" |};
    {| sl_date := DaysFromNow 5; sl_time := py "14:30";
       sl_provider_name := py "Dr. Sophie Laurent";
       sl_booking_link := py "https://www.doctolib.fr/booking/demo";
       sl_mode := py "téléconsultation" |};
    {| sl_date := DaysFromNow 7; sl_time := py "16:00";
       sl_provider_name := py "Dr. Claire Bernard";
       sl_booking_link := py "https://www.doctolib.fr/booking/demo";
       sl_mode := py "présentiel" |} ].

(** [has_model] is the truth value of [self.model]. *)
Definition generate_slots (has_model : bool) (w : Collab) : list slot :=
  if negb has_model then _fallback_slots
  else match gemini_slots w with
       | Some slots => slots
       | None => _fallback_slots
       end.

Definition _get_booking_reason (context : booking_context) : pystr :=
  if default false (bc_is_emergency context) then
    py "En raison de l'urgence de votre situation, je vous propose des créneaux de consultation immédiate."
  else
    let severity := default [] (bc_severity_level context) in
    let urgency := default 0%Z (bc_urgency_score context) in
    if mem_str severity [py "Élevé"; py "Elevé"] then
      py "Votre situation nécessite un accompagnement professionnel. Voici des créneaux disponibles."
    else if (7 <=? urgency)%Z then
      py "Compte tenu du niveau d'urgence de votre situation, je vous recommande de consulter rapidement."
    else
      py "Je vous propose des créneaux de consultation pour un suivi adapté à votre situation.".

Definition process_booking_decision (has_model : bool) (w : Collab)
    (analysis_context : booking_context) : booking_result :=
  let needs_booking := should_propose_slots analysis_context in
  if needs_booking then
    {| bk_needs_booking := needs_booking;
       bk_slots := generate_slots has_model w;
       bk_reason := _get_booking_reason analysis_context |}
  else
    {| bk_needs_booking := needs_booking;
       bk_slots := [];
       bk_reason := py "Situation ne nécessite pas de consultation immédiate" |}.

(** ** agents/recommendation_agent.py (the crisis resources) *)

Definition get_crisis_resources : list recommendation :=
  [ {| rec_type := py "urgence";
       rec_titre := py "🆘 Numéro d'urgence : 3114";
       rec_message :=
         [Lit (py "Le 3114 est le numéro national de prévention du suicide, disponible 24h/24 et 7j/7. Gratuit et confidentiel.")];
       rec_proposed_changes := [] |};
    {| rec_type := py "respiration";
       rec_titre := py "Respiration d'urgence";
       rec_message := [Lit (py "Un exercice rapide pour retrouver le calme")];
       rec_proposed_changes := [] |};
    {| rec_type := py "contact";
       rec_titre := py "Contacter un proche";
       rec_message :=
         [Lit (py "Identifiez immédiatement une personne de confiance à qui parler")];
       rec_proposed_changes := [] |} ].

(** [EmergencyAgent.handle_crisis], called by the orchestrator without an
    analysis context and with both partner agents set. *)
Definition handle_crisis (has_model : bool) (w : Collab) (user_message : pystr)
    : crisis_result :=
  let emergency := detect_emergency user_message in
  if negb (ed_is_emergency emergency) then
    {| cr_is_emergency := false; cr_emergency_data := emergency;
       cr_booking := None; cr_recommendations := [];
       cr_protocol := None; cr_context := None |}
  else
    let crisis_context :=
      {| bc_severity_level := Some (py "Élevé");
         bc_urgency_score := Some 10%Z;
         bc_duration := Some (py "immédiat");
         bc_is_emergency := Some true |} in
    let booking := process_booking_decision has_model w crisis_context in
    let recommendations := get_crisis_resources in
    let proto := _get_emergency_protocol (ed_type emergency) in
    {| cr_is_emergency := true; cr_emergency_data := emergency;
       cr_booking := Some booking; cr_recommendations := recommendations;
       cr_protocol := Some proto; cr_context := Some crisis_context |}.

(** ** agents/collection_agent.py *)

Definition REQUIRED_PARAMS : list pystr :=
  [py "emotion"; py "causes"; py "duration"; py "symptomes"; py "intensite"].

(** [bool(d.get(key))] *)
Definition has_value (d : gmap pystr pystr) (key : pystr) : bool :=
  match d !! key with
  | Some v => truthy v
  | None => false
  end.

Definition _extract_params_with_gemini (has_model : bool) (w : Collab)
    (text : pystr) : list (pystr * pystr) :=
  if negb has_model then []
  else match gemini_extract w text with
       | Some filtered_params => filtered_params
       | None => []
       end.

Definition fallback_questions : list (pystr * pystr) :=
  [ (py "emotion", py "Comment vous sentez-vous en ce moment ?");
    (py "causes", py "Selon vous, qu'est-ce qui pourrait expliquer cet état ?");
    (py "duration", py "Depuis combien de temps ressentez-vous cela ?");
    (py "symptomes",
     py "Avez-vous remarqué des symptômes particuliers (sommeil, appétit, concentration) ?");
    (py "intensite",
     py "Sur une échelle de 1 à 10, à quel point ressentez-vous cet inconfort ?") ].

(** [table.get(key, dflt)] on a literal table *)
Fixpoint table_get (table : list (pystr * pystr)) (key dflt : pystr) : pystr :=
  match table with
  | [] => dflt
  | (k, v) :: rest => if str_eqb k key then v else table_get rest key dflt
  end.

Definition _generate_question_for_param (has_model : bool) (w : Collab)
    (param_name : pystr) (collected : gmap pystr pystr) : pystr :=
  let base_question :=
    table_get fallback_questions param_name (py "Pouvez-vous m'en dire plus ?") in
  if negb has_model then base_question
  else match gemini_question w param_name collected with
       | Some question =>
         if endswith (py "?") question then question else question ++ py " ?"
       | None =>
         if str_eqb param_name (py "duration") && has_value collected (py "emotion")
         then py "Depuis combien de temps ressentez-vous "
                ++ default [] (collected !! py "emotion") ++ py " ?"
         else base_question
       end.

(** The loop [for key, value in new_params.items()]. *)
Definition merge_params (collected : gmap pystr pystr)
    (new_params : list (pystr * pystr)) : gmap pystr pystr :=
  fold_left
    (fun c kv => if truthy kv.2 && negb (has_value c kv.1) then <[kv.1 := kv.2]> c else c)
    new_params collected.

Definition collect_parameters (has_model : bool) (w : Collab)
    (user_text : pystr) (current_params : gmap pystr pystr) : collection_result :=
  let new_params := _extract_params_with_gemini has_model w user_text in
  let collected := merge_params current_params new_params in
  let missing := List.filter (fun p => negb (has_value collected p)) REQUIRED_PARAMS in
  let completion_rate :=
    (Z.of_nat (length REQUIRED_PARAMS) - Z.of_nat (length missing))
      # Pos.of_nat (length REQUIRED_PARAMS) in
  match missing with
  | [] =>
    {| co_is_complete := true; co_collected_params := collected;
       co_missing_params := []; co_next_question := None;
       co_completion_rate := 1%Q |}
  | next_param :: _ =>
    {| co_is_complete := false; co_collected_params := collected;
       co_missing_params := missing;
       co_next_question :=
         Some (_generate_question_for_param has_model w next_param collected);
       co_completion_rate := completion_rate |}
  end.

(** ** agents/analysis_agent.py *)

(** The running pair (severity_level, urgency_score) of the scorer. *)
Record score := {
  sc_severity : severity;
  sc_urgency : Z
}.

Definition critical_emotions : list pystr :=
  [py "suicide"; py "suicidaire"; py "dépression"; py "désespoir"; py "mort"].

Definition long_duration_words : list pystr :=
  [py "mois"; py "ans"; py "année"; py "longtemps"].

(** [int(str(intensite).split('/')[0]) if intensite else 5], 5 on error. *)
Definition intensite_num (collected_params : gmap pystr pystr) : Z :=
  let intensite := default (py "5") (collected_params !! py "intensite") in
  if truthy intensite then default 5%Z (py_int (before_slash intensite)) else 5%Z.

Definition base_score (n : Z) : score :=
  {| sc_severity := Faible; sc_urgency := n |}.

(** [if severity_level != "Élevé": severity_level = "Modéré"] *)
Definition at_least_modere (s : severity) : severity :=
  match s with
  | Eleve => Eleve
  | Faible | Modere => Modere
  end.

Definition rule_emotion (emotion : pystr) (sc : score) : score :=
  if any_in critical_emotions (str_lower emotion)
  then {| sc_severity := Eleve; sc_urgency := 10 |}
  else sc.

Definition rule_duration (duration_lower : pystr) (sc : score) : score :=
  if any_in long_duration_words duration_lower
  then {| sc_severity := at_least_modere (sc_severity sc);
          sc_urgency := Z.min 10 (sc_urgency sc + 2) |}
  else sc.

Definition rule_intensity (n : Z) (sc : score) : score :=
  if (8 <=? n)%Z then
    {| sc_severity := Eleve; sc_urgency := Z.max (sc_urgency sc) 9 |}
  else if (6 <=? n)%Z then
    {| sc_severity := at_least_modere (sc_severity sc);
       sc_urgency := Z.max (sc_urgency sc) 7 |}
  else sc.

Definition negative_words : list pystr :=
  [ py "triste"; py "mal"; py "déprimé"; py "anxieux"; py "stressé";
    py "peur"; py "colère"; py "désespoir"; py "seul"; py "vide" ].

Definition positive_words : list pystr :=
  [ py "bien"; py "heureux"; py "content"; py "motivé"; py "calme";
    py "espoir"; py "mieux"; py "confiant" ].

Definition count_in (words : list pystr) (s : pystr) : nat :=
  length (List.filter (fun word => str_in word s) words).

Definition _analyze_sentiment_simple (text : pystr) : Q :=
  let text_lower := str_lower text in
  let neg_count := count_in negative_words text_lower in
  let pos_count := count_in positive_words text_lower in
  let total := (neg_count + pos_count)%nat in
  if (total =? 0)%nat then 0%Q
  else
    let sc := (Z.of_nat pos_count - Z.of_nat neg_count) # Pos.of_nat total in
    Qmax (-1)%Q (Qmin 1%Q sc).

Definition analyze_psychological_state (collected_params : gmap pystr pystr)
    (user_text : pystr) : analysis_result :=
  let emotion := default [] (collected_params !! py "emotion") in
  let duration := default [] (collected_params !! py "duration") in
  let symptomes := default [] (collected_params !! py "symptomes") in
  let n := intensite_num collected_params in
  let duration_lower := str_lower duration in
  let sc := rule_intensity n (rule_duration duration_lower (rule_emotion emotion (base_score n))) in
  let severity_level := sc_severity sc in
  let urgency_score := sc_urgency sc in
  let taux_mal_etre := (inject_Z n / 10)%Q in
  let sentiment_score :=
    if truthy user_text then _analyze_sentiment_simple user_text else 0%Q in
  let needs_orientation :=
    bool_decide (severity_level = Eleve \/ severity_level = Modere)
    || (7 <=? urgency_score)%Z
    || any_in [py "mois"; py "ans"] duration_lower in
  let recommendations :=
    (if bool_decide (severity_level = Eleve)
     then [py "Consultation psychologique recommandée"] else [])
    ++ (if str_in (py "insomnie") (str_lower symptomes)
           || str_in (py "sommeil") (str_lower symptomes)
        then [py "Améliorer l'hygiène du sommeil"] else [])
    ++ (if (7 <=? urgency_score)%Z then [py "Suivi professionnel conseillé"] else []) in
  {| an_severity_level := severity_level;
     an_urgency_score := urgency_score;
     an_taux_mal_etre := taux_mal_etre;
     an_sentiment_score := sentiment_score;
     an_needs_orientation := needs_orientation;
     an_recommendations := recommendations;
     an_analyzed_params := collected_params |}.

(** ** agents/calendar_agent.py *)

Definition SEUIL_HEURES_JOURNALIER : Q := 8%Q.

(** [bool(self.agenda_endpoint)] *)
Definition endpoint_set (agenda_endpoint : option pystr) : bool :=
  match agenda_endpoint with
  | Some url => truthy url
  | None => false
  end.

(** [sum(e.get("duration_hours", 0) for e in events)] *)
Definition total_duration (events : list event) : Q :=
  py_sum (map (fun e => default 0%Q (ev_duration_hours e)) events).

(** The events, their total duration and the requests sent; the diagnostic
    text, which [analyze_calendar_load] ignores, is left out. *)
Definition consulter_agenda (agenda_endpoint : option pystr) (w : Collab)
    (date : pystr) : list event * Q * list calendar_call :=
  if negb (endpoint_set agenda_endpoint) then ([], 0%Q, [])
  else match calendar_get w date with
       | ReadOk events => (events, total_duration events, [CallConsult date])
       | ReadApiError => ([], 0%Q, [CallConsult date])
       | ReadRequestError => ([], 0%Q, [CallConsult date])
       end.

(** The sort key [(e.get('priority', 5), -e.get('duration_hours', 1))]. *)
Definition sort_key (e : event) : Q * Q :=
  (default 5%Q (ev_priority e), (- default 1 (ev_duration_hours e))%Q).

(** Tuple comparison [a <= b]. *)
Definition key_leb (a b : Q * Q) : bool :=
  negb (Qle_bool b.1 a.1) || (Qeq_bool a.1 b.1 && Qle_bool a.2 b.2).

Fixpoint insert_event (e : event) (l : list event) : list event :=
  match l with
  | [] => [e]
  | x :: rest =>
    if key_leb (sort_key e) (sort_key x) then e :: x :: rest
    else x :: insert_event e rest
  end.

(** [sorted(events, key=...)]: a stable sort, here by insertion from the
    right, which keeps the events of equal key in their order. *)
Fixpoint sorted_events (events : list event) : list event :=
  match events with
  | [] => []
  | e :: rest => insert_event e (sorted_events rest)
  end.

Definition event_duration (e : event) : Q := default 1%Q (ev_duration_hours e).

Definition delete_proposal (total_duration_h : Q) (e : event) : change :=
  {| ch_action := py "DELETE";
     ch_event_id := ev_id e;
     ch_event_title := default (py "Sans titre") (ev_title e);
     ch_event_start := Some (default (py "N/A") (ev_start e));
     ch_duration := event_duration e;
     ch_reason :=
       [Lit (py "Alléger la charge (actuellement "); Num total_duration_h; Lit (py "h)")] |}.

(** [bool(event.get("id"))] *)
Definition has_id (e : event) : bool :=
  match ev_id e with
  | Some i => truthy i
  | None => false
  end.

(** The loop [for event in sortable_events], entered with [freed_hours]. *)
Fixpoint propose_deletions (total_duration_h hours_to_free : Q)
    (events : list event) (freed_hours : Q) : list change :=
  match events with
  | [] => []
  | e :: rest =>
    if Qle_bool hours_to_free freed_hours then []
    else if negb (has_id e)
    then propose_deletions total_duration_h hours_to_free rest freed_hours
    else delete_proposal total_duration_h e
           :: propose_deletions total_duration_h hours_to_free rest
                (py_add freed_hours (event_duration e))
  end.

Definition _handle_overload_case (date : pystr) (total_duration_h taux_mal_etre : Q)
    (details_evenements : list event) : calendar_result * list calendar_call :=
  let hours_to_free := py_sub total_duration_h SEUIL_HEURES_JOURNALIER in
  let sortable_events := sorted_events details_evenements in
  let proposed_changes :=
    propose_deletions total_duration_h hours_to_free sortable_events 0%Q in
  let calendar_message :=
    match proposed_changes with
    | _ :: _ =>
      [ Lit (py "Je comprends que votre journée est chargée (");
        Num total_duration_h;
        Lit (py "h). Pour vous aider à retrouver un meilleur équilibre, j'ai identifié ");
        Num (inject_Z (Z.of_nat (length proposed_changes)));
        Lit (py " événement(s) qui pourraient être reportés ou annulés.") ]
    | [] =>
      [ Lit (py "⚠️ Impossible d'identifier des événements à supprimer automatiquement.") ]
    end in
  ({| cal_charge_totale_heures := total_duration_h;
      cal_nombre_evenements := length details_evenements;
      cal_charge_excessive := true;
      cal_proposed_changes := proposed_changes;
      cal_actions_effectuees := [];
      cal_calendar_message := calendar_message;
      cal_awaiting_confirmation := (0 <? length proposed_changes)%nat |}, []).

(** What [executer_action_agenda] comes to: the dictionary it returns, or
    the exception it lets through. *)
Inductive action_result :=
| ActionDict (success : bool) (message : option pystr)
| ActionRaises (e : pystr).

Definition executer_action_agenda (agenda_endpoint : option pystr) (w : Collab)
    (action : pystr) (date title : pystr) (duration_hours : Q) (description : fstr)
    : action_result * list calendar_call :=
  if negb (endpoint_set agenda_endpoint)
  then (ActionDict false (Some (py "Endpoint non configuré")), [])
  else
    let post verb :=
      let call := CallPost verb date title duration_hours description in
      match calendar_post w call with
      | WriteJson success message => (ActionDict success message, [call])
      | WriteRequestError e => (ActionDict false (Some e), [call])
      | WriteOtherError e => (ActionRaises e, [call])
      end in
    if str_eqb action (py "ADD") then post (py "add")
    else if str_eqb action (py "DELETE") then post (py "delete")
    else (ActionDict false (Some (py "Action '" ++ action ++ py "' non supportée")), []).

(** The title and the description of [payload_add]. *)
Definition pause_title : pystr := py "Pause Bien-être Recommandée".

Definition pause_description (total_duration_h taux_mal_etre : Q) : fstr :=
  [ Lit (py "Ajouté automatiquement : charge légère ("); Num total_duration_h;
    Lit (py "h), mal-être faible ("); Num taux_mal_etre; Lit (py "%).") ].

Definition _handle_wellbeing_case (agenda_endpoint : option pystr) (w : Collab)
    (date : pystr) (total_duration_h taux_mal_etre : Q)
    (details_evenements : list event) : calendar_result * list calendar_call :=
  let title := pause_title in
  let description := pause_description total_duration_h taux_mal_etre in
  let '(add_result, calls) :=
    executer_action_agenda agenda_endpoint w (py "ADD") date title 1%Q description in
  let '(actions_effectuees, calendar_message) :=
    match add_result with
    | ActionDict true _ =>
      ([ {| ch_action := py "ADD";
            ch_event_id := None;
            ch_event_title := title;
            ch_event_start := None;
            ch_duration := 1%Q;
            ch_reason :=
              [ Lit (py "Charge faible ("); Num total_duration_h;
                Lit (py "h) + Bien-être élevé ("); Num taux_mal_etre; Lit (py "%)") ] |} ],
       [ Lit (py "🌿 J'ai ajouté une pause bien-être à votre agenda pour favoriser votre équilibre.") ])
    | ActionDict false message =>
      ([], [ Lit (py "⚠️ Impossible d'ajouter la pause : ");
             Lit (default (py "Erreur") message) ])
    | ActionRaises e =>
      ([], [ Lit (py "❌ Erreur lors de l'ajout de la pause : "); Lit e ])
    end in
  ({| cal_charge_totale_heures := total_duration_h;
      cal_nombre_evenements := length details_evenements;
      cal_charge_excessive := false;
      cal_proposed_changes := [];
      cal_actions_effectuees := actions_effectuees;
      cal_calendar_message := calendar_message;
      cal_awaiting_confirmation := false |}, calls).

(** [a > b] and [a < b] on numbers *)
Definition Qgtb (a b : Q) : bool := negb (Qle_bool a b).
Definition Qltb (a b : Q) : bool := negb (Qle_bool b a).

(** The decision of [analyze_calendar_load] once the agenda has been read. *)
Definition decide_calendar_actions (agenda_endpoint : option pystr) (w : Collab)
    (date : pystr) (taux_mal_etre : Q) (details_evenements : list event)
    (total_duration_h : Q) : calendar_result * list calendar_call :=
  match details_evenements with
  | [] =>
    ({| cal_charge_totale_heures := 0%Q;
        cal_nombre_evenements := 0;
        cal_charge_excessive := false;
        cal_proposed_changes := [];
        cal_actions_effectuees := [];
        cal_calendar_message := [];
        cal_awaiting_confirmation := false |}, [])
  | _ :: _ =>
    let charge_excessive := Qgtb total_duration_h SEUIL_HEURES_JOURNALIER in
    if charge_excessive && Qgtb taux_mal_etre 50%Q then
      _handle_overload_case date total_duration_h taux_mal_etre details_evenements
    else if negb charge_excessive && Qltb taux_mal_etre 30%Q then
      _handle_wellbeing_case agenda_endpoint w date total_duration_h taux_mal_etre
        details_evenements
    else
      ({| cal_charge_totale_heures := total_duration_h;
          cal_nombre_evenements := length details_evenements;
          cal_charge_excessive := charge_excessive;
          cal_proposed_changes := [];
          cal_actions_effectuees := [];
          cal_calendar_message := [];
          cal_awaiting_confirmation := false |}, [])
  end.

(** [severity_level] is only logged. *)
Definition analyze_calendar_load (agenda_endpoint : option pystr) (w : Collab)
    (date : pystr) (taux_mal_etre : Q) (severity_level : pystr)
    : calendar_result * list calendar_call :=
  let '(details_evenements, total_duration_h, reads) :=
    consulter_agenda agenda_endpoint w date in
  let '(result, writes) :=
    decide_calendar_actions agenda_endpoint w date taux_mal_etre details_evenements
      total_duration_h in
  (result, reads ++ writes).

Definition process_calendar_analysis (agenda_endpoint : option pystr) (w : Collab)
    (date : pystr) (analysis_context : analysis_result)
    : calendar_result * list calendar_call :=
  let taux_mal_etre := (an_taux_mal_etre analysis_context * 100)%Q in
  let severity_level := severity_label (an_severity_level analysis_context) in
  analyze_calendar_load agenda_endpoint w date taux_mal_etre severity_level.

(** ** agents/recommendation_agent.py (the selection of resources) *)


(** A resource of the database: its type, title and message.  The keys that
    hold the media of a resource (lien, video_url, instructions, conseils,
    breathingSteps, duration) are left out. *)
Definition resource (type titre message : pystr) : recommendation :=
  {| rec_type := type; rec_titre := titre; rec_message := [Lit message];
     rec_proposed_changes := [] |}.

Definition _load_resource_database : list (pystr * list recommendation) :=
  [ (py "anxiety_stress",
     [ resource (py "respiration") (py "Exercice de Respiration Carrée")
         (py "Un exercice de respiration guidé par le son pour vous aider à retrouver le calme.");
       resource (py "meditation") (py "Méditation de pleine conscience")
         (py "Une séance guidée de mindfulness pour apaiser l'esprit");
       resource (py "relaxation") (py "Musique relaxante anti-stress")
         (py "Une playlist apaisante pour vous aider à gérer le stress") ]);
    (py "insomnia",
     [ resource (py "productivite") (py "Routine du sommeil")
         (py "Établissez une routine relaxante avant le coucher");
       resource (py "meditation") (py "Méditation pour le sommeil")
         (py "Une séance de relaxation pour faciliter l'endormissement");
       resource (py "respiration") (py "Respiration pour dormir")
         (py "Une technique de respiration apaisante pour favoriser l'endormissement");
       resource (py "audio") (py "Sons pour dormir (Pluie & Nature)")
         (py "Des bruits blancs apaisants pour favoriser l'endormissement.") ]);
    (py "fatigue",
     [ resource (py "motivation") (py "3 petites actions pour recharger son énergie")
         (py "Relancez votre énergie avec des gestes simples et efficaces.");
       resource (py "energie") (py "Musique énergisante (Workout Motivation)")
         (py "Une playlist dynamique pour booster votre motivation.") ]);
    (py "concentration",
     [ resource (py "focus") (py "Musique pour la concentration (Lofi Beats)")
         (py "Une ambiance sonore calme pour vous aider à retrouver votre concentration.");
       resource (py "productivite") (py "Sons binauraux pour concentration profonde")
         (py "Des fréquences audio scientifiquement conçues pour améliorer la concentration.") ]);
    (py "tristesse",
     [ resource (py "gratitude") (py "Journal de gratitude")
         (py "Notez 3 choses positives de votre journée");
       resource (py "meditation") (py "Méditation de compassion")
         (py "Une séance pour cultiver la bienveillance envers soi-même");
       resource (py "yoga") (py "Yoga doux pour l'humeur")
         (py "Des postures douces pour libérer les tensions émotionnelles") ]);
    (py "depression",
     [ resource (py "productivite") (py "Micro-actions quotidiennes")
         (py "Commencez par de toutes petites victoires");
       resource (py "gratitude") (py "Auto-compassion")
         (py "Pratiquez la bienveillance envers vous-même") ]) ].

(** [self.resource_database.get(category, [])] *)
Fixpoint resource_get (database : list (pystr * list recommendation)) (category : pystr)
    : list recommendation :=
  match database with
  | [] => []
  | (k, v) :: rest => if str_eqb k category then v else resource_get rest category
  end.

(** The generic resource, given when no category is selected. *)
Definition gratitude_journal : recommendation :=
  resource (py "gratitude") (py "Journal de gratitude")
    (py "Prenez un moment pour identifier les petits bonheurs du quotidien").

(** [severity] is not read. *)
Definition _select_from_database (symptomes emotion severity : pystr)
    : list recommendation :=
  let symptomes_lower := str_lower symptomes in
  let emotion_lower := str_lower emotion in
  let database := _load_resource_database in
  let selected := [] in
  let selected :=
    if any_in [py "anxiété"; py "anxieux"; py "stress"; py "angoisse"] symptomes_lower
    then selected ++ resource_get database (py "anxiety_stress") else selected in
  let selected :=
    if any_in [py "insomnie"; py "sommeil"; py "dors"] symptomes_lower
    then selected ++ resource_get database (py "insomnia") else selected in
  let selected :=
    if any_in [py "fatigue"; py "épuisé"; py "énergie"] symptomes_lower
    then selected ++ resource_get database (py "fatigue") else selected in
  let selected :=
    if any_in [py "concentration"; py "focus"; py "distrait"] symptomes_lower
    then selected ++ resource_get database (py "concentration") else selected in
  let selected :=
    if any_in [py "triste"; py "tristesse"; py "mélancolie"] emotion_lower
    then selected ++ resource_get database (py "tristesse") else selected in
  let selected :=
    if any_in [py "dépression"; py "déprimé"; py "désespoir"] emotion_lower
    then selected ++ resource_get database (py "depression") else selected in
  let selected :=
    match selected with
    | [] => [gratitude_journal]
    | _ :: _ => selected
    end in
  firstn 5 selected.

(** The keys that [generate_recommendations] reads in its context; an
    absent key is [None]. *)
Record recommendation_context := {
  rc_severity_level : option pystr;
  rc_symptomes : option pystr;
  rc_emotion : option pystr
}.

Definition _enrich_with_gemini (recommendations : list recommendation)
    : list recommendation :=
  recommendations.

Definition generate_recommendations (has_model : bool)
    (analysis_context : recommendation_context)
    (proposed_agenda_changes : option (list change)) : list recommendation :=
  let severity := default (py "Modéré") (rc_severity_level analysis_context) in
  let symptomes := default [] (rc_symptomes analysis_context) in
  let emotion := default [] (rc_emotion analysis_context) in
  let recommendations := _select_from_database symptomes emotion severity in
  let recommendations :=
    match proposed_agenda_changes with
    | Some ((_ :: _) as changes) =>
      recommendations
      ++ [ {| rec_type := py "agenda";
              rec_titre := py "Optimisation de votre planning";
              rec_message :=
                [ Lit (py "J'ai analysé votre agenda et identifié ");
                  Num (inject_Z (Z.of_nat (length changes)));
                  Lit (py " opportunités pour libérer du temps et réduire votre charge.") ];
              rec_proposed_changes := changes |} ]
    | _ => recommendations
    end in
  if has_model && (0 <? length recommendations)%nat
  then _enrich_with_gemini recommendations
  else recommendations.

(** [process_recommendation_request] on the context of the orchestrator,
    [{'analysis': ..., 'collected_params': ...}]: the two dictionaries are
    merged, the collected parameters last.  The result holds the
    recommendations and their count; the set of their types is left out. *)
Definition process_recommendation_request (has_model : bool)
    (analysis : analysis_result) (collected_params : gmap pystr pystr)
    : list recommendation * nat :=
  let full_context :=
    {| rc_severity_level :=
         Some (default (severity_label (an_severity_level analysis))
                 (collected_params !! py "severity_level"));
       rc_symptomes := collected_params !! py "symptomes";
       rc_emotion := collected_params !! py "emotion" |} in
  let recommendations := generate_recommendations has_model full_context None in
  (recommendations, length recommendations).

(** ** adk_orchestrator.py *)

(** Assignments to the keys of a session dictionary. *)
Definition set_state (st : ConversationState) (sd : session) : session :=
  {| s_session_id := s_session_id sd; s_state := st;
     s_collected_params := s_collected_params sd;
     s_params_complete := s_params_complete sd; s_is_emergency := s_is_emergency sd;
     s_user_confirmed := s_user_confirmed sd; s_next_state := s_next_state sd;
     s_emergency_data := s_emergency_data sd; s_protocol := s_protocol sd;
     s_final_response := s_final_response sd; s_history := s_history sd |}.

Definition set_collected_params (c : gmap pystr pystr) (sd : session) : session :=
  {| s_session_id := s_session_id sd; s_state := s_state sd;
     s_collected_params := c;
     s_params_complete := s_params_complete sd; s_is_emergency := s_is_emergency sd;
     s_user_confirmed := s_user_confirmed sd; s_next_state := s_next_state sd;
     s_emergency_data := s_emergency_data sd; s_protocol := s_protocol sd;
     s_final_response := s_final_response sd; s_history := s_history sd |}.

Definition set_params_complete (b : bool) (sd : session) : session :=
  {| s_session_id := s_session_id sd; s_state := s_state sd;
     s_collected_params := s_collected_params sd;
     s_params_complete := b; s_is_emergency := s_is_emergency sd;
     s_user_confirmed := s_user_confirmed sd; s_next_state := s_next_state sd;
     s_emergency_data := s_emergency_data sd; s_protocol := s_protocol sd;
     s_final_response := s_final_response sd; s_history := s_history sd |}.

Definition set_is_emergency (b : bool) (sd : session) : session :=
  {| s_session_id := s_session_id sd; s_state := s_state sd;
     s_collected_params := s_collected_params sd;
     s_params_complete := s_params_complete sd; s_is_emergency := b;
     s_user_confirmed := s_user_confirmed sd; s_next_state := s_next_state sd;
     s_emergency_data := s_emergency_data sd; s_protocol := s_protocol sd;
     s_final_response := s_final_response sd; s_history := s_history sd |}.

Definition set_user_confirmed (b : bool) (sd : session) : session :=
  {| s_session_id := s_session_id sd; s_state := s_state sd;
     s_collected_params := s_collected_params sd;
     s_params_complete := s_params_complete sd; s_is_emergency := s_is_emergency sd;
     s_user_confirmed := Some b; s_next_state := s_next_state sd;
     s_emergency_data := s_emergency_data sd; s_protocol := s_protocol sd;
     s_final_response := s_final_response sd; s_history := s_history sd |}.

Definition set_next_state (st : option ConversationState) (sd : session) : session :=
  {| s_session_id := s_session_id sd; s_state := s_state sd;
     s_collected_params := s_collected_params sd;
     s_params_complete := s_params_complete sd; s_is_emergency := s_is_emergency sd;
     s_user_confirmed := s_user_confirmed sd; s_next_state := st;
     s_emergency_data := s_emergency_data sd; s_protocol := s_protocol sd;
     s_final_response := s_final_response sd; s_history := s_history sd |}.

Definition set_emergency_data (e : emergency_data) (sd : session) : session :=
  {| s_session_id := s_session_id sd; s_state := s_state sd;
     s_collected_params := s_collected_params sd;
     s_params_complete := s_params_complete sd; s_is_emergency := s_is_emergency sd;
     s_user_confirmed := s_user_confirmed sd; s_next_state := s_next_state sd;
     s_emergency_data := Some e; s_protocol := s_protocol sd;
     s_final_response := s_final_response sd; s_history := s_history sd |}.

Definition set_protocol (p : protocol) (sd : session) : session :=
  {| s_session_id := s_session_id sd; s_state := s_state sd;
     s_collected_params := s_collected_params sd;
     s_params_complete := s_params_complete sd; s_is_emergency := s_is_emergency sd;
     s_user_confirmed := s_user_confirmed sd; s_next_state := s_next_state sd;
     s_emergency_data := s_emergency_data sd; s_protocol := Some p;
     s_final_response := s_final_response sd; s_history := s_history sd |}.

Definition set_final_response (r : response) (sd : session) : session :=
  {| s_session_id := s_session_id sd; s_state := s_state sd;
     s_collected_params := s_collected_params sd;
     s_params_complete := s_params_complete sd; s_is_emergency := s_is_emergency sd;
     s_user_confirmed := s_user_confirmed sd; s_next_state := s_next_state sd;
     s_emergency_data := s_emergency_data sd; s_protocol := s_protocol sd;
     s_final_response := Some r; s_history := s_history sd |}.

Definition set_history (h : list pystr) (sd : session) : session :=
  {| s_session_id := s_session_id sd; s_state := s_state sd;
     s_collected_params := s_collected_params sd;
     s_params_complete := s_params_complete sd; s_is_emergency := s_is_emergency sd;
     s_user_confirmed := s_user_confirmed sd; s_next_state := s_next_state sd;
     s_emergency_data := s_emergency_data sd; s_protocol := s_protocol sd;
     s_final_response := s_final_response sd; s_history := h |}.

(** The orchestrator object: [has_model] is the truth value of the Gemini
    model given to [__init__] and shared by the agents. *)
Record Orchestrator := {
  has_model : bool;
  agenda_endpoint : option pystr;
  sessions : gmap pystr session
}.

(** What a state handler comes to: it returns, or a [KeyError] leaves it
    with the session as it stands at that point. *)
Inductive handled :=
| Returned (sd : session)
| KeyError (sd : session).

Definition _handle_routing (session_data : session) (user_message : pystr) : session :=
  let emergency := detect_emergency user_message in
  if ed_is_emergency emergency then
    set_state HANDLING_EMERGENCY (set_emergency_data emergency session_data)
  else
    let params_complete := s_params_complete session_data in
    let user_confirmed := default false (s_user_confirmed session_data) in
    if params_complete && user_confirmed then
      set_state ANALYZING_AND_RESPONDING session_data
    else if params_complete && negb user_confirmed then
      set_state WAITING_USER_CONFIRMATION session_data
    else
      set_state COLLECTING_PARAMS session_data.

Definition emergency_fallback_message : pystr :=
  py "Je m'inquiète vraiment pour toi... Pourquoi vouloir en finir ? Qu'est-ce qui te fait tant souffrir ? Le 3114 est là pour t'écouter 24h/24, mais moi aussi je suis là. Raconte-moi ce qui se passe.".

Definition nl2 : pystr := [10%N; 10%N].

(** The [try] block calls [self.gemini_model], an attribute that [__init__]
    does not set (it sets [self.model]): on the class as it stands the block
    always raises.  [gemini_crisis_reply] leaves the outcome open, [None]
    being the exception. *)
Definition _handle_emergency (o : Orchestrator) (w : Collab)
    (session_data : session) (user_message : pystr) : handled :=
  let crisis := handle_crisis (has_model o) w user_message in
  let emergency_message :=
    match gemini_crisis_reply w user_message with
    | Some text => text
    | None => emergency_fallback_message
    end in
  let session_data := set_is_emergency true session_data in
  let session_data := set_emergency_data (cr_emergency_data crisis) session_data in
  match cr_protocol crisis with
  | None => KeyError session_data
  | Some proto =>
    let session_data := set_protocol proto session_data in
    let collection :=
      collect_parameters (has_model o) w user_message (s_collected_params session_data) in
    let session_data := set_collected_params (co_collected_params collection) session_data in
    let final_response_text :=
      if negb (co_is_complete collection)
      then emergency_message ++ nl2 ++ default [] (co_next_question collection)
      else emergency_message in
    let session_data :=
      if negb (co_is_complete collection)
      then set_next_state (Some COLLECTING_PARAMS) session_data
      else set_next_state (Some WAITING_USER_CONFIRMATION) session_data in
    let session_data :=
      set_final_response
        {| r_success := true;
           r_response := final_response_text;
           r_is_emergency := true;
           r_needs_booking := None;
           r_slots := [];
           r_recommendations := [];
           r_emergency_data := Some (cr_emergency_data crisis);
           r_protocol := Some proto;
           r_analysis := None;
           r_calendar_analysis := None;
           r_session_id := s_session_id session_data;
           r_params_complete := co_is_complete collection;
           r_collected_params := Some (co_collected_params collection);
           r_completion_rate := None;
           r_awaiting_confirmation := false;
           r_awaiting_more_info := false;
           r_agents_used := [py "EmergencyAgent"; py "CollectionAgent"] |}
        session_data in
    Returned (set_state FINAL_RESPONSE_READY session_data)
  end.

(** [ConversationAgent.process_conversation_turn(...)['response']]: the
    validation, from Gemini or drawn from the fallback table, then the
    question. *)
Definition conversation_response (w : Collab) (user_message : pystr)
    (collected : gmap pystr pystr) (next_question : pystr) : pystr :=
  let validation := conversation_validation w user_message collected in
  if truthy next_question then validation ++ py " " ++ next_question else validation.

Definition _handle_collecting_params (o : Orchestrator) (w : Collab)
    (session_data : session) (user_message : pystr) : session :=
  let current_params := s_collected_params session_data in
  let collection := collect_parameters (has_model o) w user_message current_params in
  let session_data := set_collected_params (co_collected_params collection) session_data in
  let session_data := set_params_complete (co_is_complete collection) session_data in
  if co_is_complete collection then
    let session_data :=
      set_final_response
        {| r_success := true;
           r_response :=
             py "Je vous ai bien écouté. Souhaitez-vous ajouter quelque chose d'autre ou préférez-vous que je vous propose des solutions maintenant ?";
           r_is_emergency := s_is_emergency session_data;
           r_needs_booking := Some false;
           r_slots := [];
           r_recommendations := [];
           r_emergency_data := None;
           r_protocol := None;
           r_analysis := None;
           r_calendar_analysis := None;
           r_session_id := s_session_id session_data;
           r_params_complete := true;
           r_collected_params := Some (co_collected_params collection);
           r_completion_rate := None;
           r_awaiting_confirmation := true;
           r_awaiting_more_info := false;
           r_agents_used := [py "AnalysisAgent"; py "ConversationAgent"] |}
        session_data in
    let session_data := set_next_state (Some WAITING_USER_CONFIRMATION) session_data in
    set_state FINAL_RESPONSE_READY session_data
  else
    let next_question := default [] (co_next_question collection) in
    let session_data :=
      set_final_response
        {| r_success := true;
           r_response :=
             conversation_response w user_message (co_collected_params collection)
               next_question;
           r_is_emergency := false;
           r_needs_booking := Some false;
           r_slots := [];
           r_recommendations := [];
           r_emergency_data := None;
           r_protocol := None;
           r_analysis := None;
           r_calendar_analysis := None;
           r_session_id := s_session_id session_data;
           r_params_complete := false;
           r_collected_params := None;
           r_completion_rate := Some (co_completion_rate collection);
           r_awaiting_confirmation := false;
           r_awaiting_more_info := false;
           r_agents_used := [py "AnalysisAgent"; py "ConversationAgent"] |}
        session_data in
    set_state FINAL_RESPONSE_READY session_data.

Definition negative_tokens : list pystr :=
  [ py "non"; py "n"; py "no"; py "nope"; py "rien"; py "rien à ajouter";
    py "c'est tout"; py "ça suffit" ].

Definition positive_tokens : list pystr :=
  [py "oui"; py "o"; py "yes"; py "ouais"; py "ok"].

Definition _handle_waiting_confirmation (session_data : session)
    (user_message : pystr) : session :=
  let user_message_lower := strip (str_lower user_message) in
  if mem_str user_message_lower negative_tokens then
    set_state ANALYZING_AND_RESPONDING (set_user_confirmed true session_data)
  else if mem_str user_message_lower positive_tokens || (10 <? len user_message)%Z then
    let session_data :=
      set_final_response
        {| r_success := true;
           r_response := py "Je vous écoute. N'hésitez pas à me dire tout ce qui vous pèse.";
           r_is_emergency := s_is_emergency session_data;
           r_needs_booking := Some false;
           r_slots := [];
           r_recommendations := [];
           r_emergency_data := None;
           r_protocol := None;
           r_analysis := None;
           r_calendar_analysis := None;
           r_session_id := s_session_id session_data;
           r_params_complete := true;
           r_collected_params := None;
           r_completion_rate := None;
           r_awaiting_confirmation := false;
           r_awaiting_more_info := true;
           r_agents_used := [py "ConversationAgent"] |}
        session_data in
    let session_data := set_user_confirmed false session_data in
    let session_data := set_params_complete false session_data in
    set_state FINAL_RESPONSE_READY session_data
  else
    set_state ANALYZING_AND_RESPONDING (set_user_confirmed true session_data).

(** The requests sent to the calendar are traced by the calendar agent;
    the orchestrator keeps the result only. *)
Definition _run_calendar_agent (o : Orchestrator) (w : Collab)
    (analysis : analysis_result) : option calendar_result :=
  if negb (endpoint_set (agenda_endpoint o)) then None
  else
    let today := py "2025-10-30" in
    Some (process_calendar_analysis (agenda_endpoint o) w today analysis).1.

Definition _run_booking_agent (o : Orchestrator) (w : Collab)
    (analysis : analysis_result) (collected_params : gmap pystr pystr) : booking_result :=
  let booking_context :=
    {| bc_severity_level := Some (severity_label (an_severity_level analysis));
       bc_urgency_score := Some (an_urgency_score analysis);
       bc_duration := Some (default [] (collected_params !! py "duration"));
       bc_is_emergency := None |} in
  process_booking_decision (has_model o) w booking_context.

Definition _run_recommendation_agent (o : Orchestrator)
    (analysis : analysis_result) (collected_params : gmap pystr pystr)
    : list recommendation * nat :=
  process_recommendation_request (has_model o) analysis collected_params.

Definition _handle_analysis_and_response (o : Orchestrator) (w : Collab)
    (session_data : session) (user_message : pystr) : session :=
  let collected_params := s_collected_params session_data in
  let analysis := analyze_psychological_state collected_params user_message in
  let calendar := _run_calendar_agent o w analysis in
  let proposed_agenda_changes :=
    match calendar with
    | Some c => cal_proposed_changes c
    | None => []
    end in
  let booking := _run_booking_agent o w analysis collected_params in
  let recommendations := (_run_recommendation_agent o analysis collected_params).1 in
  let recommendations :=
    match proposed_agenda_changes with
    | _ :: _ =>
      {| rec_type := py "agenda";
         rec_titre := py "Optimisation de votre planning";
         rec_message :=
           match calendar with
           | Some c => cal_calendar_message c
           | None => []
           end;
         rec_proposed_changes := proposed_agenda_changes |} :: recommendations
    | [] => recommendations
    end in
  let transition_message := py "Voici des ressources qui pourraient vous aider..." in
  let final_response_text :=
    if bk_needs_booking booking
    then transition_message ++ nl2 ++ bk_reason booking
    else transition_message in
  let session_data :=
    set_final_response
      {| r_success := true;
         r_response := final_response_text;
         r_is_emergency := false;
         r_needs_booking := Some (bk_needs_booking booking);
         r_slots := bk_slots booking;
         r_recommendations := recommendations;
         r_emergency_data := None;
         r_protocol := None;
         r_analysis := Some analysis;
         r_calendar_analysis := Some calendar;
         r_session_id := s_session_id session_data;
         r_params_complete := true;
         r_collected_params := None;
         r_completion_rate := None;
         r_awaiting_confirmation := false;
         r_awaiting_more_info := false;
         r_agents_used :=
           [ py "AnalysisAgent"; py "CalendarAgent"; py "BookingAgent";
             py "RecommendationAgent"; py "ConversationAgent" ] |}
      session_data in
  set_state FINAL_RESPONSE_READY session_data.

Definition new_session (session_id : pystr) : session :=
  {| s_session_id := session_id;
     s_state := ROUTING;
     s_collected_params := ∅;
     s_params_complete := false;
     s_is_emergency := false;
     s_user_confirmed := None;
     s_next_state := None;
     s_emergency_data := None;
     s_protocol := None;
     s_final_response := None;
     s_history := [] |}.

Definition _get_or_create_session (o : Orchestrator) (session_id user_message : pystr)
    : session :=
  let sd := default (new_session session_id) (sessions o !! session_id) in
  let sd :=
    if s_is_emergency sd then set_state COLLECTING_PARAMS sd else set_state ROUTING sd in
  set_history (s_history sd ++ [user_message]) sd.

(** One pass through the body of the [while] loop. *)
Definition dispatch (o : Orchestrator) (w : Collab) (session_data : session)
    (user_message : pystr) : handled :=
  match s_state session_data with
  | ROUTING => Returned (_handle_routing session_data user_message)
  | HANDLING_EMERGENCY => _handle_emergency o w session_data user_message
  | COLLECTING_PARAMS =>
    Returned (_handle_collecting_params o w session_data user_message)
  | WAITING_USER_CONFIRMATION =>
    Returned (_handle_waiting_confirmation session_data user_message)
  | ANALYZING_AND_RESPONDING =>
    Returned (_handle_analysis_and_response o w session_data user_message)
  | FINAL_RESPONSE_READY => Returned session_data
  end.

(** How the [while] loop ends. *)
Inductive loop_result :=
| LoopDone (sd : session)
| LoopRaised (sd : session)
| LoopRunning (sd : session).

(** The loop [while state != FINAL_RESPONSE_READY], cut after [fuel] passes. *)
Fixpoint state_loop (fuel : nat) (o : Orchestrator) (w : Collab)
    (session_data : session) (user_message : pystr) : loop_result :=
  if bool_decide (s_state session_data = FINAL_RESPONSE_READY) then LoopDone session_data
  else match fuel with
       | O => LoopRunning session_data
       | S fuel' =>
         match dispatch o w session_data user_message with
         | Returned sd => state_loop fuel' o w sd user_message
         | KeyError sd => LoopRaised sd
         end
       end.

(** What [process_message] gives back: a response built by a handler, the
    default error dictionary, an exception, or nothing within the fuel. *)
Inductive turn_result :=
| Responded (r : response)
| DefaultError
| Propagated
| Unfinished.

Definition with_session (o : Orchestrator) (session_id : pystr) (sd : session)
    : Orchestrator :=
  {| has_model := has_model o; agenda_endpoint := agenda_endpoint o;
     sessions := <[session_id := sd]> (sessions o) |}.

(** [if 'next_state' in session_data: state = session_data.pop('next_state')] *)
Definition restore_next_state (session_data : session) : session :=
  match s_next_state session_data with
  | Some st => set_next_state None (set_state st session_data)
  | None => session_data
  end.

Definition process_message_fuel (fuel : nat) (o : Orchestrator) (w : Collab)
    (session_id user_message : pystr) : Orchestrator * turn_result :=
  let session_data := _get_or_create_session o session_id user_message in
  let session_data := restore_next_state session_data in
  match state_loop fuel o w session_data user_message with
  | LoopDone sd =>
    (with_session o session_id sd,
     match s_final_response sd with
     | Some r => Responded r
     | None => DefaultError
     end)
  | LoopRaised sd => (with_session o session_id sd, Propagated)
  | LoopRunning sd => (with_session o session_id sd, Unfinished)
  end.

(** Three passes are the longest path: routing, confirmation, analysis. *)
Definition process_message (o : Orchestrator) (w : Collab)
    (session_id user_message : pystr) : Orchestrator * turn_result :=
  process_message_fuel 3 o w session_id user_message.

Definition reset_session (o : Orchestrator) (session_id : pystr) : Orchestrator :=
  {| has_model := has_model o; agenda_endpoint := agenda_endpoint o;
     sessions := delete session_id (sessions o) |}.

Definition get_session_info (o : Orchestrator) (session_id : pystr) : option session :=
  sessions o !! session_id.

End Agents.

Arguments py : simpl never.
Arguments detect_emergency : simpl never.
Arguments handle_crisis : simpl never.
Arguments _get_emergency_protocol : simpl never.
Arguments collect_parameters : simpl never.
Arguments analyze_psychological_state : simpl never.
Arguments process_booking_decision : simpl never.
Arguments process_calendar_analysis : simpl never.

(** ** main.py *)

Section Routes.
Context {L : PyLib}.

(** A key of a JSON body that the routes read as a string. *)
Inductive json_text :=
| Absent
| Text (s : pystr)
| NotText.

(** [data.get(key, '').strip()]; [None] where [strip] is not defined and the
    call raises. *)
Definition get_stripped (field : json_text) : option pystr :=
  match field with
  | Absent => Some (strip [])
  | Text s => Some (strip s)
  | NotText => None
  end.

(** What [request.json] gives to [chat]: an exception, a value that is
    falsy (null, an empty object), a value that is truthy and is no object,
    or a non-empty object with its keys [text] and [session_id]. *)
Inductive chat_request :=
| NoJson
| FalsyBody
| NotAnObject
| Body (text session_id : json_text).

(** The reply of [chat]: an error with its status and its text (the
    details of an internal error are left out), or the dictionary that
    [process_message] returned ([None] for its default error dictionary),
    sent with the status 200; [ChatRunning] stands for a loop of the
    orchestrator that has not ended within the passes of [process_message]. *)
Inductive chat_reply :=
| ChatError (status : Z) (error : pystr)
| ChatJson (r : option response)
| ChatRunning.

Definition text_required : pystr :=
  py "Champ " ++ [34%N] ++ py "text" ++ [34%N] ++ py " requis et non vide".

(** [fresh_id] is the value of [str(uuid.uuid4())].  The orchestrator of the
    module is always set: the module exits when its construction fails. *)
Definition chat (o : Orchestrator) (w : Collab) (fresh_id : pystr) (req : chat_request)
    : Orchestrator * chat_reply :=
  let internal_error := ChatError 500 (py "Erreur interne du serveur") in
  match req with
  | NoJson => (o, internal_error)
  | FalsyBody => (o, ChatError 400 (py "Corps JSON requis"))
  | NotAnObject => (o, internal_error)
  | Body text session_id =>
    match get_stripped text with
    | None => (o, internal_error)
    | Some user_text =>
      match get_stripped session_id with
      | None => (o, internal_error)
      | Some stripped_id =>
        let session_id := if truthy stripped_id then stripped_id else fresh_id in
        if negb (truthy user_text) then (o, ChatError 400 text_required)
        else
          let '(o', result) := process_message o w session_id user_text in
          match result with
          | Responded r => (o', ChatJson (Some r))
          | DefaultError => (o', ChatJson None)
          | Propagated => (o', internal_error)
          | Unfinished => (o', ChatRunning)
          end
      end
    end
  end.

(** What the DELETE request for an event comes to: the JSON answer with its
    [code] ([None] when it has none), or an exception. *)
Inductive delete_outcome :=
| DeleteAnswer (code : option Z)
| DeleteRaises.

(** [result.get('code') == 200]; an exception counts as a failure. *)
Definition deletion_accepted (outcome : delete_outcome) : bool :=
  match outcome with
  | DeleteAnswer (Some code) => (code =? 200)%Z
  | DeleteAnswer None | DeleteRaises => false
  end.

(** The loop [for event_id in event_ids] of [confirm_agenda_changes],
    entered at the request number [k] with the two counters: the counters
    at the end, and the identifiers passed to [requests.get], in order. *)
Fixpoint delete_events (delete : nat -> pystr -> delete_outcome)
    (k : nat) (event_ids : list pystr) (deleted_count failed_count : nat)
    : nat * nat * list pystr :=
  match event_ids with
  | [] => (deleted_count, failed_count, [])
  | event_id :: rest =>
    let '(d, f, requests) :=
      if deletion_accepted (delete k event_id)
      then delete_events delete (S k) rest (deleted_count + 1) failed_count
      else delete_events delete (S k) rest deleted_count (failed_count + 1) in
    (d, f, event_id :: requests)
  end.

(** The request of [confirm_agenda_changes]: the method OPTIONS, a body that
    cannot be read or is no object, or an object with its keys [event_ids],
    a list of strings, and [action]; an absent key is [None]. *)
Inductive confirm_request :=
| ConfirmOptions
| ConfirmNoObject
| ConfirmBody (event_ids : option (list pystr)) (action : option pystr).

(** The reply: the answer to OPTIONS, a success with its message and its
    counters ([failed_count] is absent when nothing is applied), or the
    error of status 500. *)
Inductive confirm_reply :=
| ConfirmCors
| ConfirmDone (message : fstr) (deleted_count : nat) (failed_count : option nat)
| ConfirmError.

Definition confirm_agenda_changes (delete : nat -> pystr -> delete_outcome)
    (req : confirm_request)
    : confirm_reply * list pystr :=
  match req with
  | ConfirmOptions => (ConfirmCors, [])
  | ConfirmNoObject => (ConfirmError, [])
  | ConfirmBody event_ids action =>
    let event_ids := default [] event_ids in
    let action := default (py "apply") action in
    if str_eqb action (py "apply") && (0 <? length event_ids)%nat then
      let '(deleted_count, failed_count, requests) :=
        delete_events delete 0 event_ids 0 0 in
      (ConfirmDone
         [ Lit (py "✅ "); Num (inject_Z (Z.of_nat deleted_count));
           Lit (py " suppression(s) effectuée(s) avec succès") ]
         deleted_count (Some failed_count), requests)
    else (ConfirmDone [Lit (py "Modifications annulées")] 0 None, [])
  end.

End Routes.

(** ** Vocabulary of the properties *)

Section Vocabulary.
Context {L : PyLib}.

(** The utterance holds a critical phrase as a case-insensitive substring. *)
Definition contains_critical_phrase (text : pystr) : Prop :=
  exists keyword, In keyword critical_self_harm /\ str_in keyword (str_lower text) = true.

(** The crisis reply: the generated one, or the fallback when generation
    raises. *)
Definition emergency_text (w : Collab) (msg : pystr) : pystr :=
  default emergency_fallback_message (gemini_crisis_reply w msg).

(** The turn of [session_id] starts in ROUTING: the session is new, or it
    is neither flagged as an emergency nor waiting at a pending state. *)
Definition enters_at_routing (o : Orchestrator) (session_id : pystr) : Prop :=
  match sessions o !! session_id with
  | None => True
  | Some sd => s_is_emergency sd = false /\ s_next_state sd = None
  end.

(** [sd'] keeps what [sd] holds: the emergency flag if it is set, and every
    collected field that has a non-empty value. *)
Definition session_keeps (sd sd' : session) : Prop :=
  (s_is_emergency sd = true -> s_is_emergency sd' = true)
  /\ forall key value,
       s_collected_params sd !! key = Some value -> truthy value = true ->
       s_collected_params sd' !! key = Some value.

(** One call of [process_message]. *)
Record turn := {
  t_world : Collab;
  t_session_id : pystr;
  t_message : pystr
}.

Definition play_turn (o : Orchestrator) (t : turn) : Orchestrator :=
  (process_message o (t_world t) (t_session_id t) (t_message t)).1.

(** A sequence of calls of [process_message], without any reset. *)
Definition play_turns (o : Orchestrator) (turns : list turn) : Orchestrator :=
  fold_left play_turn turns o.

(** The orchestrators that [__init__], [process_message] and
    [reset_session] can produce. *)
Inductive reachable : Orchestrator -> Prop :=
| reachable_init (model : bool) (endpoint : option pystr) :
    reachable {| has_model := model; agenda_endpoint := endpoint; sessions := ∅ |}
| reachable_turn (o : Orchestrator) (t : turn) :
    reachable o -> reachable (play_turn o t)
| reachable_reset (o : Orchestrator) (session_id : pystr) :
    reachable o -> reachable (reset_session o session_id).

(** A pending state is one of the two that the handlers schedule. *)
Definition pending_ok (sd : session) : Prop :=
  s_next_state sd = None
  \/ s_next_state sd = Some COLLECTING_PARAMS
  \/ s_next_state sd = Some WAITING_USER_CONFIRMATION.

(** Which handler built a response, told by the keys it carries. *)
Inductive response_kind :=
| EmergencyTurn
| ConfirmationPrompt
| ReopenInvitation
| AnalysisResponse
| IntakeQuestion.

Definition kind_of (r : response) : response_kind :=
  match r_protocol r with
  | Some _ => EmergencyTurn
  | None =>
    if r_awaiting_confirmation r then ConfirmationPrompt
    else if r_awaiting_more_info r then ReopenInvitation
    else match r_analysis r with
         | Some _ => AnalysisResponse
         | None => IntakeQuestion
         end
  end.

(** The session a turn starts from, as the loop finds it. *)
Definition entry_session (o : Orchestrator) (session_id user_message : pystr) : session :=
  restore_next_state (_get_or_create_session o session_id user_message).

(** What the [is_emergency] key of a response tells, by kind. *)
Definition flag_by_kind (sd : session) (r : response) : Prop :=
  match kind_of r with
  | EmergencyTurn => r_is_emergency r = true /\ s_is_emergency sd = true
  | ConfirmationPrompt | ReopenInvitation => r_is_emergency r = s_is_emergency sd
  | AnalysisResponse | IntakeQuestion => r_is_emergency r = false
  end.

(** The session a loop result carries. *)
Definition loop_session (res : loop_result) : session :=
  match res with
  | LoopDone sd | LoopRaised sd | LoopRunning sd => sd
  end.


(** A finished turn: a response built and stored, the state final. *)
Definition turn_done (sd : session) : Prop :=
  s_state sd = FINAL_RESPONSE_READY
  /\ pending_ok sd
  /\ exists r, s_final_response sd = Some r /\ r_success r = true /\ flag_by_kind sd r.

(** The order of the severity levels. *)
Definition severity_rank (s : severity) : Z :=
  match s with
  | Faible => 0
  | Modere => 1
  | Eleve => 2
  end.

(** [a] comes no later than [b] in the order of the rebalancer: a lower
    priority first, and among equal priorities the longer event first. *)
Definition dispensable_before (a b : event) : Prop :=
  (default 5 (ev_priority a) < default 5 (ev_priority b)
   \/ (default 5 (ev_priority a) == default 5 (ev_priority b)
       /\ event_duration b <= event_duration a))%Q.

(** The hours freed by deleting [events], counted from [freed_hours] as the
    loop of the rebalancer counts them, one [+=] after the other. *)
Definition freed_after (freed_hours : Q) (events : list event) : Q :=
  fold_left (fun acc e => py_add acc (event_duration e)) events freed_hours.

(** The hours that a list of proposals frees, counted in the same way. *)
Definition proposed_hours (changes : list change) : Q :=
  fold_left (fun acc c => py_add acc (ch_duration c)) changes 0%Q.

End Vocabulary.

(** ** Vocabulary of the further properties *)

Section MoreVocabulary.
Context {L : PyLib}.

(** The result of [analyze_calendar_load] for an agenda that is empty or
    cannot be read. *)
Definition neutral_result : calendar_result :=
  {| cal_charge_totale_heures := 0%Q;
     cal_nombre_evenements := 0;
     cal_charge_excessive := false;
     cal_proposed_changes := [];
     cal_actions_effectuees := [];
     cal_calendar_message := [];
     cal_awaiting_confirmation := false |}.

(** No keyword of the six categories occurs. *)
Definition no_category_matches (symptomes emotion : pystr) : Prop :=
  any_in [py "anxiété"; py "anxieux"; py "stress"; py "angoisse"] (str_lower symptomes)
  = false
  /\ any_in [py "insomnie"; py "sommeil"; py "dors"] (str_lower symptomes) = false
  /\ any_in [py "fatigue"; py "épuisé"; py "énergie"] (str_lower symptomes) = false
  /\ any_in [py "concentration"; py "focus"; py "distrait"] (str_lower symptomes) = false
  /\ any_in [py "triste"; py "tristesse"; py "mélancolie"] (str_lower emotion) = false
  /\ any_in [py "dépression"; py "déprimé"; py "désespoir"] (str_lower emotion) = false.

(** The number of requests of a confirmation that the endpoint answers with
    the code 200, counted from the request number [k]. *)
Fixpoint accepted_deletions (delete : nat -> pystr -> delete_outcome) (k : nat)
    (event_ids : list pystr) : nat :=
  match event_ids with
  | [] => 0
  | event_id :: rest =>
    ((if deletion_accepted (delete k event_id) then 1 else 0)
     + accepted_deletions delete (S k) rest)%nat
  end.

End MoreVocabulary.

(** ** Sample collaborators, orchestrators and agendas *)

(** A world in which every call to Gemini and to the calendar fails. *)
Definition silent_world : Collab :=
  {| gemini_extract := fun _ => None;
     gemini_question := fun _ _ => None;
     gemini_crisis_reply := fun _ => None;
     gemini_slots := None;
     conversation_validation := fun _ _ =>
       py "Je vous entends. Vos émotions sont légitimes et importantes.";
     calendar_get := fun _ => ReadRequestError;
     calendar_post := fun _ => WriteRequestError (py "timeout") |}.

(** A world in which the extraction finds the five fields at once. *)
Definition informed_world : Collab :=
  {| gemini_extract := fun _ =>
       Some [ (py "emotion", py "suicide"); (py "causes", py "travail");
              (py "duration", py "3 mois"); (py "symptomes", py "insomnie");
              (py "intensite", py "9") ];
     gemini_question := fun _ _ => None;
     gemini_crisis_reply := fun _ => None;
     gemini_slots := None;
     conversation_validation := fun _ _ =>
       py "Je vous entends. Vos émotions sont légitimes et importantes.";
     calendar_get := fun _ => ReadRequestError;
     calendar_post := fun _ => WriteRequestError (py "timeout") |}.

(** A world in which the extraction finds another emotion and intensity. *)
Definition contrary_world : Collab :=
  {| gemini_extract := fun _ =>
       Some [ (py "emotion", py "joie"); (py "intensite", py "2") ];
     gemini_question := fun _ _ => None;
     gemini_crisis_reply := fun _ => None;
     gemini_slots := None;
     conversation_validation := fun _ _ =>
       py "Je vous entends. Vos émotions sont légitimes et importantes.";
     calendar_get := fun _ => ReadRequestError;
     calendar_post := fun _ => WriteRequestError (py "timeout") |}.

(** A world whose calendar holds [events] and answers [post] to a write. *)
Definition calendar_world (events : list event) (post : write_outcome) : Collab :=
  {| gemini_extract := fun _ => None;
     gemini_question := fun _ _ => None;
     gemini_crisis_reply := fun _ => None;
     gemini_slots := None;
     conversation_validation := fun _ _ =>
       py "Je vous entends. Vos émotions sont légitimes et importantes.";
     calendar_get := fun _ => ReadOk events;
     calendar_post := fun _ => post |}.

Definition fresh_orchestrator : Orchestrator :=
  {| has_model := false; agenda_endpoint := None; sessions := ∅ |}.

Definition model_orchestrator : Orchestrator :=
  {| has_model := true; agenda_endpoint := None; sessions := ∅ |}.

Definition sample_endpoint : option pystr := Some (py "https://agenda.example/api").

(** Ten hours: a meeting, a lunch without identifier, a review and a block
    of deep work. *)
Definition busy_day : list event :=
  [ {| ev_id := Some (py "e1"); ev_title := Some (py "Réunion client");
       ev_duration_hours := Some 4%Q; ev_priority := Some 3%Q;
       ev_start := Some (py "09:00") |};
    {| ev_id := None; ev_title := Some (py "Déjeuner");
       ev_duration_hours := Some 1%Q; ev_priority := Some 1%Q;
       ev_start := Some (py "12:00") |};
    {| ev_id := Some (py "e2"); ev_title := Some (py "Revue de code");
       ev_duration_hours := Some 3%Q; ev_priority := Some 1%Q;
       ev_start := Some (py "14:00") |};
    {| ev_id := Some (py "e3"); ev_title := Some (py "Travail de fond");
       ev_duration_hours := Some 2%Q; ev_priority := Some 1%Q;
       ev_start := Some (py "17:00") |} ].

(** Three events whose hours need rounding: 0.1, 0.2 and 8.  In binary64
    their sum exceeds 8 by 0.3000000000000007, and 0.2 + 0.1 is
    0.30000000000000004. *)
Definition rounding_day : list event :=
  [ {| ev_id := Some (py "a"); ev_title := Some (py "Appel");
       ev_duration_hours := Some (binary64 (1 # 10)); ev_priority := Some 1%Q;
       ev_start := Some (py "09:00") |};
    {| ev_id := Some (py "b"); ev_title := Some (py "Point d'équipe");
       ev_duration_hours := Some (binary64 (2 # 10)); ev_priority := Some 1%Q;
       ev_start := Some (py "09:30") |};
    {| ev_id := Some (py "c"); ev_title := Some (py "Séminaire");
       ev_duration_hours := Some 8%Q; ev_priority := Some 2%Q;
       ev_start := Some (py "10:00") |} ].

(** Four events of 3.1, 2.2, 2.4 and 0.3 hours: 8 hours in all, and
    8.000000000000002 once added in binary64. *)
Definition threshold_day : list event :=
  [ {| ev_id := Some (py "t1"); ev_title := Some (py "Atelier");
       ev_duration_hours := Some (binary64 (31 # 10)); ev_priority := Some 2%Q;
       ev_start := Some (py "08:00") |};
    {| ev_id := Some (py "t2"); ev_title := Some (py "Rédaction");
       ev_duration_hours := Some (binary64 (22 # 10)); ev_priority := Some 2%Q;
       ev_start := Some (py "11:30") |};
    {| ev_id := Some (py "t3"); ev_title := Some (py "Relecture");
       ev_duration_hours := Some (binary64 (24 # 10)); ev_priority := Some 3%Q;
       ev_start := Some (py "14:00") |};
    {| ev_id := Some (py "t4"); ev_title := Some (py "Courrier");
       ev_duration_hours := Some (binary64 (3 # 10)); ev_priority := Some 4%Q;
       ev_start := Some (py "17:00") |} ].

(** Five hours in one event. *)
Definition light_day : list event :=
  [ {| ev_id := Some (py "e1"); ev_title := Some (py "Atelier");
       ev_duration_hours := Some 5%Q; ev_priority := Some 2%Q;
       ev_start := Some (py "09:00") |} ].

(** A session whose intake is complete and whose analysis has been given. *)
Definition analysed_session : session :=
  set_user_confirmed true
    (set_params_complete true
       (set_collected_params
          (<[py "emotion" := py "stress"]>
             (<[py "causes" := py "travail"]>
                (<[py "duration" := py "3 mois"]>
                   (<[py "symptomes" := py "insomnie"]>
                      (<[py "intensite" := py "4"]> ∅)))))
          (new_session (py "s1")))).


(** An endpoint that accepts the first and the third deletion. *)
Definition two_of_three (k : nat) (event_id : pystr) : delete_outcome :=
  match k with
  | 0 => DeleteAnswer (Some 200%Z)
  | 1 => DeleteAnswer (Some 404%Z)
  | 2 => DeleteAnswer (Some 200%Z)
  | _ => DeleteRaises
  end.

(** An orchestrator with a calendar endpoint. *)
Definition calendar_orchestrator : Orchestrator :=
  {| has_model := false; agenda_endpoint := sample_endpoint; sessions := ∅ |}.

(** * Properties *)

Section Properties.
Context {L : PyLib}.

(** ** Strings and lists *)

Lemma str_eqb_eq (a b : pystr) : str_eqb a b = true <-> a = b.
Proof. unfold str_eqb. apply bool_decide_eq_true. Qed.

Lemma mem_str_In (s : pystr) (tokens : list pystr) :
  mem_str s tokens = true <-> In s tokens.
Proof.
  unfold mem_str. rewrite existsb_exists. split.
  - intros [x [Hx Heq]]. apply str_eqb_eq in Heq. now subst.
  - intros H. exists s. split; [assumption | now apply str_eqb_eq].
Qed.

Lemma startswith_app (p s : pystr) : startswith p (p ++ s) = true.
Proof.
  induction p as [|c p IH]; [reflexivity |].
  cbn [startswith app]. rewrite N.eqb_refl. exact IH.
Qed.

Lemma In_firstn {A} (n : nat) (l : list A) (x : A) : In x (firstn n l) -> In x l.
Proof.
  revert l. induction n as [|n IH]; intros [|a l] H; cbn [firstn] in H; try contradiction.
  destruct H as [-> | H]; [now left | right; now apply IH].
Qed.

Lemma filter_nil_iff {A} (f : A -> bool) (l : list A) :
  List.filter f l = [] <-> forall x, In x l -> f x = false.
Proof.
  induction l as [|a l IH]; cbn [List.filter].
  - split; [intros _ x [] | reflexivity].
  - destruct (f a) eqn:Ha.
    + split; [discriminate |]. intros H.
      specialize (H a (or_introl eq_refl)). congruence.
    + rewrite IH. split.
      * intros H x [<- | Hx]; auto.
      * intros H x Hx. apply H. now right.
Qed.

(** ** The emergency detector *)

Lemma detect_emergency_iff (text : pystr) :
  ed_is_emergency (detect_emergency text) = true <-> contains_critical_phrase text.
Proof.
  unfold detect_emergency, contains_critical_phrase.
  destruct (List.filter _ critical_self_harm) as [|k ks] eqn:Hf; cbn [ed_is_emergency].
  - split; [discriminate |]. intros [kw [Hin Hkw]].
    rewrite filter_nil_iff in Hf. rewrite (Hf kw Hin) in Hkw. discriminate.
  - split; [intros _ | reflexivity].
    assert (Hk : In k (List.filter (fun keyword => str_in keyword (str_lower text))
                         critical_self_harm)) by (rewrite Hf; now left).
    apply filter_In in Hk. exists k. exact Hk.
Qed.

Lemma detect_emergency_type (text : pystr) :
  ed_is_emergency (detect_emergency text) = true ->
  ed_type (detect_emergency text) = Some (py "self_harm")
  /\ ed_level (detect_emergency text) = py "CRITIQUE"
  /\ ed_urgency_score (detect_emergency text) = 10%Z.
Proof.
  unfold detect_emergency.
  destruct (List.filter _ critical_self_harm);
    cbn [ed_is_emergency ed_type ed_level ed_urgency_score];
    [discriminate | auto].
Qed.

Lemma handle_crisis_emergency (model : bool) (w : Collab) (msg : pystr) :
  ed_is_emergency (detect_emergency msg) = true ->
  cr_protocol (handle_crisis model w msg)
    = Some (_get_emergency_protocol (Some (py "self_harm")))
  /\ cr_emergency_data (handle_crisis model w msg) = detect_emergency msg.
Proof.
  intros H. unfold handle_crisis. rewrite H. cbn [negb cr_protocol cr_emergency_data].
  destruct (detect_emergency_type _ H) as [-> _]. split; reflexivity.
Qed.

Lemma default_startswith (fallback s : pystr) (reply : option pystr) :
  reply = None -> startswith (default fallback reply) s = true ->
  startswith fallback s = true.
Proof. intros ->. exact (fun H => H). Qed.

Lemma emergency_text_fallback (w : Collab) (msg s : pystr) :
  gemini_crisis_reply w msg = None ->
  startswith (emergency_text w msg) s = true ->
  startswith emergency_fallback_message s = true.
Proof. apply default_startswith. Qed.

Lemma self_harm_hotline :
  pr_hotline (_get_emergency_protocol (Some (py "self_harm"))) = py "3114".
Proof.
  unfold _get_emergency_protocol. rewrite bool_decide_eq_true_2 by reflexivity.
  reflexivity.
Qed.

(** ** The parameter collector *)

Lemma merge_params_keeps (new_params : list (pystr * pystr))
    (collected : gmap pystr pystr) (key value : pystr) :
  collected !! key = Some value -> truthy value = true ->
  merge_params collected new_params !! key = Some value.
Proof.
  unfold merge_params. revert collected.
  induction new_params as [|[k v] rest IH]; intros collected Hk Hv; cbn [fold_left].
  - exact Hk.
  - apply IH; [| exact Hv]. cbn [fst snd].
    destruct (truthy v && negb (has_value collected k)) eqn:Hw; [| exact Hk].
    destruct (decide (k = key)) as [-> | Hne].
    + unfold has_value in Hw. rewrite Hk, Hv in Hw.
      rewrite andb_false_r in Hw. discriminate.
    + rewrite lookup_insert_ne by exact Hne. exact Hk.
Qed.

Lemma collect_parameters_collected (model : bool) (w : Collab) (text : pystr)
    (current : gmap pystr pystr) :
  co_collected_params (collect_parameters model w text current)
  = merge_params current (_extract_params_with_gemini model w text).
Proof.
  unfold collect_parameters.
  destruct (List.filter _ REQUIRED_PARAMS); reflexivity.
Qed.

Lemma collect_parameters_keeps (model : bool) (w : Collab) (text : pystr)
    (current : gmap pystr pystr) (key value : pystr) :
  current !! key = Some value -> truthy value = true ->
  co_collected_params (collect_parameters model w text current) !! key = Some value.
Proof.
  intros Hk Hv. rewrite collect_parameters_collected.
  now apply merge_params_keeps.
Qed.

(** ** The state handlers *)

Lemma handle_routing_emergency (sd : session) (msg : pystr) :
  ed_is_emergency (detect_emergency msg) = true ->
  _handle_routing sd msg
  = set_state HANDLING_EMERGENCY (set_emergency_data (detect_emergency msg) sd).
Proof. intros H. unfold _handle_routing. now rewrite H. Qed.

Lemma handle_routing_state (sd : session) (msg : pystr) :
  let sd' := _handle_routing sd msg in
  s_state sd' <> FINAL_RESPONSE_READY
  /\ (s_state sd' = HANDLING_EMERGENCY -> ed_is_emergency (detect_emergency msg) = true)
  /\ s_is_emergency sd' = s_is_emergency sd
  /\ s_collected_params sd' = s_collected_params sd
  /\ s_next_state sd' = s_next_state sd
  /\ s_final_response sd' = s_final_response sd.
Proof.
  unfold _handle_routing.
  destruct (ed_is_emergency (detect_emergency msg)); [cbn; auto 10 |].
  destruct (s_params_complete sd), (default false (s_user_confirmed sd));
    cbn; repeat split; auto; discriminate.
Qed.

Lemma handle_emergency_spec (o : Orchestrator) (w : Collab) (sd : session) (msg : pystr) :
  ed_is_emergency (detect_emergency msg) = true ->
  exists sd' r,
    _handle_emergency o w sd msg = Returned sd'
    /\ s_state sd' = FINAL_RESPONSE_READY
    /\ s_is_emergency sd' = true
    /\ s_collected_params sd'
       = co_collected_params
           (collect_parameters (has_model o) w msg (s_collected_params sd))
    /\ (s_next_state sd' = Some COLLECTING_PARAMS
        \/ s_next_state sd' = Some WAITING_USER_CONFIRMATION)
    /\ s_final_response sd' = Some r
    /\ r_success r = true
    /\ r_is_emergency r = true
    /\ r_emergency_data r = Some (detect_emergency msg)
    /\ r_protocol r = Some (_get_emergency_protocol (Some (py "self_harm")))
    /\ startswith (emergency_text w msg) (r_response r) = true.
Proof.
  intros H. destruct (handle_crisis_emergency (has_model o) w msg H) as [Hp He].
  unfold _handle_emergency. rewrite Hp, He.
  assert (Hs : forall a : pystr, startswith a a = true).
  { intros a. rewrite <- (app_nil_r a) at 2. apply startswith_app. }
  cbn.
  destruct (co_is_complete (collect_parameters (has_model o) w msg (s_collected_params sd)));
    eexists; eexists; (split; [reflexivity |]); cbn;
    repeat split; auto; first [apply Hs | apply startswith_app].
Qed.

Lemma handle_emergency_keeps (o : Orchestrator) (w : Collab) (sd sd' : session)
    (msg : pystr) :
  _handle_emergency o w sd msg = Returned sd' \/ _handle_emergency o w sd msg = KeyError sd' ->
  s_is_emergency sd' = true
  /\ (s_collected_params sd' = s_collected_params sd
      \/ s_collected_params sd'
         = co_collected_params
             (collect_parameters (has_model o) w msg (s_collected_params sd))).
Proof.
  unfold _handle_emergency.
  destruct (cr_protocol (handle_crisis (has_model o) w msg)).
  - cbn. intros [H | H]; [| discriminate]. injection H as <-.
    destruct (co_is_complete _); cbn; auto.
  - intros [H | H]; [discriminate |]. injection H as <-. cbn. auto.
Qed.

Lemma handle_collecting_spec (o : Orchestrator) (w : Collab) (sd : session) (msg : pystr) :
  let sd' := _handle_collecting_params o w sd msg in
  let collection := collect_parameters (has_model o) w msg (s_collected_params sd) in
  s_state sd' = FINAL_RESPONSE_READY
  /\ s_is_emergency sd' = s_is_emergency sd
  /\ s_collected_params sd' = co_collected_params collection
  /\ (s_next_state sd' = s_next_state sd
      \/ s_next_state sd' = Some WAITING_USER_CONFIRMATION)
  /\ exists r,
       s_final_response sd' = Some r
       /\ r_success r = true
       /\ r_protocol r = None
       /\ r_analysis r = None
       /\ r_awaiting_more_info r = false
       /\ r_awaiting_confirmation r = co_is_complete collection
       /\ r_is_emergency r = co_is_complete collection && s_is_emergency sd.
Proof.
  unfold _handle_collecting_params. cbn.
  destruct (co_is_complete (collect_parameters (has_model o) w msg (s_collected_params sd)));
    cbn; repeat split; auto; eexists; repeat split; reflexivity.
Qed.

Lemma handle_waiting_negative (sd : session) (msg : pystr) :
  In (strip (str_lower msg)) negative_tokens ->
  _handle_waiting_confirmation sd msg
  = set_state ANALYZING_AND_RESPONDING (set_user_confirmed true sd).
Proof.
  intros H. apply mem_str_In in H.
  unfold _handle_waiting_confirmation. now rewrite H.
Qed.

Lemma handle_waiting_spec (sd : session) (msg : pystr) :
  let sd' := _handle_waiting_confirmation sd msg in
  s_is_emergency sd' = s_is_emergency sd
  /\ s_collected_params sd' = s_collected_params sd
  /\ s_next_state sd' = s_next_state sd
  /\ ((s_state sd' = ANALYZING_AND_RESPONDING
       /\ s_user_confirmed sd' = Some true
       /\ s_final_response sd' = s_final_response sd)
      \/ (s_state sd' = FINAL_RESPONSE_READY
          /\ s_user_confirmed sd' = Some false
          /\ s_params_complete sd' = false
          /\ exists r,
               s_final_response sd' = Some r
               /\ r_success r = true
               /\ r_protocol r = None
               /\ r_awaiting_confirmation r = false
               /\ r_awaiting_more_info r = true
               /\ r_is_emergency r = s_is_emergency sd)).
Proof.
  unfold _handle_waiting_confirmation.
  destruct (mem_str _ negative_tokens); [cbn; auto 10 |].
  destruct (mem_str _ positive_tokens || _); [| cbn; auto 10].
  cbn. repeat split; auto. right. repeat split; auto.
  eexists; repeat split; reflexivity.
Qed.

Lemma handle_analysis_spec (o : Orchestrator) (w : Collab) (sd : session) (msg : pystr) :
  let sd' := _handle_analysis_and_response o w sd msg in
  s_state sd' = FINAL_RESPONSE_READY
  /\ s_is_emergency sd' = s_is_emergency sd
  /\ s_collected_params sd' = s_collected_params sd
  /\ s_next_state sd' = s_next_state sd
  /\ s_user_confirmed sd' = s_user_confirmed sd
  /\ exists r,
       s_final_response sd' = Some r
       /\ r_success r = true
       /\ r_is_emergency r = false
       /\ r_protocol r = None
       /\ r_awaiting_confirmation r = false
       /\ r_awaiting_more_info r = false
       /\ r_analysis r = Some (analyze_psychological_state (s_collected_params sd) msg).
Proof.
  unfold _handle_analysis_and_response. cbn.
  repeat split; auto. eexists; repeat split; reflexivity.
Qed.

(** ** The loop of the state machine *)

Lemma state_loop_done (fuel : nat) (o : Orchestrator) (w : Collab) (sd : session)
    (msg : pystr) :
  s_state sd = FINAL_RESPONSE_READY -> state_loop fuel o w sd msg = LoopDone sd.
Proof.
  intros H. destruct fuel; cbn [state_loop]; now rewrite bool_decide_eq_true_2.
Qed.

Lemma state_loop_step (fuel : nat) (o : Orchestrator) (w : Collab) (sd : session)
    (msg : pystr) :
  s_state sd <> FINAL_RESPONSE_READY ->
  state_loop (S fuel) o w sd msg
  = match dispatch o w sd msg with
    | Returned sd1 => state_loop fuel o w sd1 msg
    | KeyError sd1 => LoopRaised sd1
    end.
Proof. intros H. cbn [state_loop]. now rewrite bool_decide_eq_false_2. Qed.

Lemma loop_collecting (fuel : nat) (o : Orchestrator) (w : Collab) (sd : session)
    (msg : pystr) :
  s_state sd = COLLECTING_PARAMS ->
  state_loop (S fuel) o w sd msg = LoopDone (_handle_collecting_params o w sd msg).
Proof.
  intros H. rewrite state_loop_step by (rewrite H; discriminate).
  unfold dispatch. rewrite H. apply state_loop_done.
  apply (handle_collecting_spec o w sd msg).
Qed.

Lemma loop_analyzing (fuel : nat) (o : Orchestrator) (w : Collab) (sd : session)
    (msg : pystr) :
  s_state sd = ANALYZING_AND_RESPONDING ->
  state_loop (S fuel) o w sd msg = LoopDone (_handle_analysis_and_response o w sd msg).
Proof.
  intros H. rewrite state_loop_step by (rewrite H; discriminate).
  unfold dispatch. rewrite H. apply state_loop_done.
  apply (handle_analysis_spec o w sd msg).
Qed.

Lemma loop_emergency (fuel : nat) (o : Orchestrator) (w : Collab) (sd : session)
    (msg : pystr) :
  s_state sd = HANDLING_EMERGENCY ->
  ed_is_emergency (detect_emergency msg) = true ->
  exists sd', _handle_emergency o w sd msg = Returned sd'
              /\ state_loop (S fuel) o w sd msg = LoopDone sd'.
Proof.
  intros H Hd. destruct (handle_emergency_spec o w sd msg Hd) as (sd' & r & He & Hs & _).
  exists sd'. split; [exact He |].
  rewrite state_loop_step by (rewrite H; discriminate).
  unfold dispatch. rewrite H, He. now apply state_loop_done.
Qed.

Lemma loop_waiting (fuel : nat) (o : Orchestrator) (w : Collab) (sd : session)
    (msg : pystr) :
  s_state sd = WAITING_USER_CONFIRMATION ->
  state_loop (S (S fuel)) o w sd msg
  = if bool_decide (s_state (_handle_waiting_confirmation sd msg) = FINAL_RESPONSE_READY)
    then LoopDone (_handle_waiting_confirmation sd msg)
    else LoopDone (_handle_analysis_and_response o w
                     (_handle_waiting_confirmation sd msg) msg).
Proof.
  intros H. rewrite state_loop_step by (rewrite H; discriminate).
  unfold dispatch at 1. rewrite H.
  destruct (handle_waiting_spec sd msg) as (_ & _ & _ & [[Hs _] | [Hs _]]).
  - rewrite bool_decide_eq_false_2 by (rewrite Hs; discriminate).
    now apply loop_analyzing.
  - rewrite bool_decide_eq_true_2 by exact Hs. now apply state_loop_done.
Qed.

Lemma loop_waiting_negative (fuel : nat) (o : Orchestrator) (w : Collab) (sd : session)
    (msg : pystr) :
  s_state sd = WAITING_USER_CONFIRMATION ->
  In (strip (str_lower msg)) negative_tokens ->
  state_loop (S (S fuel)) o w sd msg
  = LoopDone (_handle_analysis_and_response o w
                (set_state ANALYZING_AND_RESPONDING (set_user_confirmed true sd)) msg).
Proof.
  intros H Hn. rewrite loop_waiting by exact H.
  rewrite (handle_waiting_negative sd msg Hn).
  now rewrite bool_decide_eq_false_2 by (cbn; discriminate).
Qed.

Lemma loop_routing_emergency (fuel : nat) (o : Orchestrator) (w : Collab) (sd : session)
    (msg : pystr) :
  s_state sd = ROUTING ->
  ed_is_emergency (detect_emergency msg) = true ->
  exists sd',
    _handle_emergency o w
      (set_state HANDLING_EMERGENCY (set_emergency_data (detect_emergency msg) sd)) msg
    = Returned sd'
    /\ state_loop (S (S fuel)) o w sd msg = LoopDone sd'.
Proof.
  intros H Hd. rewrite state_loop_step by (rewrite H; discriminate).
  unfold dispatch at 1. rewrite H, (handle_routing_emergency sd msg Hd).
  now apply loop_emergency.
Qed.

(** *** Every handler keeps the flag and the collected fields *)

Lemma session_keeps_refl (sd : session) : session_keeps sd sd.
Proof. split; auto. Qed.

Lemma session_keeps_trans (a b c : session) :
  session_keeps a b -> session_keeps b c -> session_keeps a c.
Proof. intros [H1 H2] [H3 H4]. split; auto. Qed.

Lemma session_keeps_same (sd sd' : session) :
  s_is_emergency sd' = s_is_emergency sd ->
  s_collected_params sd' = s_collected_params sd ->
  session_keeps sd sd'.
Proof. intros H1 H2. split; [rewrite H1 | rewrite H2]; auto. Qed.

Lemma dispatch_keeps (o : Orchestrator) (w : Collab) (sd sd' : session) (msg : pystr) :
  dispatch o w sd msg = Returned sd' \/ dispatch o w sd msg = KeyError sd' ->
  session_keeps sd sd'.
Proof.
  unfold dispatch. destruct (s_state sd).
  - intros [H | H]; [| discriminate]. injection H as <-.
    apply session_keeps_same; apply (handle_routing_state sd msg).
  - intros H. apply handle_emergency_keeps in H. destruct H as [He Hc].
    split; [auto |]. intros k v Hk Hv. destruct Hc as [-> | ->]; [exact Hk |].
    now apply collect_parameters_keeps.
  - intros [H | H]; [| discriminate]. injection H as <-.
    destruct (handle_collecting_spec o w sd msg) as (_ & He & Hc & _).
    split; [now rewrite He |]. intros k v Hk Hv. rewrite Hc.
    now apply collect_parameters_keeps.
  - intros [H | H]; [| discriminate]. injection H as <-.
    apply session_keeps_same; apply (handle_waiting_spec sd msg).
  - intros [H | H]; [| discriminate]. injection H as <-.
    apply session_keeps_same; apply (handle_analysis_spec o w sd msg).
  - intros [H | H]; [| discriminate]. injection H as <-. apply session_keeps_refl.
Qed.

Lemma state_loop_keeps (fuel : nat) (o : Orchestrator) (w : Collab) (sd : session)
    (msg : pystr) :
  session_keeps sd (loop_session (state_loop fuel o w sd msg)).
Proof.
  revert sd. induction fuel as [|fuel IH]; intros sd; cbn [state_loop];
    destruct (bool_decide (s_state sd = FINAL_RESPONSE_READY));
    try apply session_keeps_refl.
  destruct (dispatch o w sd msg) as [sd1 | sd1] eqn:Hd.
  - apply session_keeps_trans with sd1; [| apply IH].
    apply (dispatch_keeps o w sd sd1 msg). now left.
  - apply (dispatch_keeps o w sd sd1 msg). now right.
Qed.

Lemma entry_session_fields (o : Orchestrator) (sid msg : pystr) :
  let sd := default (new_session sid) (sessions o !! sid) in
  let e := entry_session o sid msg in
  s_is_emergency e = s_is_emergency sd
  /\ s_collected_params e = s_collected_params sd
  /\ s_next_state e = None
  /\ s_state e = match s_next_state sd with
                 | Some st => st
                 | None => if s_is_emergency sd then COLLECTING_PARAMS else ROUTING
                 end
  /\ s_params_complete e = s_params_complete sd
  /\ s_user_confirmed e = s_user_confirmed sd
  /\ s_session_id e = s_session_id sd.
Proof.
  unfold entry_session, restore_next_state, _get_or_create_session. cbv zeta.
  generalize (default (new_session sid) (sessions o !! sid)). intros sd.
  destruct (s_is_emergency sd) eqn:He; cbn; destruct (s_next_state sd) eqn:Hn; cbn;
    rewrite ?He, ?Hn; auto 10.
Qed.

Lemma entry_session_keeps (o : Orchestrator) (sid msg : pystr) (sd : session) :
  sessions o !! sid = Some sd ->
  session_keeps sd (entry_session o sid msg).
Proof.
  intros H. pose proof (entry_session_fields o sid msg) as F.
  rewrite H in F. cbn [default] in F.
  apply session_keeps_same; apply F.
Qed.

Lemma process_message_session (o : Orchestrator) (w : Collab) (sid msg : pystr) :
  (process_message o w sid msg).1
  = with_session o sid (loop_session (state_loop 3 o w (entry_session o sid msg) msg)).
Proof.
  unfold process_message, process_message_fuel, entry_session.
  destruct (state_loop 3 o w _ msg); reflexivity.
Qed.

Lemma process_message_keeps (o : Orchestrator) (w : Collab) (sid msg : pystr)
    (key : pystr) (sd : session) :
  sessions o !! key = Some sd ->
  exists sd', sessions (process_message o w sid msg).1 !! key = Some sd'
              /\ session_keeps sd sd'.
Proof.
  intros H. rewrite process_message_session. cbn [with_session sessions].
  destruct (decide (sid = key)) as [-> | Hne].
  - rewrite lookup_insert_eq. eexists. split; [reflexivity |].
    eapply session_keeps_trans; [| apply state_loop_keeps].
    now apply entry_session_keeps.
  - rewrite lookup_insert_ne by exact Hne. exists sd. split; [exact H | apply session_keeps_refl].
Qed.

Lemma play_turns_keeps (turns : list turn) (o : Orchestrator) (key : pystr) (sd : session) :
  sessions o !! key = Some sd ->
  exists sd', sessions (play_turns o turns) !! key = Some sd' /\ session_keeps sd sd'.
Proof.
  revert o sd. induction turns as [|t turns IH]; intros o sd H; cbn [play_turns fold_left].
  - exists sd. split; [exact H | apply session_keeps_refl].
  - destruct (process_message_keeps o (t_world t) (t_session_id t) (t_message t) key sd H)
      as (sd1 & H1 & K1).
    destruct (IH (play_turn o t) sd1 H1) as (sd2 & H2 & K2).
    exists sd2. split; [exact H2 | now apply session_keeps_trans with sd1].
Qed.

(** *** Every turn ends with a response built during the turn *)

Lemma collecting_turn_done (o : Orchestrator) (w : Collab) (sd : session) (msg : pystr) :
  s_next_state sd = None -> turn_done (_handle_collecting_params o w sd msg).
Proof.
  intros Hn.
  destruct (handle_collecting_spec o w sd msg)
    as (Hs & He & _ & Hp & r & Hr & Hok & Hpr & Han & Hmi & Hco & Hem).
  split; [exact Hs |]. split.
  - unfold pending_ok. destruct Hp as [-> | ->]; auto.
  - exists r. split; [exact Hr |]. split; [exact Hok |].
    unfold flag_by_kind, kind_of. rewrite Hpr, Hco, Hmi, Han, Hem, He.
    destruct (co_is_complete _); reflexivity.
Qed.

Lemma analysis_turn_done (o : Orchestrator) (w : Collab) (sd : session) (msg : pystr) :
  s_next_state sd = None -> turn_done (_handle_analysis_and_response o w sd msg).
Proof.
  intros Hn.
  destruct (handle_analysis_spec o w sd msg)
    as (Hs & He & _ & Hp & _ & r & Hr & Hok & Hem & Hpr & Hco & Hmi & Han).
  split; [exact Hs |]. split.
  - unfold pending_ok. rewrite Hp. auto.
  - exists r. split; [exact Hr |]. split; [exact Hok |].
    unfold flag_by_kind, kind_of. rewrite Hpr, Hco, Hmi, Han. exact Hem.
Qed.

Lemma emergency_turn_done (o : Orchestrator) (w : Collab) (sd sd' : session) (msg : pystr) :
  ed_is_emergency (detect_emergency msg) = true ->
  _handle_emergency o w sd msg = Returned sd' -> turn_done sd'.
Proof.
  intros Hd He.
  destruct (handle_emergency_spec o w sd msg Hd)
    as (sd1 & r & He1 & Hs & Hf & _ & Hp & Hr & Hok & Hem & _ & Hpr & _).
  rewrite He in He1. injection He1 as <-.
  split; [exact Hs |]. split.
  - unfold pending_ok. tauto.
  - exists r. split; [exact Hr |]. split; [exact Hok |].
    unfold flag_by_kind, kind_of. rewrite Hpr. auto.
Qed.

Lemma waiting_turn_done (fuel : nat) (o : Orchestrator) (w : Collab) (sd : session)
    (msg : pystr) :
  s_state sd = WAITING_USER_CONFIRMATION -> s_next_state sd = None ->
  exists sd', state_loop (S (S fuel)) o w sd msg = LoopDone sd' /\ turn_done sd'.
Proof.
  intros Hs Hn. rewrite loop_waiting by exact Hs.
  destruct (handle_waiting_spec sd msg) as (He & _ & Hp & [(Hst & _) | (Hst & _ & _ & Hr)]).
  - rewrite bool_decide_eq_false_2 by (rewrite Hst; discriminate).
    eexists. split; [reflexivity |]. apply analysis_turn_done. now rewrite Hp.
  - rewrite bool_decide_eq_true_2 by exact Hst.
    eexists. split; [reflexivity |]. split; [exact Hst |]. split.
    + unfold pending_ok. rewrite Hp. auto.
    + destruct Hr as (r & Hr & Hok & Hpr & Hco & Hmi & Hem).
      exists r. split; [exact Hr |]. split; [exact Hok |].
      unfold flag_by_kind, kind_of. rewrite Hpr, Hco, Hmi, Hem, He. reflexivity.
Qed.

Lemma routing_turn_done (o : Orchestrator) (w : Collab) (sd : session) (msg : pystr) :
  s_state sd = ROUTING -> s_next_state sd = None ->
  exists sd', state_loop 3 o w sd msg = LoopDone sd' /\ turn_done sd'.
Proof.
  intros Hs Hn. rewrite state_loop_step by (rewrite Hs; discriminate).
  unfold dispatch at 1. rewrite Hs.
  destruct (handle_routing_state sd msg) as (Hnf & Hem & _ & _ & Hp & _).
  rewrite <- Hp in Hn.
  destruct (s_state (_handle_routing sd msg)) eqn:Hst.
  - (* the routing handler never stays in ROUTING *)
    exfalso. revert Hst. unfold _handle_routing.
    destruct (ed_is_emergency _); [cbn; discriminate |].
    destruct (s_params_complete sd), (default false (s_user_confirmed sd));
      cbn; discriminate.
  - specialize (Hem eq_refl).
    destruct (loop_emergency 1 o w _ msg Hst Hem) as (sd' & He & Hl).
    exists sd'. split; [exact Hl |]. exact (emergency_turn_done o w _ sd' msg Hem He).
  - rewrite loop_collecting by exact Hst.
    eexists. split; [reflexivity |]. now apply collecting_turn_done.
  - now apply waiting_turn_done.
  - rewrite loop_analyzing by exact Hst.
    eexists. split; [reflexivity |]. now apply analysis_turn_done.
  - now destruct Hnf.
Qed.

Lemma loop_turn_done (o : Orchestrator) (w : Collab) (sd : session) (msg : pystr) :
  s_next_state sd = None ->
  s_state sd = ROUTING \/ s_state sd = COLLECTING_PARAMS
    \/ s_state sd = WAITING_USER_CONFIRMATION ->
  exists sd', state_loop 3 o w sd msg = LoopDone sd' /\ turn_done sd'.
Proof.
  intros Hn [Hs | [Hs | Hs]].
  - now apply routing_turn_done.
  - rewrite loop_collecting by exact Hs.
    eexists. split; [reflexivity |]. now apply collecting_turn_done.
  - now apply waiting_turn_done.
Qed.

Lemma entry_session_state (o : Orchestrator) (sid msg : pystr) :
  (forall sd, sessions o !! sid = Some sd -> pending_ok sd) ->
  s_next_state (entry_session o sid msg) = None
  /\ (s_state (entry_session o sid msg) = ROUTING
      \/ s_state (entry_session o sid msg) = COLLECTING_PARAMS
      \/ s_state (entry_session o sid msg) = WAITING_USER_CONFIRMATION).
Proof.
  intros Hok. destruct (entry_session_fields o sid msg) as (_ & _ & Hn & Hs & _).
  split; [exact Hn |]. rewrite Hs.
  destruct (sessions o !! sid) as [sd |] eqn:Hl; cbn.
  - destruct (Hok sd eq_refl) as [-> | [-> | ->]]; auto.
    destruct (s_is_emergency sd); auto.
  - cbn. auto.
Qed.

Lemma entry_session_routing (o : Orchestrator) (sid msg : pystr) :
  enters_at_routing o sid -> s_state (entry_session o sid msg) = ROUTING.
Proof.
  intros Hentry. destruct (entry_session_fields o sid msg) as (_ & _ & _ & Hs & _).
  rewrite Hs. unfold enters_at_routing in Hentry.
  destruct (sessions o !! sid) as [sd |]; cbn.
  - destruct Hentry as [-> ->]. reflexivity.
  - reflexivity.
Qed.

Lemma process_message_done (o : Orchestrator) (w : Collab) (sid msg : pystr) (sd' : session) :
  state_loop 3 o w (entry_session o sid msg) msg = LoopDone sd' ->
  forall r, s_final_response sd' = Some r ->
  process_message o w sid msg = (with_session o sid sd', Responded r).
Proof.
  intros Hl r Hr. unfold process_message, process_message_fuel.
  fold (entry_session o sid msg). now rewrite Hl, Hr.
Qed.

Lemma process_message_responds (o : Orchestrator) (w : Collab) (sid msg : pystr) :
  (forall sd, sessions o !! sid = Some sd -> pending_ok sd) ->
  exists sd' r,
    process_message o w sid msg = (with_session o sid sd', Responded r)
    /\ s_final_response sd' = Some r
    /\ turn_done sd'.
Proof.
  intros Hok. destruct (entry_session_state o sid msg Hok) as [Hn Hs].
  destruct (loop_turn_done o w _ msg Hn Hs) as (sd' & Hl & Hd).
  destruct Hd as (Hst & Hp & r & Hr & Hrest).
  exists sd', r. split; [now apply process_message_done |]. split; [exact Hr |].
  split; [exact Hst |]. split; [exact Hp |]. now exists r.
Qed.

Lemma reachable_pending_ok (o : Orchestrator) :
  reachable o -> forall sid sd, sessions o !! sid = Some sd -> pending_ok sd.
Proof.
  induction 1 as [model endpoint | o t Hr IH | o key Hr IH]; intros sid sd Hl.
  - cbn in Hl. rewrite lookup_empty in Hl. discriminate.
  - unfold play_turn in Hl.
    destruct (process_message_responds o (t_world t) (t_session_id t) (t_message t))
      as (sd' & r & Hpm & _ & Hd); [intros sd0; apply IH |].
    rewrite Hpm in Hl. cbn [fst with_session sessions] in Hl.
    destruct (decide (t_session_id t = sid)) as [Heq | Hne].
    + subst sid. rewrite lookup_insert_eq in Hl. injection Hl as <-. apply Hd.
    + rewrite lookup_insert_ne in Hl by exact Hne. now apply (IH sid).
  - cbn in Hl. destruct (decide (key = sid)) as [-> | Hne].
    + rewrite lookup_delete_eq in Hl. discriminate.
    + rewrite lookup_delete_ne in Hl by exact Hne. now apply (IH sid).
Qed.

(** *** Turns that do not start in ROUTING *)









(** ** The conversation state machine: the claims *)


(** C2.  Along every sequence of calls of [process_message], a session keeps
    its emergency flag once it is set, and keeps every collected field that
    holds a non-empty value; [reset_session] removes the session. *)
Theorem session_flag_and_fields_persist (o : Orchestrator) (turns : list turn)
    (sid : pystr) (sd : session) :
  sessions o !! sid = Some sd ->
  (exists sd',
     sessions (play_turns o turns) !! sid = Some sd'
     /\ (s_is_emergency sd = true -> s_is_emergency sd' = true)
     /\ (forall key value,
           s_collected_params sd !! key = Some value -> truthy value = true ->
           s_collected_params sd' !! key = Some value))
  /\ get_session_info (reset_session o sid) sid = None.
Proof.
  intros H. split.
  - destruct (play_turns_keeps turns o sid sd H) as (sd' & Hl & Hf & Hc).
    exists sd'. auto.
  - unfold get_session_info, reset_session. cbn. apply lookup_delete_eq.
Qed.

(** C3.  In state WAITING_USER_CONFIRMATION, a message whose lowercased and
    trimmed form is one of the negative tokens sets [user_confirmed] and
    moves to ANALYZING_AND_RESPONDING, whatever the length of the message,
    and the loop of the same turn ends with the response of the analysis. *)
Theorem negative_token_confirms (fuel : nat) (o : Orchestrator) (w : Collab)
    (sd : session) (msg : pystr) :
  s_state sd = WAITING_USER_CONFIRMATION ->
  In (strip (str_lower msg)) negative_tokens ->
  let sd1 := _handle_waiting_confirmation sd msg in
  let sd2 := _handle_analysis_and_response o w sd1 msg in
  s_user_confirmed sd1 = Some true
  /\ s_state sd1 = ANALYZING_AND_RESPONDING
  /\ s_final_response sd1 = s_final_response sd
  /\ state_loop (S (S fuel)) o w sd msg = LoopDone sd2
  /\ s_user_confirmed sd2 = Some true
  /\ exists r,
       s_final_response sd2 = Some r
       /\ r_analysis r = Some (analyze_psychological_state (s_collected_params sd) msg).
Proof.
  intros Hs Hn. cbv zeta.
  rewrite (loop_waiting_negative fuel o w sd msg Hs Hn).
  rewrite (handle_waiting_negative sd msg Hn).
  destruct (handle_analysis_spec o w
              (set_state ANALYZING_AND_RESPONDING (set_user_confirmed true sd)) msg)
    as (_ & _ & _ & _ & _ & r & Hr & _ & _ & _ & _ & _ & Ha).
  repeat split.
  exists r. split; [exact Hr | exact Ha].
Qed.

(** C9.  On an utterance that contains a critical phrase the emergency
    handler always returns: its response has [success] and [is_emergency]
    true and the 3114 protocol; when the generation of the reply raises, the
    text starts with the fallback message, which names the 3114.  A turn that
    starts in ROUTING, as the first turn of a new session does, gives that
    response. *)
Theorem crisis_turn_never_fails (o : Orchestrator) (w : Collab) (sd : session)
    (sid msg : pystr) :
  contains_critical_phrase msg ->
  enters_at_routing o sid ->
  (exists sd' r,
     _handle_emergency o w sd msg = Returned sd'
     /\ s_final_response sd' = Some r
     /\ r_success r = true
     /\ r_is_emergency r = true
     /\ pr_hotline <$> r_protocol r = Some (py "3114")
     /\ (gemini_crisis_reply w msg = None ->
         startswith emergency_fallback_message (r_response r) = true))
  /\ str_in (py "3114") emergency_fallback_message = true
  /\ (exists o' r,
        process_message o w sid msg = (o', Responded r)
        /\ r_success r = true
        /\ r_is_emergency r = true
        /\ pr_hotline <$> r_protocol r = Some (py "3114")
        /\ (gemini_crisis_reply w msg = None ->
            startswith emergency_fallback_message (r_response r) = true)).
Proof.
  intros Hcrit Hentry. apply detect_emergency_iff in Hcrit.
  assert (Hhot : forall r,
            r_protocol r = Some (_get_emergency_protocol (Some (py "self_harm"))) ->
            pr_hotline <$> r_protocol r = Some (py "3114")).
  { intros r ->. cbn. now rewrite self_harm_hotline. }
  assert (Hfb : forall r,
            startswith (emergency_text w msg) (r_response r) = true ->
            gemini_crisis_reply w msg = None ->
            startswith emergency_fallback_message (r_response r) = true).
  { intros r Hst Hnone. exact (emergency_text_fallback w msg _ Hnone Hst). }
  split; [| split].
  - destruct (handle_emergency_spec o w sd msg Hcrit)
      as (sd' & r & He & _ & _ & _ & _ & Hr & Hok & Hem & _ & Hpr & Hst).
    exists sd', r. repeat split; auto.
  - vm_compute. reflexivity.
  - pose proof (entry_session_routing o sid msg Hentry) as Hs.
    destruct (loop_routing_emergency 1 o w _ msg Hs Hcrit) as (sd' & He & Hl).
    destruct (handle_emergency_spec o w
                (set_state HANDLING_EMERGENCY
                   (set_emergency_data (detect_emergency msg) (entry_session o sid msg)))
                msg Hcrit)
      as (sd1 & r & He1 & _ & _ & _ & _ & Hr & Hok & Hem & _ & Hpr & Hst).
    rewrite He in He1. injection He1 as <-.
    exists (with_session o sid sd'), r.
    split; [now apply process_message_done |]. repeat split; auto.
Qed.

(** C10 (amended).  Whatever the flag of the session, the response of the
    analysis and the intake question carry [is_emergency] false; the
    response of an emergency turn carries true; the confirmation prompt of a
    completed intake and the invitation that reopens the intake carry the
    flag of the session.  Every turn of a reachable orchestrator gives one of
    these five responses. *)
Theorem response_flag_by_kind (o : Orchestrator) (w : Collab) (sid msg : pystr) :
  reachable o ->
  (exists sd' r,
     process_message o w sid msg = (with_session o sid sd', Responded r)
     /\ match kind_of r with
        | AnalysisResponse | IntakeQuestion => r_is_emergency r = false
        | EmergencyTurn => r_is_emergency r = true /\ s_is_emergency sd' = true
        | ConfirmationPrompt | ReopenInvitation => r_is_emergency r = s_is_emergency sd'
        end)
  /\ (forall sd,
        exists r, s_final_response (_handle_analysis_and_response o w sd msg) = Some r
                  /\ kind_of r = AnalysisResponse /\ r_is_emergency r = false)
  /\ (forall sd,
        exists r, s_final_response (_handle_collecting_params o w sd msg) = Some r
                  /\ (kind_of r = IntakeQuestion /\ r_is_emergency r = false
                      \/ kind_of r = ConfirmationPrompt
                         /\ r_is_emergency r = s_is_emergency sd))
  /\ (forall sd,
        s_state (_handle_waiting_confirmation sd msg) = FINAL_RESPONSE_READY ->
        exists r, s_final_response (_handle_waiting_confirmation sd msg) = Some r
                  /\ kind_of r = ReopenInvitation
                  /\ r_is_emergency r = s_is_emergency sd).
Proof.
  intros Hreach. split; [| split; [| split]].
  - destruct (process_message_responds o w sid msg) as (sd' & r & Hpm & Hr & Hd).
    { intros sd. now apply reachable_pending_ok. }
    destruct Hd as (_ & _ & r' & Hr' & _ & Hflag).
    rewrite Hr in Hr'. injection Hr' as <-.
    exists sd', r. split; [exact Hpm | exact Hflag].
  - intros sd. destruct (handle_analysis_spec o w sd msg)
      as (_ & _ & _ & _ & _ & r & Hr & _ & Hem & Hpr & Hco & Hmi & Han).
    exists r. split; [exact Hr |]. split; [| exact Hem].
    unfold kind_of. now rewrite Hpr, Hco, Hmi, Han.
  - intros sd. destruct (handle_collecting_spec o w sd msg)
      as (_ & _ & _ & _ & r & Hr & _ & Hpr & Han & Hmi & Hco & Hem).
    exists r. split; [exact Hr |]. unfold kind_of. rewrite Hpr, Hco, Hmi, Han, Hem.
    destruct (co_is_complete _); cbn; auto.
  - intros sd Hfin. destruct (handle_waiting_spec sd msg)
      as (_ & _ & _ & [(Hst & _) | (_ & _ & _ & r & Hr & _ & Hpr & Hco & Hmi & Hem)]).
    + rewrite Hst in Hfin. discriminate.
    + exists r. split; [exact Hr |]. split; [| exact Hem].
      unfold kind_of. now rewrite Hpr, Hco, Hmi.
Qed.

(** ** The booking policy *)

(** C6.  A booking context whose [is_emergency] is true gets a booking
    whatever its severity, urgency and duration: the first rule decides, and
    the reason given is the one of the emergency. *)
Theorem emergency_always_books (model : bool) (w : Collab) (context : booking_context) :
  bc_is_emergency context = Some true ->
  should_propose_slots context = true
  /\ bk_needs_booking (process_booking_decision model w context) = true
  /\ bk_slots (process_booking_decision model w context) = generate_slots model w
  /\ bk_reason (process_booking_decision model w context)
     = py "En raison de l'urgence de votre situation, je vous propose des créneaux de consultation immédiate.".
Proof.
  intros H.
  assert (Hs : should_propose_slots context = true).
  { unfold should_propose_slots. rewrite H. reflexivity. }
  unfold process_booking_decision. rewrite Hs.
  cbn [bk_needs_booking bk_slots bk_reason].
  unfold _get_booking_reason. rewrite H. auto.
Qed.

(** ** The severity and urgency scorer *)

Lemma at_least_modere_rank (s : severity) :
  (severity_rank s <= severity_rank (at_least_modere s))%Z.
Proof. destruct s; cbn; lia. Qed.

Lemma rule_emotion_escalates (emotion : pystr) (sc : score) :
  (sc_urgency sc <= 10)%Z ->
  (severity_rank (sc_severity sc) <= severity_rank (sc_severity (rule_emotion emotion sc)))%Z
  /\ (sc_urgency sc <= sc_urgency (rule_emotion emotion sc) <= 10)%Z.
Proof.
  intros H. unfold rule_emotion. destruct (any_in _ _); cbn.
  - destruct (sc_severity sc); cbn; lia.
  - lia.
Qed.

Lemma rule_duration_escalates (duration_lower : pystr) (sc : score) :
  (sc_urgency sc <= 10)%Z ->
  (severity_rank (sc_severity sc)
   <= severity_rank (sc_severity (rule_duration duration_lower sc)))%Z
  /\ (sc_urgency sc <= sc_urgency (rule_duration duration_lower sc) <= 10)%Z.
Proof.
  intros H. unfold rule_duration. destruct (any_in _ _); cbn.
  - split; [apply at_least_modere_rank | lia].
  - lia.
Qed.

Lemma rule_intensity_escalates (n : Z) (sc : score) :
  (severity_rank (sc_severity sc) <= severity_rank (sc_severity (rule_intensity n sc)))%Z
  /\ (sc_urgency sc <= sc_urgency (rule_intensity n sc))%Z
  /\ ((sc_urgency sc <= 10)%Z -> (sc_urgency (rule_intensity n sc) <= 10)%Z).
Proof.
  unfold rule_intensity. destruct (8 <=? n)%Z; [| destruct (6 <=? n)%Z]; cbn.
  - destruct (sc_severity sc); cbn; lia.
  - split; [apply at_least_modere_rank | lia].
  - lia.
Qed.

(** Within the scale, that is for a parsed intensity of at most 10, each
    rule of the scorer leaves severity and urgency where they are or raises
    them. *)
Lemma scorer_escalates_within_scale (emotion duration_lower : pystr) (n : Z) :
  (n <= 10)%Z ->
  let s0 := base_score n in
  let s1 := rule_emotion emotion s0 in
  let s2 := rule_duration duration_lower s1 in
  let s3 := rule_intensity n s2 in
  (sc_urgency s0 <= sc_urgency s1 <= sc_urgency s2)%Z
  /\ (sc_urgency s2 <= sc_urgency s3 <= 10)%Z
  /\ (severity_rank (sc_severity s0) <= severity_rank (sc_severity s1)
      <= severity_rank (sc_severity s2))%Z
  /\ (severity_rank (sc_severity s2) <= severity_rank (sc_severity s3))%Z.
Proof.
  intros Hn. cbv zeta.
  destruct (rule_emotion_escalates emotion (base_score n)) as [A1 A2]; [exact Hn |].
  destruct (rule_duration_escalates duration_lower (rule_emotion emotion (base_score n)))
    as [B1 B2]; [lia |].
  destruct (rule_intensity_escalates n
              (rule_duration duration_lower (rule_emotion emotion (base_score n))))
    as (C1 & C2 & C3).
  lia.
Qed.

(** The severity never goes down, whatever the intensity. *)
Lemma scorer_severity_escalates (emotion duration_lower : pystr) (n : Z) (sc : score) :
  (severity_rank (sc_severity sc)
   <= severity_rank (sc_severity (rule_emotion emotion sc)))%Z
  /\ (severity_rank (sc_severity sc)
      <= severity_rank (sc_severity (rule_duration duration_lower sc)))%Z
  /\ (severity_rank (sc_severity sc)
      <= severity_rank (sc_severity (rule_intensity n sc)))%Z.
Proof.
  split; [| split].
  - unfold rule_emotion. destruct (any_in _ _); cbn; destruct (sc_severity sc); cbn; lia.
  - unfold rule_duration. destruct (any_in _ _); cbn;
      [apply at_least_modere_rank | lia].
  - apply rule_intensity_escalates.
Qed.

Lemma intensite_num_parsed (collected_params : gmap pystr pystr) (intensite : pystr) (n : Z) :
  collected_params !! py "intensite" = Some intensite ->
  truthy intensite = true ->
  py_int (before_slash intensite) = Some n ->
  intensite_num collected_params = n.
Proof.
  intros H Ht Hp. unfold intensite_num. rewrite H. cbn [default from_option id].
  now rewrite Ht, Hp.
Qed.

Lemma intensite_num_unparseable (collected_params : gmap pystr pystr) (intensite : pystr) :
  collected_params !! py "intensite" = Some intensite ->
  truthy intensite = false \/ py_int (before_slash intensite) = None ->
  intensite_num collected_params = 5%Z.
Proof.
  intros H Hu. unfold intensite_num. rewrite H. cbn [default from_option id].
  destruct (truthy intensite); [| reflexivity].
  destruct Hu as [Hu | ->]; [discriminate | reflexivity].
Qed.

Lemma analysis_urgency_is_scored (collected_params : gmap pystr pystr) (user_text : pystr) :
  let n := intensite_num collected_params in
  let emotion := default [] (collected_params !! py "emotion") in
  let duration := default [] (collected_params !! py "duration") in
  an_urgency_score (analyze_psychological_state collected_params user_text)
  = sc_urgency (rule_intensity n
                  (rule_duration (str_lower duration) (rule_emotion emotion (base_score n))))
  /\ an_taux_mal_etre (analyze_psychological_state collected_params user_text)
     = (inject_Z n / 10)%Q.
Proof. split; reflexivity. Qed.

Lemma sentiment_in_range (text : pystr) :
  (-1 <= _analyze_sentiment_simple text <= 1)%Q.
Proof.
  unfold _analyze_sentiment_simple. cbv zeta.
  destruct (_ =? 0)%nat; [split; discriminate |].
  split.
  - apply Q.le_max_l.
  - apply Q.max_lub; [discriminate | apply Q.le_min_l].
Qed.

(** Within the scale, that is for a parsed intensity between 0 and 10, the
    assessment is within its ranges. *)
Lemma analysis_in_range_within_scale (collected_params : gmap pystr pystr)
    (user_text : pystr) :
  (0 <= intensite_num collected_params <= 10)%Z ->
  let a := analyze_psychological_state collected_params user_text in
  (0 <= an_urgency_score a <= 10)%Z
  /\ (0 <= an_taux_mal_etre a <= 1)%Q
  /\ (-1 <= an_sentiment_score a <= 1)%Q.
Proof.
  intros Hn. cbv zeta.
  destruct (analysis_urgency_is_scored collected_params user_text) as [-> ->].
  set (n := intensite_num collected_params) in *.
  pose proof (scorer_escalates_within_scale
                (default [] (collected_params !! py "emotion"))
                (str_lower (default [] (collected_params !! py "duration"))) n
                (proj2 Hn)) as H.
  cbv zeta in H. cbn [base_score sc_urgency] in H.
  split; [lia |]. split.
  - unfold Qdiv, Qle, Qmult, Qinv, inject_Z. cbn. lia.
  - unfold analyze_psychological_state. cbn [an_sentiment_score].
    destruct (truthy user_text); [apply sentiment_in_range | split; discriminate].
Qed.

(** ** The workload rebalancer *)

Lemma key_leb_iff (a b : event) :
  key_leb (sort_key a) (sort_key b) = true <-> dispensable_before a b.
Proof.
  unfold key_leb, sort_key, dispensable_before, event_duration. cbn [fst snd].
  rewrite orb_true_iff, andb_true_iff, negb_true_iff.
  rewrite Qeq_bool_iff, Qle_bool_iff, <- not_true_iff_false, Qle_bool_iff.
  split.
  - intros [H | [H1 H2]]; [left; now apply Qnot_le_lt | right; split; [exact H1 | lra]].
  - intros [H | [H1 H2]]; [left; now apply Qlt_not_le | right; split; [exact H1 | lra]].
Qed.

Lemma dispensable_before_total (a b : event) :
  key_leb (sort_key a) (sort_key b) = false -> dispensable_before b a.
Proof.
  intros H. apply not_true_iff_false in H. rewrite key_leb_iff in H.
  unfold dispensable_before in *.
  generalize dependent (event_duration a). generalize dependent (event_duration b).
  generalize (default 5%Q (ev_priority a)) (default 5%Q (ev_priority b)).
  intros pa pb db da H.
  destruct (Qlt_le_dec pb pa) as [Hlt | Hle]; [now left |].
  assert (H1 : ~ (pa < pb)%Q) by tauto.
  assert (H2 : (pa == pb)%Q) by lra.
  assert (H3 : ~ (db <= da)%Q) by tauto.
  right. split; lra.
Qed.

Lemma dispensable_before_trans (a b c : event) :
  dispensable_before a b -> dispensable_before b c -> dispensable_before a c.
Proof.
  unfold dispensable_before. intros [H1 | [H1 H2]] [H3 | [H3 H4]].
  - left. lra.
  - left. lra.
  - left. lra.
  - right. split; lra.
Qed.

Lemma insert_event_perm (e : event) (l : list event) :
  Permutation (insert_event e l) (e :: l).
Proof.
  induction l as [|x l IH]; cbn [insert_event]; [reflexivity |].
  destruct (key_leb _ _); [reflexivity |].
  rewrite IH. apply perm_swap.
Qed.

Lemma sorted_events_perm (events : list event) :
  Permutation (sorted_events events) events.
Proof.
  induction events as [|e l IH]; cbn [sorted_events]; [reflexivity |].
  rewrite insert_event_perm. now apply perm_skip.
Qed.

Lemma insert_event_sorted (e : event) (l : list event) :
  StronglySorted dispensable_before l ->
  StronglySorted dispensable_before (insert_event e l).
Proof.
  induction 1 as [|x l Hs IH Hx]; cbn [insert_event].
  - repeat constructor.
  - destruct (key_leb (sort_key e) (sort_key x)) eqn:Hk.
    + apply key_leb_iff in Hk. constructor; [now constructor |].
      constructor; [exact Hk |].
      rewrite List.Forall_forall in *. intros y Hy.
      apply dispensable_before_trans with x; auto.
    + apply dispensable_before_total in Hk. constructor; [exact IH |].
      rewrite List.Forall_forall in *. intros y Hy.
      apply (Permutation_in _ (insert_event_perm e l)) in Hy.
      destruct Hy as [<- | Hy]; auto.
Qed.

Lemma sorted_events_sorted (events : list event) :
  StronglySorted dispensable_before (sorted_events events).
Proof.
  induction events as [|e l IH]; cbn [sorted_events]; [constructor |].
  now apply insert_event_sorted.
Qed.

(** The sort is stable: the events of one key keep their order.  The key
    is that of the event [c]. *)
Lemma insert_event_stable (c e : event) (l : list event) :
  let same x := key_leb (sort_key x) (sort_key c) && key_leb (sort_key c) (sort_key x) in
  List.filter same (insert_event e l) = List.filter same (e :: l).
Proof.
  cbv zeta. induction l as [|x l IH]; cbn [insert_event]; [reflexivity |].
  destruct (key_leb (sort_key e) (sort_key x)) eqn:Hk; [reflexivity |].
  cbn [List.filter] in *. rewrite IH.
  destruct (key_leb (sort_key e) (sort_key c) && key_leb (sort_key c) (sort_key e)) eqn:He;
    [| reflexivity].
  destruct (key_leb (sort_key x) (sort_key c) && key_leb (sort_key c) (sort_key x)) eqn:Hx;
    [| reflexivity].
  exfalso. apply andb_true_iff in He, Hx. destruct He as [He _], Hx as [_ Hx].
  apply key_leb_iff in He, Hx. apply not_true_iff_false in Hk. apply Hk.
  apply key_leb_iff. now apply dispensable_before_trans with c.
Qed.

Lemma sorted_events_stable (c : event) (events : list event) :
  let same x := key_leb (sort_key x) (sort_key c) && key_leb (sort_key c) (sort_key x) in
  List.filter same (sorted_events events) = List.filter same events.
Proof.
  cbv zeta. induction events as [|e l IH]; cbn [sorted_events]; [reflexivity |].
  rewrite (insert_event_stable c e (sorted_events l)). cbn [List.filter].
  now rewrite IH.
Qed.

Lemma propose_deletions_reached (total need : Q) (events : list event) (freed : Q) :
  (need <= freed)%Q -> propose_deletions total need events freed = [].
Proof.
  intros H. destruct events; cbn [propose_deletions]; [reflexivity |].
  apply Qle_bool_iff in H. now rewrite H.
Qed.

Lemma propose_deletions_filter (total need : Q) (events : list event) (freed : Q) :
  propose_deletions total need events freed
  = propose_deletions total need (List.filter has_id events) freed.
Proof.
  revert freed. induction events as [|e l IH]; intros freed; [reflexivity |].
  cbn [propose_deletions List.filter].
  destruct (Qle_bool need freed) eqn:Hq.
  - apply Qle_bool_iff in Hq. destruct (has_id e);
      symmetry; now apply propose_deletions_reached.
  - destruct (has_id e) eqn:Hid; cbn [negb propose_deletions].
    + rewrite Hq, Hid. cbn [negb]. now rewrite IH.
    + apply IH.
Qed.

Lemma propose_deletions_greedy (total need : Q) (events : list event) (freed : Q) :
  Forall (fun e => has_id e = true) events ->
  exists n,
    propose_deletions total need events freed
    = map (delete_proposal total) (firstn n events)
    /\ (forall m, m < n -> (freed_after freed (firstn m events) < need)%Q)
    /\ (n = length events \/ (need <= freed_after freed (firstn n events))%Q).
Proof.
  intros Hall. revert freed.
  induction Hall as [|e l He Hl IH]; intros freed.
  - exists 0. repeat split; [intros m Hm; lia | now left].
  - cbn [propose_deletions]. destruct (Qle_bool need freed) eqn:Hq.
    + exists 0. repeat split; [intros m Hm; lia |].
      right. now apply Qle_bool_iff in Hq.
    + rewrite He. cbn [negb].
      assert (Hlt : (freed < need)%Q).
      { apply Qnot_le_lt. intros Hle. apply Qle_bool_iff in Hle. congruence. }
      destruct (IH (py_add freed (event_duration e))) as (n & Hp & Hmin & Hend).
      exists (S n). repeat split.
      * cbn [firstn map]. now rewrite Hp.
      * intros [|m] Hm; [exact Hlt |]. cbn [firstn freed_after fold_left].
        apply Hmin. lia.
      * cbn [firstn length freed_after fold_left].
        destruct Hend as [-> | Hend]; [now left | now right].
Qed.

Lemma proposed_hours_deletions (total : Q) (events : list event) :
  proposed_hours (map (delete_proposal total) events) = freed_after 0 events.
Proof.
  unfold proposed_hours, freed_after. generalize 0%Q.
  induction events as [|e l IH]; intros acc; [reflexivity |].
  cbn [map fold_left]. apply IH.
Qed.

Lemma Qgtb_iff (a b : Q) : Qgtb a b = true <-> (b < a)%Q.
Proof.
  unfold Qgtb. rewrite negb_true_iff, <- not_true_iff_false, Qle_bool_iff.
  split; [apply Qnot_le_lt | apply Qlt_not_le].
Qed.

Lemma Qltb_iff (a b : Q) : Qltb a b = true <-> (a < b)%Q.
Proof.
  unfold Qltb. rewrite negb_true_iff, <- not_true_iff_false, Qle_bool_iff.
  split; [apply Qnot_le_lt | apply Qlt_not_le].
Qed.

Lemma analyze_calendar_load_read (endpoint : option pystr) (w : Collab)
    (date severity_level : pystr) (taux : Q) (events : list event) :
  endpoint_set endpoint = true ->
  calendar_get w date = ReadOk events ->
  analyze_calendar_load endpoint w date taux severity_level
  = ((decide_calendar_actions endpoint w date taux events (total_duration events)).1,
     CallConsult date
       :: (decide_calendar_actions endpoint w date taux events (total_duration events)).2).
Proof.
  intros He Hg. unfold analyze_calendar_load, consulter_agenda.
  rewrite He, Hg. cbn [negb].
  destruct (decide_calendar_actions _ _ _ _ _ _). reflexivity.
Qed.

Lemma decide_overload (endpoint : option pystr) (w : Collab) (date : pystr) (taux : Q)
    (events : list event) (total : Q) :
  events <> [] ->
  (SEUIL_HEURES_JOURNALIER < total)%Q ->
  (50 < taux)%Q ->
  decide_calendar_actions endpoint w date taux events total
  = _handle_overload_case date total taux events.
Proof.
  intros Hne Ht Hx. unfold decide_calendar_actions.
  destruct events as [|e l]; [contradiction |].
  apply Qgtb_iff in Ht, Hx. now rewrite Ht, Hx.
Qed.

Lemma decide_wellbeing (endpoint : option pystr) (w : Collab) (date : pystr) (taux : Q)
    (events : list event) (total : Q) :
  events <> [] ->
  (total <= SEUIL_HEURES_JOURNALIER)%Q ->
  (taux < 30)%Q ->
  decide_calendar_actions endpoint w date taux events total
  = _handle_wellbeing_case endpoint w date total taux events.
Proof.
  intros Hne Ht Hx. unfold decide_calendar_actions.
  destruct events as [|e l]; [contradiction |].
  assert (Hg : Qgtb total SEUIL_HEURES_JOURNALIER = false).
  { unfold Qgtb. apply Qle_bool_iff in Ht. now rewrite Ht. }
  apply Qltb_iff in Hx. now rewrite Hg, Hx.
Qed.

(** C7.  With events on the agenda, a total above the threshold of 8 hours
    and a distress above 50, the rebalancer sorts the events by priority
    ascending and then by duration descending, and proposes the deletion of
    the events that carry an identifier, in that order, up to the first
    prefix that frees at least the total minus 8 (or of all of them when none
    does): no shorter prefix frees enough; when the identified events free
    enough altogether, so do the proposals; every proposal is a DELETE with a
    non-empty identifier; the only request sent is the consultation; and
    [awaiting_confirmation] tells whether there is a proposal.  The total,
    the hours to free and the hours freed are the numbers that the code
    computes, with the sum, the difference and the additions of Python,
    whatever their rounding. *)
Theorem overload_proposes_deletions (endpoint : option pystr) (w : Collab)
    (date severity_level : pystr) (taux : Q) (events : list event) :
  endpoint_set endpoint = true ->
  calendar_get w date = ReadOk events ->
  events <> [] ->
  (SEUIL_HEURES_JOURNALIER < total_duration events)%Q ->
  (50 < taux)%Q ->
  let total := total_duration events in
  let need := py_sub total SEUIL_HEURES_JOURNALIER in
  let sorted := sorted_events events in
  let candidates := List.filter has_id sorted in
  let result := (analyze_calendar_load endpoint w date taux severity_level).1 in
  let calls := (analyze_calendar_load endpoint w date taux severity_level).2 in
  let proposals := cal_proposed_changes result in
  Permutation sorted events
  /\ StronglySorted dispensable_before sorted
  /\ (exists n,
        proposals = map (delete_proposal total) (firstn n candidates)
        /\ (forall m, m < n -> (freed_after 0 (firstn m candidates) < need)%Q)
        /\ (n = length candidates
            \/ (need <= freed_after 0 (firstn n candidates))%Q))
  /\ ((need <= freed_after 0 candidates)%Q -> (need <= proposed_hours proposals)%Q)
  /\ (forall p, In p proposals ->
        ch_action p = py "DELETE"
        /\ exists id, ch_event_id p = Some id /\ id <> [])
  /\ calls = [CallConsult date]
  /\ cal_actions_effectuees result = []
  /\ (cal_awaiting_confirmation result = true <-> proposals <> []).
Proof.
  intros He Hg Hne Ht Hx. cbv zeta.
  rewrite (analyze_calendar_load_read endpoint w date severity_level taux events He Hg).
  rewrite (decide_overload endpoint w date taux events _ Hne Ht Hx).
  unfold _handle_overload_case.
  cbn [fst snd cal_proposed_changes cal_actions_effectuees cal_awaiting_confirmation].
  set (total := total_duration events).
  set (need := py_sub total SEUIL_HEURES_JOURNALIER).
  set (candidates := List.filter has_id (sorted_events events)).
  rewrite (propose_deletions_filter total need (sorted_events events) 0).
  fold candidates.
  assert (Hall : Forall (fun e => has_id e = true) candidates).
  { apply List.Forall_forall. intros e Hin. apply filter_In in Hin. apply Hin. }
  destruct (propose_deletions_greedy total need candidates 0 Hall) as (n & Hp & Hmin & Hend).
  split; [apply sorted_events_perm |].
  split; [apply sorted_events_sorted |].
  split; [exists n; auto |].
  split; [| split; [| split; [| split]]].
  - intros Hsum. rewrite Hp, proposed_hours_deletions.
    destruct Hend as [-> | Hend]; [| exact Hend].
    now rewrite firstn_all.
  - intros p Hin. rewrite Hp in Hin. apply in_map_iff in Hin.
    destruct Hin as (e & <- & Hin). apply In_firstn in Hin.
    rewrite List.Forall_forall in Hall. specialize (Hall e Hin).
    split; [reflexivity |]. cbn [delete_proposal ch_event_id].
    unfold has_id in Hall. destruct (ev_id e) as [id |]; [| discriminate].
    exists id. split; [reflexivity |]. intros ->. discriminate.
  - reflexivity.
  - reflexivity.
  - destruct (propose_deletions total need candidates 0); cbn; split; congruence.
Qed.

(** C8.  With events on the agenda, a total of at most 8 hours and a
    distress below 30, the rebalancer sends exactly one request that adds a
    well-being break of one hour, and proposes no deletion.  When the
    endpoint accepts, the break is the single action recorded; when it
    refuses, or when the request fails, nothing is recorded, the message
    explains the failure, and no second request is sent.  The total is the
    sum that the code computes, whatever its rounding. *)
Theorem wellbeing_adds_one_break (endpoint : option pystr) (w : Collab)
    (date severity_level : pystr) (taux : Q) (events : list event) :
  endpoint_set endpoint = true ->
  calendar_get w date = ReadOk events ->
  events <> [] ->
  (total_duration events <= SEUIL_HEURES_JOURNALIER)%Q ->
  (taux < 30)%Q ->
  let total := total_duration events in
  let add := CallPost (py "add") date pause_title 1 (pause_description total taux) in
  let result := (analyze_calendar_load endpoint w date taux severity_level).1 in
  let calls := (analyze_calendar_load endpoint w date taux severity_level).2 in
  calls = [CallConsult date; add]
  /\ cal_proposed_changes result = []
  /\ cal_awaiting_confirmation result = false
  /\ match calendar_post w add with
     | WriteJson true _ =>
       (exists a, cal_actions_effectuees result = [a]
                  /\ ch_action a = py "ADD"
                  /\ ch_event_title a = pause_title
                  /\ ch_duration a = 1%Q)
       /\ cal_calendar_message result
          = [Lit (py "🌿 J'ai ajouté une pause bien-être à votre agenda pour favoriser votre équilibre.")]
     | WriteJson false message =>
       cal_actions_effectuees result = []
       /\ cal_calendar_message result
          = [Lit (py "⚠️ Impossible d'ajouter la pause : ");
             Lit (default (py "Erreur") message)]
     | WriteRequestError e =>
       cal_actions_effectuees result = []
       /\ cal_calendar_message result
          = [Lit (py "⚠️ Impossible d'ajouter la pause : "); Lit e]
     | WriteOtherError e =>
       cal_actions_effectuees result = []
       /\ cal_calendar_message result
          = [Lit (py "❌ Erreur lors de l'ajout de la pause : "); Lit e]
     end.
Proof.
  intros He Hg Hne Ht Hx. cbv zeta.
  rewrite (analyze_calendar_load_read endpoint w date severity_level taux events He Hg).
  rewrite (decide_wellbeing endpoint w date taux events _ Hne Ht Hx).
  unfold _handle_wellbeing_case, executer_action_agenda.
  rewrite He. cbn [negb].
  rewrite (proj2 (str_eqb_eq (py "ADD") (py "ADD")) eq_refl).
  destruct (calendar_post w _) as [[|] message | e | e];
    cbn [fst snd cal_proposed_changes cal_actions_effectuees cal_awaiting_confirmation
         cal_calendar_message];
    repeat split.
  eexists. repeat split.
Qed.

End Properties.

(** * Further properties *)

Section FurtherProperties.
Context {L : PyLib}.

(** ** The state machine, turn by turn *)

Lemma dispatch_frame (o : Orchestrator) (w : Collab) (sd sd' : session) (msg : pystr) :
  dispatch o w sd msg = Returned sd' \/ dispatch o w sd msg = KeyError sd' ->
  s_history sd' = s_history sd /\ s_session_id sd' = s_session_id sd.
Proof.
  unfold dispatch. destruct (s_state sd).
  - intros [H | H]; [| discriminate]. injection H as <-.
    unfold _handle_routing. destruct (ed_is_emergency _); [cbn; auto |].
    destruct (s_params_complete sd), (default false (s_user_confirmed sd)); cbn; auto.
  - unfold _handle_emergency.
    destruct (cr_protocol (handle_crisis (has_model o) w msg)).
    + cbn. intros [H | H]; [| discriminate]. injection H as <-.
      destruct (co_is_complete _); cbn; auto.
    + intros [H | H]; [discriminate |]. injection H as <-. cbn. auto.
  - intros [H | H]; [| discriminate]. injection H as <-.
    unfold _handle_collecting_params. cbn. destruct (co_is_complete _); cbn; auto.
  - intros [H | H]; [| discriminate]. injection H as <-.
    unfold _handle_waiting_confirmation.
    destruct (mem_str _ negative_tokens); [cbn; auto |].
    destruct (mem_str _ positive_tokens || _); cbn; auto.
  - intros [H | H]; [| discriminate]. injection H as <-.
    unfold _handle_analysis_and_response. cbn. auto.
  - intros [H | H]; [| discriminate]. injection H as <-. auto.
Qed.

Lemma state_loop_frame (fuel : nat) (o : Orchestrator) (w : Collab) (sd : session)
    (msg : pystr) :
  s_history (loop_session (state_loop fuel o w sd msg)) = s_history sd
  /\ s_session_id (loop_session (state_loop fuel o w sd msg)) = s_session_id sd.
Proof.
  revert sd. induction fuel as [|fuel IH]; intros sd; cbn [state_loop];
    destruct (bool_decide (s_state sd = FINAL_RESPONSE_READY)); cbn [loop_session]; auto.
  destruct (dispatch o w sd msg) as [sd1 | sd1] eqn:Hd.
  - destruct (dispatch_frame o w sd sd1 msg (or_introl Hd)) as [<- <-]. apply IH.
  - cbn [loop_session]. apply (dispatch_frame o w sd sd1 msg). now right.
Qed.

Lemma entry_session_history (o : Orchestrator) (sid msg : pystr) :
  s_history (entry_session o sid msg)
  = s_history (default (new_session sid) (sessions o !! sid)) ++ [msg].
Proof.
  unfold entry_session, restore_next_state, _get_or_create_session. cbv zeta.
  generalize (default (new_session sid) (sessions o !! sid)). intros sd.
  destruct (s_is_emergency sd); cbn; destruct (s_next_state sd); reflexivity.
Qed.

Lemma dispatch_final_response (o : Orchestrator) (w : Collab) (sd sd' : session)
    (msg : pystr) :
  s_state sd <> FINAL_RESPONSE_READY ->
  dispatch o w sd msg = Returned sd' ->
  s_state sd' = FINAL_RESPONSE_READY ->
  exists r, s_final_response sd' = Some r /\ r_session_id r = s_session_id sd.
Proof.
  intros Hnf. unfold dispatch. destruct (s_state sd) eqn:Hs.
  - intros H Hf. injection H as <-.
    destruct (handle_routing_state sd msg) as [Hn _]. now destruct Hn.
  - unfold _handle_emergency.
    destruct (cr_protocol (handle_crisis (has_model o) w msg)); [| discriminate].
    cbn. intros H _. injection H as <-.
    destruct (co_is_complete _); cbn; eexists; split; reflexivity.
  - intros H _. injection H as <-. unfold _handle_collecting_params. cbn.
    destruct (co_is_complete _); cbn; eexists; split; reflexivity.
  - intros H. injection H as <-. unfold _handle_waiting_confirmation.
    destruct (mem_str _ negative_tokens); [cbn; discriminate |].
    destruct (mem_str _ positive_tokens || _); [| cbn; discriminate].
    cbn. intros _. eexists; split; reflexivity.
  - intros H _. injection H as <-. unfold _handle_analysis_and_response. cbn.
    eexists; split; reflexivity.
  - now destruct Hnf.
Qed.

Lemma state_loop_response_id (fuel : nat) (o : Orchestrator) (w : Collab)
    (sd sd' : session) (msg : pystr) :
  s_state sd <> FINAL_RESPONSE_READY ->
  state_loop fuel o w sd msg = LoopDone sd' ->
  exists r, s_final_response sd' = Some r /\ r_session_id r = s_session_id sd.
Proof.
  revert sd. induction fuel as [|fuel IH]; intros sd Hnf; cbn [state_loop];
    rewrite bool_decide_eq_false_2 by exact Hnf; [discriminate |].
  destruct (dispatch o w sd msg) as [sd1 | sd1] eqn:Hd; [| discriminate].
  destruct (dispatch_frame o w sd sd1 msg (or_introl Hd)) as [_ Hid].
  destruct (decide (s_state sd1 = FINAL_RESPONSE_READY)) as [Hf | Hf].
  - rewrite state_loop_done by exact Hf. intros H. injection H as <-.
    now apply (dispatch_final_response o w sd sd1 msg).
  - intros H. rewrite <- Hid. now apply (IH sd1).
Qed.

Lemma reachable_keys_match (o : Orchestrator) :
  reachable o -> forall key sd, sessions o !! key = Some sd -> s_session_id sd = key.
Proof.
  induction 1 as [model endpoint | o t Hr IH | o k Hr IH]; intros key sd Hl.
  - cbn in Hl. rewrite lookup_empty in Hl. discriminate.
  - unfold play_turn in Hl. rewrite process_message_session in Hl.
    cbn [with_session sessions] in Hl.
    destruct (decide (t_session_id t = key)) as [Heq | Hne].
    + subst key. rewrite lookup_insert_eq in Hl. injection Hl as Hl. rewrite <- Hl.
      etransitivity;
        [exact (proj2 (state_loop_frame 3 o (t_world t)
                         (entry_session o (t_session_id t) (t_message t))
                         (t_message t))) |].
      destruct (entry_session_fields o (t_session_id t) (t_message t))
        as (_ & _ & _ & _ & _ & _ & ->).
      destruct (sessions o !! t_session_id t) as [sd0 |] eqn:H0; cbn.
      * now apply IH.
      * reflexivity.
    + rewrite lookup_insert_ne in Hl by exact Hne. now apply IH.
  - cbn in Hl. destruct (decide (k = key)) as [Heq | Hne].
    + subst key. rewrite lookup_delete_eq in Hl. discriminate.
    + rewrite lookup_delete_ne in Hl by exact Hne. now apply IH.
Qed.

Lemma reachable_turn_responds (o : Orchestrator) (w : Collab) (sid msg : pystr) :
  reachable o ->
  exists sd' r,
    process_message o w sid msg = (with_session o sid sd', Responded r)
    /\ r_success r = true
    /\ r_session_id r = sid
    /\ s_session_id sd' = sid
    /\ s_state sd' = FINAL_RESPONSE_READY
    /\ s_final_response sd' = Some r.
Proof.
  intros Hr.
  destruct (process_message_responds o w sid msg) as (sd' & r & Hpm & Hfr & Hd).
  { intros sd. now apply reachable_pending_ok. }
  destruct Hd as (Hst & _ & r' & Hr' & Hok & _).
  rewrite Hfr in Hr'. injection Hr' as <-.
  assert (Hl : state_loop 3 o w (entry_session o sid msg) msg = LoopDone sd').
  { unfold process_message, process_message_fuel in Hpm.
    fold (entry_session o sid msg) in Hpm.
    destruct (state_loop 3 o w (entry_session o sid msg) msg) as [x | x | x];
      injection Hpm as Hpm1 Hpm2; try discriminate.
    f_equal. apply (f_equal (fun m => m !! sid)) in Hpm1.
    rewrite !lookup_insert_eq in Hpm1. now injection Hpm1. }
  assert (Hid : s_session_id (entry_session o sid msg) = sid).
  { destruct (entry_session_fields o sid msg) as (_ & _ & _ & _ & _ & _ & ->).
    destruct (sessions o !! sid) as [sd0 |] eqn:H0; cbn; [| reflexivity].
    now apply (reachable_keys_match o Hr). }
  assert (Hnf : s_state (entry_session o sid msg) <> FINAL_RESPONSE_READY).
  { destruct (entry_session_state o sid msg) as [_ [-> | [-> | ->]]];
      [intros sd; now apply reachable_pending_ok | discriminate ..]. }
  destruct (state_loop_response_id 3 o w _ sd' msg Hnf Hl) as (r2 & Hr2 & Hid2).
  rewrite Hfr in Hr2. injection Hr2 as <-.
  exists sd', r. split; [exact Hpm |]. split; [exact Hok |].
  split; [now rewrite Hid2 |]. split; [| now split].
  pose proof (state_loop_frame 3 o w (entry_session o sid msg) msg) as [_ Hf].
  rewrite Hl in Hf. cbn [loop_session] in Hf. now rewrite Hf.
Qed.

(** X1.  On an orchestrator that [__init__], [process_message] and
    [reset_session] can produce, a call of [process_message] never gives
    back its default error dictionary, and its loop never needs a fourth
    pass.  A response that the call returns was built during the call:
    [success] is true, it carries the id of the session asked for, and the
    session is stored under that id in state FINAL_RESPONSE_READY with this
    response as its [final_response].  Nothing is said of a call in which an
    agent raises: it returns no response. *)
Theorem turn_response_is_built_in_turn (o : Orchestrator) (w : Collab)
    (sid msg : pystr) :
  reachable o ->
  let result := process_message o w sid msg in
  result.2 <> DefaultError
  /\ result.2 <> Unfinished
  /\ forall r,
       result.2 = Responded r ->
       r_success r = true
       /\ r_session_id r = sid
       /\ exists sd',
            sessions result.1 !! sid = Some sd'
            /\ s_session_id sd' = sid
            /\ s_state sd' = FINAL_RESPONSE_READY
            /\ s_final_response sd' = Some r.
Proof.
  intros Hr. cbv zeta.
  destruct (reachable_turn_responds o w sid msg Hr)
    as (sd' & r & Hpm & Hok & Hid & Hsid & Hst & Hfr).
  rewrite Hpm. cbn [fst snd with_session sessions].
  split; [discriminate |]. split; [discriminate |].
  intros r0 H0. injection H0 as <-.
  split; [exact Hok |]. split; [exact Hid |].
  exists sd'. rewrite lookup_insert_eq. auto.
Qed.

(** X2.  A call of [process_message] for one session leaves every other
    session of the table, and the configuration of the orchestrator, as they
    were. *)
Theorem turn_leaves_other_sessions (o : Orchestrator) (w : Collab)
    (sid key msg : pystr) :
  key <> sid ->
  sessions (process_message o w sid msg).1 !! key = sessions o !! key
  /\ has_model (process_message o w sid msg).1 = has_model o
  /\ agenda_endpoint (process_message o w sid msg).1 = agenda_endpoint o.
Proof.
  intros Hne. rewrite process_message_session. cbn [with_session sessions has_model
    agenda_endpoint].
  split; [| split; reflexivity]. apply lookup_insert_ne. congruence.
Qed.

(** X3.  Every call of [process_message] appends the message, once, at the
    end of the history of the session, whatever the handlers do; the history
    of a new session is the message alone. *)
Theorem turn_appends_history (o : Orchestrator) (w : Collab) (sid msg : pystr) :
  exists sd',
    sessions (process_message o w sid msg).1 !! sid = Some sd'
    /\ s_history sd'
       = match sessions o !! sid with
         | Some sd => s_history sd ++ [msg]
         | None => [msg]
         end.
Proof.
  rewrite process_message_session. cbn [with_session sessions].
  rewrite lookup_insert_eq. eexists. split; [reflexivity |].
  destruct (state_loop_frame 3 o w (entry_session o sid msg) msg) as [-> _].
  rewrite entry_session_history. now destruct (sessions o !! sid).
Qed.

Lemma dispatch_config (o1 o2 : Orchestrator) (w : Collab) (sd : session) (msg : pystr) :
  has_model o1 = has_model o2 ->
  agenda_endpoint o1 = agenda_endpoint o2 ->
  dispatch o1 w sd msg = dispatch o2 w sd msg.
Proof.
  intros Hm He. unfold dispatch, _handle_emergency, _handle_collecting_params,
    _handle_analysis_and_response, _run_calendar_agent, _run_booking_agent,
    _run_recommendation_agent.
  rewrite Hm, He. reflexivity.
Qed.

Lemma state_loop_config (fuel : nat) (o1 o2 : Orchestrator) (w : Collab) (sd : session)
    (msg : pystr) :
  has_model o1 = has_model o2 ->
  agenda_endpoint o1 = agenda_endpoint o2 ->
  state_loop fuel o1 w sd msg = state_loop fuel o2 w sd msg.
Proof.
  intros Hm He. revert sd. induction fuel as [|fuel IH]; intros sd; cbn [state_loop];
    [reflexivity |].
  rewrite (dispatch_config o1 o2 w sd msg Hm He).
  destruct (bool_decide _); [reflexivity |].
  destruct (dispatch o2 w sd msg); [apply IH | reflexivity].
Qed.

(** X4.  After [reset_session] the session is gone and the other sessions
    are untouched; the next call of [process_message] for that id answers as
    it does on an orchestrator that never saw the session, and stores the
    same session. *)
Theorem reset_then_turn_is_fresh (o : Orchestrator) (w : Collab) (sid msg : pystr) :
  let blank :=
    {| has_model := has_model o; agenda_endpoint := agenda_endpoint o; sessions := ∅ |} in
  get_session_info (reset_session o sid) sid = None
  /\ (forall key, key <> sid ->
        get_session_info (reset_session o sid) key = get_session_info o key)
  /\ (process_message (reset_session o sid) w sid msg).2
     = (process_message blank w sid msg).2
  /\ sessions (process_message (reset_session o sid) w sid msg).1 !! sid
     = sessions (process_message blank w sid msg).1 !! sid.
Proof.
  cbv zeta. unfold get_session_info.
  split; [apply lookup_delete_eq |].
  split; [intros key Hne; apply lookup_delete_ne; congruence |].
  set (blank := {| has_model := has_model o; agenda_endpoint := agenda_endpoint o;
                   sessions := ∅ |}).
  assert (He : entry_session (reset_session o sid) sid msg = entry_session blank sid msg).
  { unfold entry_session, _get_or_create_session. cbn [reset_session sessions blank].
    now rewrite lookup_delete_eq, lookup_empty. }
  assert (Hl : state_loop 3 (reset_session o sid) w (entry_session blank sid msg) msg
               = state_loop 3 blank w (entry_session blank sid msg) msg)
    by now apply state_loop_config.
  split.
  - unfold process_message, process_message_fuel.
    fold (entry_session (reset_session o sid) sid msg). fold (entry_session blank sid msg).
    rewrite He, Hl. now destruct (state_loop 3 blank w _ msg).
  - rewrite !process_message_session. cbn [with_session sessions].
    rewrite !lookup_insert_eq. now rewrite He, Hl.
Qed.

Lemma flagged_entry_state (o : Orchestrator) (sid msg : pystr) (sd : session) :
  sessions o !! sid = Some sd -> pending_ok sd -> s_is_emergency sd = true ->
  s_next_state (entry_session o sid msg) = None
  /\ (s_state (entry_session o sid msg) = COLLECTING_PARAMS
      \/ s_state (entry_session o sid msg) = WAITING_USER_CONFIRMATION).
Proof.
  intros Hl Hp He. destruct (entry_session_fields o sid msg) as (_ & _ & Hn & Hs & _).
  rewrite Hl in Hs. cbn in Hs. split; [exact Hn |]. rewrite Hs, He.
  destruct Hp as [-> | [-> | ->]]; auto.
Qed.

(** X5.  Once a session is flagged as an emergency, no later call of
    [process_message] runs the emergency handler for it: whatever the
    message says, the response carries no protocol, it is the intake
    question, the confirmation prompt, the invitation to add information or
    the analysis, and the session stays flagged. *)
Theorem flagged_session_skips_emergency (o : Orchestrator) (w : Collab)
    (sid msg : pystr) (sd : session) :
  reachable o ->
  sessions o !! sid = Some sd ->
  s_is_emergency sd = true ->
  exists sd' r,
    process_message o w sid msg = (with_session o sid sd', Responded r)
    /\ r_protocol r = None
    /\ kind_of r <> EmergencyTurn
    /\ s_is_emergency sd' = true.
Proof.
  intros Hr Hl He.
  pose proof (reachable_pending_ok o Hr sid sd Hl) as Hp.
  destruct (flagged_entry_state o sid msg sd Hl Hp He) as [Hn Hs].
  assert (Hflag : s_is_emergency (entry_session o sid msg) = true).
  { destruct (entry_session_fields o sid msg) as (Hf & _). rewrite Hf, Hl. exact He. }
  assert (Hkind : forall r, r_protocol r = None -> kind_of r <> EmergencyTurn).
  { intros r Hpr. unfold kind_of. rewrite Hpr.
    destruct (r_awaiting_confirmation r), (r_awaiting_more_info r), (r_analysis r);
      discriminate. }
  destruct Hs as [Hs | Hs].
  - pose proof (loop_collecting 2 o w _ msg Hs) as Hloop.
    destruct (handle_collecting_spec o w (entry_session o sid msg) msg)
      as (_ & Hem & _ & _ & r & Hfr & _ & Hpr & _).
    exists (_handle_collecting_params o w (entry_session o sid msg) msg), r.
    split; [exact (process_message_done o w sid msg _ Hloop r Hfr) |]. split; [exact Hpr |].
    split; [now apply Hkind | now rewrite Hem].
  - pose proof (loop_waiting 1 o w _ msg Hs) as Hloop.
    destruct (handle_waiting_spec (entry_session o sid msg) msg)
      as (Hem & _ & _ & [(Hst & _) | (Hst & _ & _ & r & Hfr & _ & Hpr & _)]).
    + rewrite bool_decide_eq_false_2 in Hloop by (rewrite Hst; discriminate).
      destruct (handle_analysis_spec o w
                  (_handle_waiting_confirmation (entry_session o sid msg) msg) msg)
        as (_ & Hem2 & _ & _ & _ & r & Hfr & _ & _ & Hpr & _).
      eexists. exists r. split; [exact (process_message_done o w sid msg _ Hloop r Hfr) |].
      split; [exact Hpr |]. split; [now apply Hkind |]. now rewrite Hem2, Hem.
    + rewrite bool_decide_eq_true_2 in Hloop by exact Hst.
      eexists. exists r. split; [exact (process_message_done o w sid msg _ Hloop r Hfr) |].
      split; [exact Hpr |]. split; [now apply Hkind |]. now rewrite Hem.
Qed.


(** X7.  In state WAITING_USER_CONFIRMATION a reply that is no negative
    token reopens the intake when it is a positive token or longer than 10
    characters: the turn ends with the invitation, [user_confirmed] and
    [params_complete] are cleared and the collected parameters are kept.  A
    reply that is neither, of at most 10 characters, is taken as a
    confirmation, exactly as a negative token. *)
Theorem confirmation_reply_classes (sd : session) (msg : pystr) :
  ~ In (strip (str_lower msg)) negative_tokens ->
  let sd' := _handle_waiting_confirmation sd msg in
  (In (strip (str_lower msg)) positive_tokens \/ (10 < len msg)%Z ->
     s_state sd' = FINAL_RESPONSE_READY
     /\ s_user_confirmed sd' = Some false
     /\ s_params_complete sd' = false
     /\ s_collected_params sd' = s_collected_params sd
     /\ exists r, s_final_response sd' = Some r
                  /\ kind_of r = ReopenInvitation
                  /\ r_params_complete r = true)
  /\ (~ In (strip (str_lower msg)) positive_tokens -> (len msg <= 10)%Z ->
        sd' = set_state ANALYZING_AND_RESPONDING (set_user_confirmed true sd)).
Proof.
  intros Hneg. cbv zeta.
  assert (Hn : mem_str (strip (str_lower msg)) negative_tokens = false).
  { apply not_true_iff_false. now rewrite mem_str_In. }
  unfold _handle_waiting_confirmation. rewrite Hn. split.
  - intros Hpos.
    assert (Hp : mem_str (strip (str_lower msg)) positive_tokens || (10 <? len msg)%Z = true).
    { apply orb_true_iff. destruct Hpos as [H | H];
        [left; now apply mem_str_In | right; now apply Z.ltb_lt]. }
    rewrite Hp. cbn. repeat split. eexists. repeat split.
  - intros Hpos Hlen.
    assert (Hp : mem_str (strip (str_lower msg)) positive_tokens || (10 <? len msg)%Z = false).
    { apply orb_false_iff. split.
      - apply not_true_iff_false. now rewrite mem_str_In.
      - now apply Z.ltb_ge. }
    now rewrite Hp.
Qed.

(** ** The parameter collector, call after call *)

Lemma filter_head_split {A} (f : A -> bool) (l : list A) (p : A) (rest : list A) :
  List.filter f l = p :: rest ->
  exists before after,
    l = before ++ p :: after
    /\ (forall q, In q before -> f q = false)
    /\ f p = true.
Proof.
  induction l as [|a l IH]; cbn [List.filter]; [discriminate |].
  destruct (f a) eqn:Ha.
  - intros H. injection H as <- _. exists [], l. repeat split; [intros q [] | exact Ha].
  - intros H. destruct (IH H) as (before & after & -> & Hb & Hp).
    exists (a :: before), after. repeat split; [| exact Hp].
    intros q [<- | Hq]; auto.
Qed.

Lemma collect_parameters_missing (model : bool) (w : Collab) (text : pystr)
    (current : gmap pystr pystr) :
  let c := collect_parameters model w text current in
  co_missing_params c
  = List.filter (fun p => negb (has_value (co_collected_params c) p)) REQUIRED_PARAMS
  /\ co_is_complete c = match co_missing_params c with [] => true | _ => false end
  /\ (co_completion_rate c
      == (5 - Z.of_nat (length (co_missing_params c))) # 5)%Q.
Proof.
  cbv zeta. rewrite collect_parameters_collected. unfold collect_parameters.
  fold (merge_params current (_extract_params_with_gemini model w text)).
  destruct (List.filter _ REQUIRED_PARAMS) as [|p rest] eqn:Hf;
    cbn [co_missing_params co_is_complete co_completion_rate];
    repeat split; reflexivity.
Qed.

Lemma collect_parameters_progress (model : bool) (w : Collab) (text : pystr)
    (current : gmap pystr pystr) :
  let c := collect_parameters model w text current in
  (co_is_complete c = true
   <-> forall p, In p REQUIRED_PARAMS -> has_value (co_collected_params c) p = true)
  /\ (co_is_complete c = true <-> co_next_question c = None)
  /\ (co_is_complete c = false ->
      exists p before after,
        REQUIRED_PARAMS = before ++ p :: after
        /\ (forall q, In q before -> has_value (co_collected_params c) q = true)
        /\ has_value (co_collected_params c) p = false
        /\ co_next_question c
           = Some (_generate_question_for_param model w p (co_collected_params c)))
  /\ (0 <= co_completion_rate c <= 1)%Q
  /\ ((co_completion_rate c == 1)%Q <-> co_is_complete c = true).
Proof.
  cbv zeta. rewrite collect_parameters_collected. unfold collect_parameters.
  fold (merge_params current (_extract_params_with_gemini model w text)).
  set (collected := merge_params current (_extract_params_with_gemini model w text)).
  destruct (List.filter (fun p => negb (has_value collected p)) REQUIRED_PARAMS)
    as [|p rest] eqn:Hf;
    cbn [co_is_complete co_next_question co_completion_rate co_collected_params].
  - split; [| split; [| split; [| split]]].
    + split; [intros _ | reflexivity]. intros q Hq.
      rewrite filter_nil_iff in Hf. specialize (Hf q Hq).
      now apply negb_false_iff in Hf.
    + split; reflexivity.
    + discriminate.
    + split; discriminate.
    + split; reflexivity.
  - pose proof (filter_head_split _ _ _ _ Hf) as (before & after & Hreq & Hb & Hp).
    apply negb_true_iff in Hp.
    assert (Hlen : (length (p :: rest) <= length REQUIRED_PARAMS)%nat).
    { rewrite <- Hf. apply List.filter_length_le. }
    change (length REQUIRED_PARAMS) with 5%nat in *. cbn [length] in Hlen.
    split; [| split; [| split; [| split]]].
    + split; [discriminate |]. intros H.
      assert (Hin : In p REQUIRED_PARAMS) by (rewrite Hreq; apply in_elt).
      rewrite (H p Hin) in Hp. discriminate.
    + split; discriminate.
    + intros _. exists p, before, after. split; [exact Hreq |].
      split; [| split; [exact Hp | reflexivity]].
      intros q Hq. specialize (Hb q Hq). now apply negb_false_iff in Hb.
    + cbn [length]. unfold Qle. cbn. lia.
    + split; [| discriminate]. cbn [length]. unfold Qeq. cbn. lia.
Qed.

(** X8.  The result of [collect_parameters] is complete exactly when each of
    the five required fields has a non-empty value after the merge; otherwise
    the question asked is that of the first required field, in the order
    emotion, causes, duration, symptomes, intensite, that has none.  The
    completion rate lies between 0 and 1 and is 1 exactly on a complete
    result. *)
Theorem collection_progress (model : bool) (w : Collab) (text : pystr)
    (current : gmap pystr pystr) :
  let c := collect_parameters model w text current in
  (co_is_complete c = true
   <-> forall p, In p REQUIRED_PARAMS -> has_value (co_collected_params c) p = true)
  /\ (co_is_complete c = true <-> co_next_question c = None)
  /\ (co_is_complete c = false ->
      exists p before after,
        REQUIRED_PARAMS = before ++ p :: after
        /\ (forall q, In q before -> has_value (co_collected_params c) q = true)
        /\ has_value (co_collected_params c) p = false
        /\ co_next_question c
           = Some (_generate_question_for_param model w p (co_collected_params c)))
  /\ (0 <= co_completion_rate c <= 1)%Q
  /\ ((co_completion_rate c == 1)%Q <-> co_is_complete c = true).
Proof. exact (collect_parameters_progress model w text current). Qed.

Lemma merge_params_cons (collected : gmap pystr pystr) (k v : pystr)
    (rest : list (pystr * pystr)) :
  merge_params collected ((k, v) :: rest)
  = merge_params
      (if truthy v && negb (has_value collected k) then <[k := v]> collected else collected)
      rest.
Proof. reflexivity. Qed.

Lemma merge_params_has_value (new_params : list (pystr * pystr))
    (collected : gmap pystr pystr) (key : pystr) :
  has_value collected key = true ->
  merge_params collected new_params !! key = collected !! key.
Proof.
  intros H. unfold has_value in H.
  destruct (collected !! key) as [v |] eqn:Hk; [| discriminate].
  now apply merge_params_keeps.
Qed.

Lemma merge_params_first (collected : gmap pystr pystr)
    (new_params : list (pystr * pystr)) (key : pystr) :
  ((forall v, In (key, v) new_params -> truthy v = false) ->
     merge_params collected new_params !! key = collected !! key)
  /\ (forall before v after,
        has_value collected key = false ->
        new_params = before ++ (key, v) :: after ->
        truthy v = true ->
        (forall v', In (key, v') before -> truthy v' = false) ->
        merge_params collected new_params !! key = Some v).
Proof.
  split.
  - revert collected. induction new_params as [|[k v] rest IH]; intros collected Hall;
      [reflexivity |].
    rewrite merge_params_cons.
    rewrite IH by (intros v' Hin; apply Hall; now right).
    destruct (truthy v && negb (has_value collected k)) eqn:Hw; [| reflexivity].
    destruct (decide (k = key)) as [-> | Hne].
    + rewrite (Hall v (or_introl eq_refl)) in Hw. discriminate.
    + now rewrite lookup_insert_ne.
  - intros before v after Hno -> Hv Hbefore. revert collected Hno.
    induction before as [|[k' v'] before IH]; intros collected Hno; cbn [app].
    + rewrite merge_params_cons, Hv, Hno. cbn [andb negb].
      apply merge_params_keeps; [apply lookup_insert_eq | exact Hv].
    + rewrite merge_params_cons.
      apply IH; [intros v0 Hin; apply Hbefore; now right |].
      destruct (truthy v' && negb (has_value collected k')) eqn:Hw; [| exact Hno].
      destruct (decide (k' = key)) as [-> | Hne].
      * rewrite (Hbefore v' (or_introl eq_refl)) in Hw. discriminate.
      * unfold has_value. rewrite lookup_insert_ne by exact Hne. exact Hno.
Qed.

Lemma items_value_unique (items : list (pystr * pystr)) (key v v' : pystr) :
  List.NoDup (map fst items) -> In (key, v) items -> In (key, v') items -> v = v'.
Proof.
  induction items as [|[k x] rest IH]; cbn [map fst In]; intros Hnd H1 H2; [destruct H1 |].
  apply List.NoDup_cons_iff in Hnd. destruct Hnd as [Hnot Hnd].
  assert (Hkey : forall y, In (key, y) rest -> In key (map fst rest)).
  { intros y Hy. apply in_map_iff. now exists (key, y). }
  destruct H1 as [H1 | H1], H2 as [H2 | H2].
  - congruence.
  - injection H1 as -> ->. destruct Hnot. now apply (Hkey v').
  - injection H2 as -> ->. destruct Hnot. now apply (Hkey v).
  - now apply IH.
Qed.

(** X9.  The merge of an extraction, a dictionary whose items are taken one
    key after the other, writes a field only when it has no value yet: a
    field that has a value keeps it, whatever is extracted for it; a field
    without value takes the value extracted for it when that is not empty;
    an empty value extracted is never stored, and a field for which nothing
    is extracted stays as it is. *)
Theorem merge_first_write_wins (collected : gmap pystr pystr)
    (new_params : list (pystr * pystr)) (key : pystr) :
  List.NoDup (map fst new_params) ->
  (has_value collected key = true ->
     merge_params collected new_params !! key = collected !! key)
  /\ (forall v,
        In (key, v) new_params ->
        has_value collected key = false ->
        truthy v = true ->
        merge_params collected new_params !! key = Some v)
  /\ (forall v,
        In (key, v) new_params ->
        truthy v = false ->
        merge_params collected new_params !! key = collected !! key)
  /\ ((forall v, ~ In (key, v) new_params) ->
        merge_params collected new_params !! key = collected !! key).
Proof.
  intros Hnd. destruct (merge_params_first collected new_params key) as [Hnone Hfirst].
  split; [apply merge_params_has_value |]. split; [| split].
  - intros v Hin Hno Hv. destruct (in_split _ _ Hin) as (before & after & Heq).
    apply (Hfirst before v after Hno Heq Hv).
    intros v' Hin'.
    assert (v = v') as <-; [| exfalso].
    { apply (items_value_unique new_params key); [exact Hnd | exact Hin |].
      rewrite Heq. apply in_or_app. now left. }
    rewrite Heq, map_app in Hnd. cbn [map fst] in Hnd.
    apply List.NoDup_remove_2 in Hnd. apply Hnd, in_or_app. left.
    apply in_map_iff. now exists (key, v).
  - intros v Hin Hv. apply Hnone. intros v' Hin'.
    now rewrite <- (items_value_unique new_params key v v' Hnd Hin Hin').
  - intros Hno. apply Hnone. intros v Hin. now destruct (Hno v).
Qed.

Lemma merge_params_has_value_mono (new_params : list (pystr * pystr))
    (collected : gmap pystr pystr) (key : pystr) :
  has_value collected key = true ->
  has_value (merge_params collected new_params) key = true.
Proof.
  intros H. unfold has_value at 1. rewrite merge_params_has_value by exact H. exact H.
Qed.

Lemma filter_length_mono {A} (f g : A -> bool) (l : list A) :
  (forall x, In x l -> g x = true -> f x = true) ->
  (length (List.filter g l) <= length (List.filter f l))%nat.
Proof.
  induction l as [|a l IH]; intros H; cbn [List.filter]; [lia |].
  assert (IH' := IH (fun x Hx => H x (or_intror Hx))).
  destruct (g a) eqn:Hg.
  - rewrite (H a (or_introl eq_refl) Hg). cbn [length]. lia.
  - destruct (f a); cbn [length]; lia.
Qed.

(** X10.  From one call of [collect_parameters] to the next one, made on the
    parameters that the first returned, the completion rate does not go down;
    a complete collection stays complete, and no later extraction changes
    any of its five required fields. *)
Theorem completion_never_regresses (model model' : bool) (w w' : Collab)
    (text text' : pystr) (current : gmap pystr pystr) :
  let c1 := collect_parameters model w text current in
  let c2 := collect_parameters model' w' text' (co_collected_params c1) in
  (co_completion_rate c1 <= co_completion_rate c2)%Q
  /\ (co_is_complete c1 = true ->
      co_is_complete c2 = true
      /\ forall p, In p REQUIRED_PARAMS ->
           co_collected_params c2 !! p = co_collected_params c1 !! p).
Proof.
  cbv zeta.
  set (c1 := collect_parameters model w text current).
  set (c2 := collect_parameters model' w' text' (co_collected_params c1)).
  assert (Hmono : forall p, has_value (co_collected_params c1) p = true ->
                            has_value (co_collected_params c2) p = true).
  { intros p Hp. unfold c2. rewrite collect_parameters_collected.
    now apply merge_params_has_value_mono. }
  destruct (collect_parameters_missing model w text current) as (Hm1 & Hc1 & Hr1).
  destruct (collect_parameters_missing model' w' text' (co_collected_params c1))
    as (Hm2 & Hc2 & Hr2).
  fold c1 in Hm1, Hc1, Hr1. fold c2 in Hm2, Hc2, Hr2.
  assert (Hlen : (length (co_missing_params c2) <= length (co_missing_params c1))%nat).
  { rewrite Hm1, Hm2. apply filter_length_mono. intros p _ Hp.
    apply negb_true_iff in Hp. apply negb_true_iff.
    apply not_true_iff_false. intros H. apply Hmono in H. congruence. }
  split.
  - rewrite Hr1, Hr2. unfold Qle. cbn. lia.
  - intros Hcomplete. split.
    + rewrite Hc2. rewrite Hc1 in Hcomplete.
      destruct (co_missing_params c1); [| discriminate]. cbn [length] in Hlen.
      destruct (co_missing_params c2); [reflexivity | cbn [length] in Hlen; lia].
    + intros p Hp. unfold c2. rewrite collect_parameters_collected.
      apply merge_params_has_value.
      now apply (proj1 (proj1 (collect_parameters_progress model w text current)) Hcomplete).
Qed.

(** ** Questions *)

Lemma startswith_weaken (p a b : pystr) :
  startswith p a = true -> startswith p (a ++ b) = true.
Proof.
  revert a. induction p as [|c p IH]; intros a H; [reflexivity |].
  destruct a as [|d a]; [discriminate |]. cbn [startswith app] in *.
  apply andb_true_iff in H. destruct H as [-> H]. cbn [andb]. now apply IH.
Qed.

Lemma endswith_app (p s t : pystr) :
  endswith p t = true -> endswith p (s ++ t) = true.
Proof.
  unfold endswith. rewrite rev_app_distr. apply startswith_weaken.
Qed.

Lemma table_get_all (P : pystr -> Prop) (table : list (pystr * pystr)) (key dflt : pystr) :
  Forall (fun kv => P kv.2) table -> P dflt -> P (table_get table key dflt).
Proof.
  intros Ht Hd. induction Ht as [|[k v] rest Hk _ IH]; cbn [table_get]; [exact Hd |].
  destruct (str_eqb k key); [exact Hk | exact IH].
Qed.

Lemma question_ends_with_mark (model : bool) (w : Collab) (param_name : pystr)
    (collected : gmap pystr pystr) :
  endswith (py "?") (_generate_question_for_param model w param_name collected) = true.
Proof.
  assert (Hbase : endswith (py "?")
                    (table_get fallback_questions param_name
                       (py "Pouvez-vous m'en dire plus ?")) = true).
  { apply (table_get_all (fun q => endswith (py "?") q = true)).
    - repeat constructor; vm_compute; reflexivity.
    - vm_compute. reflexivity. }
  assert (Hmark : endswith (py "?") (py " ?") = true) by (vm_compute; reflexivity).
  unfold _generate_question_for_param.
  destruct (negb model); [exact Hbase |].
  destruct (gemini_question w param_name collected) as [question |].
  - destruct (endswith (py "?") question) eqn:He; [exact He |].
    now apply endswith_app.
  - destruct (str_eqb param_name (py "duration") && has_value collected (py "emotion"));
      [| exact Hbase].
    rewrite app_assoc. now apply endswith_app.
Qed.

Lemma endswith_truthy (p s : pystr) :
  truthy p = true -> endswith p s = true -> truthy s = true.
Proof.
  unfold endswith. destruct s as [|c s]; [| reflexivity].
  destruct p as [|d p]; [discriminate |]. intros _. cbn [rev app].
  destruct (rev p ++ [d]) eqn:Hr; [| discriminate].
  now apply app_eq_nil in Hr.
Qed.

(** X11.  Every question that the collector generates ends with a question
    mark, whether it comes from Gemini (a mark is added when it is missing),
    from the fallback table or from the personalised fallback; and so does
    the text of every reply that carries one: the intake question of
    COLLECTING_PARAMS and the crisis reply of an incomplete intake. *)
Theorem intake_replies_end_with_question (o : Orchestrator) (w : Collab) (sd : session)
    (msg : pystr) :
  let collection := collect_parameters (has_model o) w msg (s_collected_params sd) in
  co_is_complete collection = false ->
  (exists question,
     co_next_question collection = Some question
     /\ endswith (py "?") question = true)
  /\ (exists r,
        s_final_response (_handle_collecting_params o w sd msg) = Some r
        /\ endswith (py "?") (r_response r) = true)
  /\ (contains_critical_phrase msg ->
      exists sd' r,
        _handle_emergency o w sd msg = Returned sd'
        /\ s_final_response sd' = Some r
        /\ endswith (py "?") (r_response r) = true).
Proof.
  cbv zeta. intros Hc.
  destruct (proj1 (proj2 (proj2 (collect_parameters_progress (has_model o) w msg
                                   (s_collected_params sd)))) Hc)
    as (p & _ & _ & _ & _ & _ & Hq).
  pose proof (question_ends_with_mark (has_model o) w p
                (co_collected_params
                   (collect_parameters (has_model o) w msg (s_collected_params sd))))
    as Hmark.
  split; [eexists; split; [exact Hq | exact Hmark] |]. split.
  - unfold _handle_collecting_params. cbn. rewrite Hc. cbn.
    eexists. split; [reflexivity |]. cbn [r_response]. rewrite Hq. cbn [default from_option id].
    unfold conversation_response.
    rewrite (endswith_truthy (py "?") _ eq_refl Hmark).
    rewrite app_assoc. now apply endswith_app.
  - intros Hcrit. apply detect_emergency_iff in Hcrit.
    destruct (handle_crisis_emergency (has_model o) w msg Hcrit) as [Hp He].
    unfold _handle_emergency. rewrite Hp, He. cbn. rewrite Hc. cbn.
    eexists. eexists. split; [reflexivity |]. split; [reflexivity |].
    cbn [r_response]. rewrite Hq. cbn [default from_option id].
    apply endswith_app. apply (endswith_app _ [10%N; 10%N]). exact Hmark.
Qed.

(** ** The emergency agent *)

Lemma startswith_iff (p s : pystr) :
  startswith p s = true <-> exists rest, s = p ++ rest.
Proof.
  revert s. induction p as [|c p IH]; intros s.
  - split; [intros _; now exists s | reflexivity].
  - destruct s as [|d s]; cbn [startswith].
    + split; [discriminate | intros [rest H]; discriminate].
    + rewrite andb_true_iff, N.eqb_eq, IH. split.
      * intros [-> [rest ->]]. now exists rest.
      * intros [rest H]. injection H as -> ->. split; [reflexivity | now exists rest].
Qed.

Lemma str_in_iff (needle hay : pystr) :
  str_in needle hay = true <-> exists before after, hay = before ++ needle ++ after.
Proof.
  induction hay as [|c hay IH]; cbn [str_in]; rewrite orb_true_iff, startswith_iff.
  - split.
    + intros [[rest H] | H]; [| discriminate]. now exists [], rest.
    + intros (before & after & H). left.
      destruct before; [now exists after |]. discriminate.
  - rewrite IH. split.
    + intros [[rest H] | (before & after & H)].
      * now exists [], rest.
      * exists (c :: before), after. now rewrite H.
    + intros (before & after & H). destruct before as [|b before].
      * left. now exists after.
      * right. injection H as _ H. now exists before, after.
Qed.

(** X12.  [detect_emergency] reports exactly the critical phrases that occur
    as substrings of the lowercased text, in the order of its list; the text
    is an emergency when there is one, and then the level is CRITIQUE, the
    type self_harm and the urgency 10, whatever the number of phrases found;
    otherwise the urgency is 0 and no type is given.  An emergency that it
    detects always calls for an immediate booking. *)
Theorem detection_reports_phrases_present (text : pystr) :
  let d := detect_emergency text in
  (forall keyword,
     In keyword (ed_keywords_found d)
     <-> In keyword critical_self_harm
         /\ exists before after, str_lower text = before ++ keyword ++ after)
  /\ ed_keywords_found d
     = List.filter (fun keyword => str_in keyword (str_lower text)) critical_self_harm
  /\ (ed_is_emergency d = true <-> ed_keywords_found d <> [])
  /\ ed_urgency_score d = (if ed_is_emergency d then 10 else 0)%Z
  /\ ed_type d = (if ed_is_emergency d then Some (py "self_harm") else None)
  /\ ed_level d = (if ed_is_emergency d then py "CRITIQUE" else py "NORMAL")
  /\ should_trigger_emergency_booking d = ed_is_emergency d.
Proof.
  cbv zeta.
  assert (Hfound : ed_keywords_found (detect_emergency text)
                   = List.filter (fun keyword => str_in keyword (str_lower text))
                       critical_self_harm).
  { unfold detect_emergency. now destruct (List.filter _ critical_self_harm) eqn:Hf. }
  split; [| split; [exact Hfound |]].
  - intros keyword. rewrite Hfound, filter_In, str_in_iff. reflexivity.
  - unfold should_trigger_emergency_booking. rewrite Hfound. unfold detect_emergency.
    destruct (List.filter _ critical_self_harm) eqn:Hf;
      cbn [ed_is_emergency ed_urgency_score ed_type ed_level andb];
      repeat split; try discriminate; try congruence.
Qed.

Lemma emergency_context_books (model : bool) (w : Collab) (context : booking_context) :
  bc_is_emergency context = Some true ->
  process_booking_decision model w context
  = {| bk_needs_booking := true;
       bk_slots := generate_slots model w;
       bk_reason := _get_booking_reason context |}.
Proof.
  intros H. unfold process_booking_decision, should_propose_slots. rewrite H. reflexivity.
Qed.

(** X13.  On a text with a critical phrase [handle_crisis] proposes a
    booking, with the three fallback slots when there is no model or when the
    generation of the slots fails, gives the three crisis resources, the
    first of which is the 3114, and the 3114 protocol.  On any other text it
    gives no booking, no resource and no protocol. *)
Theorem crisis_coordination (model : bool) (w : Collab) (msg : pystr) :
  let c := handle_crisis model w msg in
  cr_is_emergency c = ed_is_emergency (detect_emergency msg)
  /\ cr_emergency_data c = detect_emergency msg
  /\ (contains_critical_phrase msg ->
      (exists b, cr_booking c = Some b
                 /\ bk_needs_booking b = true
                 /\ bk_slots b = generate_slots model w
                 /\ (model = false \/ gemini_slots w = None ->
                     bk_slots b = _fallback_slots))
      /\ pr_hotline <$> cr_protocol c = Some (py "3114")
      /\ cr_recommendations c = get_crisis_resources
      /\ rec_titre <$> head (cr_recommendations c) = Some (py "🆘 Numéro d'urgence : 3114"))
  /\ (~ contains_critical_phrase msg ->
      cr_booking c = None /\ cr_protocol c = None /\ cr_recommendations c = []).
Proof.
  cbv zeta. unfold handle_crisis.
  destruct (ed_is_emergency (detect_emergency msg)) eqn:Hd; cbn [negb].
  - cbn [cr_is_emergency cr_emergency_data cr_booking cr_protocol cr_recommendations].
    split; [reflexivity |]. split; [reflexivity |]. split.
    + intros _.
      split.
      * eexists. split; [reflexivity |].
        rewrite emergency_context_books by reflexivity.
        cbn [bk_needs_booking bk_slots].
        split; [reflexivity |]. split; [reflexivity |].
        unfold generate_slots.
        intros [-> | ->]; [reflexivity | now destruct (negb model)].
      * destruct (detect_emergency_type msg Hd) as [-> _]. cbn.
        rewrite self_harm_hotline. repeat split.
    + intros Hn. exfalso. apply Hn. now apply detect_emergency_iff.
  - cbn [cr_is_emergency cr_emergency_data cr_booking cr_protocol cr_recommendations].
    split; [reflexivity |]. split; [reflexivity |]. split.
    + intros Hc. apply detect_emergency_iff in Hc. congruence.
    + auto.
Qed.

(** ** The assessment *)

(** The three rules of the scorer in closed form. *)
Lemma scorer_closed_form (emotion duration_lower : pystr) (n : Z) :
  let critical := any_in critical_emotions (str_lower emotion) in
  let long := any_in long_duration_words duration_lower in
  let s := rule_intensity n (rule_duration duration_lower (rule_emotion emotion (base_score n))) in
  sc_severity s
  = (if critical || (8 <=? n)%Z then Eleve
     else if long || (6 <=? n)%Z then Modere else Faible)
  /\ sc_urgency s
     = (let u1 := if critical then 10 else n in
        let u2 := if long then Z.min 10 (u1 + 2) else u1 in
        if (8 <=? n)%Z then Z.max u2 9 else if (6 <=? n)%Z then Z.max u2 7 else u2)%Z.
Proof.
  cbv zeta. unfold rule_intensity, rule_duration, rule_emotion, base_score.
  destruct (any_in critical_emotions _), (any_in long_duration_words _),
    (8 <=? n)%Z eqn:H8, (6 <=? n)%Z eqn:H6; cbn; split; reflexivity.
Qed.

Lemma months_years_are_long (s : pystr) :
  any_in [py "mois"; py "ans"] s = true -> any_in long_duration_words s = true.
Proof.
  unfold any_in, long_duration_words. cbn [existsb].
  destruct (str_in (py "mois") s), (str_in (py "ans") s); cbn [orb];
    intros H; try reflexivity; discriminate H.
Qed.

Lemma analysis_fields (collected_params : gmap pystr pystr) (user_text : pystr) :
  let n := intensite_num collected_params in
  let emotion := default [] (collected_params !! py "emotion") in
  let duration_lower := str_lower (default [] (collected_params !! py "duration")) in
  let symptomes := str_lower (default [] (collected_params !! py "symptomes")) in
  let s := rule_intensity n (rule_duration duration_lower (rule_emotion emotion (base_score n))) in
  let a := analyze_psychological_state collected_params user_text in
  an_severity_level a = sc_severity s
  /\ an_urgency_score a = sc_urgency s
  /\ an_needs_orientation a
     = (bool_decide (sc_severity s = Eleve \/ sc_severity s = Modere)
        || (7 <=? sc_urgency s)%Z
        || any_in [py "mois"; py "ans"] duration_lower)
  /\ an_recommendations a
     = (if bool_decide (sc_severity s = Eleve)
        then [py "Consultation psychologique recommandée"] else [])
       ++ (if str_in (py "insomnie") symptomes || str_in (py "sommeil") symptomes
           then [py "Améliorer l'hygiène du sommeil"] else [])
       ++ (if (7 <=? sc_urgency s)%Z then [py "Suivi professionnel conseillé"] else []).
Proof. repeat split. Qed.

(** X14.  The severity that [analyze_psychological_state] returns, in closed
    form: Élevé exactly when the emotion holds a critical word or the
    intensity is at least 8; Modéré exactly when neither holds and the
    duration holds a long-duration word or the intensity is at least 6;
    Faible otherwise.  The order of the three rules never lowers a level
    that an earlier rule has set. *)
Theorem severity_level_closed_form (collected_params : gmap pystr pystr)
    (user_text : pystr) :
  let n := intensite_num collected_params in
  let critical :=
    any_in critical_emotions (str_lower (default [] (collected_params !! py "emotion"))) in
  let long :=
    any_in long_duration_words
      (str_lower (default [] (collected_params !! py "duration"))) in
  let a := analyze_psychological_state collected_params user_text in
  (an_severity_level a = Eleve <-> critical = true \/ (8 <= n)%Z)
  /\ (an_severity_level a = Modere
      <-> critical = false /\ (n < 8)%Z /\ (long = true \/ (6 <= n)%Z))
  /\ (an_severity_level a = Faible
      <-> critical = false /\ long = false /\ (n < 6)%Z).
Proof.
  cbv zeta.
  destruct (analysis_fields collected_params user_text) as (-> & _).
  destruct (scorer_closed_form (default [] (collected_params !! py "emotion"))
              (str_lower (default [] (collected_params !! py "duration")))
              (intensite_num collected_params)) as [-> _].
  set (n := intensite_num collected_params).
  destruct (any_in critical_emotions _), (any_in long_duration_words _);
    destruct (Z.leb_spec 8 n), (Z.leb_spec 6 n); cbn [orb];
    repeat split; intros; try discriminate; try lia; auto;
    repeat match goal with
           | H : _ /\ _ |- _ => destruct H
           | H : _ \/ _ |- _ => destruct H
           end; try discriminate; try lia.
Qed.

(** X15.  An assessment of severity Élevé has an urgency of at least 9 and
    carries both the consultation and the follow-up recommendation, the
    first and the last of the list; with a critical word in the emotion the
    urgency is exactly 10, whatever the intensity given. *)
Theorem eleve_means_urgent (collected_params : gmap pystr pystr) (user_text : pystr) :
  let a := analyze_psychological_state collected_params user_text in
  an_severity_level a = Eleve ->
  (9 <= an_urgency_score a)%Z
  /\ head (an_recommendations a) = Some (py "Consultation psychologique recommandée")
  /\ last (an_recommendations a) = Some (py "Suivi professionnel conseillé")
  /\ (any_in critical_emotions
        (str_lower (default [] (collected_params !! py "emotion"))) = true ->
      an_urgency_score a = 10%Z).
Proof.
  cbv zeta.
  destruct (analysis_fields collected_params user_text) as (-> & -> & _ & ->).
  destruct (scorer_closed_form (default [] (collected_params !! py "emotion"))
              (str_lower (default [] (collected_params !! py "duration")))
              (intensite_num collected_params)) as [Cs Cu].
  cbv zeta in Cs, Cu.
  set (n := intensite_num collected_params) in *.
  set (s := rule_intensity n _) in *.
  intros Hs.
  assert (Hu : (9 <= sc_urgency s)%Z
               /\ (any_in critical_emotions
                     (str_lower (default [] (collected_params !! py "emotion"))) = true ->
                   sc_urgency s = 10%Z)).
  { rewrite Cu. rewrite Cs in Hs. clear Cs Cu.
    destruct (any_in critical_emotions _), (any_in long_duration_words _);
      destruct (Z.leb_spec 8 n), (Z.leb_spec 6 n); cbn [orb] in Hs;
      try discriminate; split; intros; try discriminate; lia. }
  destruct Hu as [Hu Hc].
  split; [exact Hu |].
  rewrite Hs. rewrite bool_decide_eq_true_2 by reflexivity.
  destruct (Z.leb_spec 7 (sc_urgency s)); [| lia].
  split; [reflexivity |]. split; [| exact Hc].
  rewrite !last_app. cbn [last]. reflexivity.
Qed.

Lemma needs_orientation_closed_form (collected_params : gmap pystr pystr)
    (user_text : pystr) :
  let a := analyze_psychological_state collected_params user_text in
  an_needs_orientation a = negb (bool_decide (an_severity_level a = Faible))
  /\ (an_severity_level a = Faible ->
      (an_urgency_score a = intensite_num collected_params
       /\ an_urgency_score a < 6)%Z).
Proof.
  cbv zeta.
  destruct (analysis_fields collected_params user_text) as (-> & -> & -> & _).
  destruct (scorer_closed_form (default [] (collected_params !! py "emotion"))
              (str_lower (default [] (collected_params !! py "duration")))
              (intensite_num collected_params)) as [-> ->].
  set (n := intensite_num collected_params).
  pose proof (months_years_are_long
                (str_lower (default [] (collected_params !! py "duration")))) as Hm.
  cbv zeta.
  destruct (any_in critical_emotions _), (any_in long_duration_words _);
    destruct (Z.leb_spec 8 n), (Z.leb_spec 6 n); cbn [orb];
    try (split; [reflexivity | intros; discriminate]).
  all: split; [| intros _; lia].
  all: destruct (any_in [py "mois"; py "ans"] _);
    [specialize (Hm eq_refl); discriminate |].
  all: destruct (Z.leb_spec 7 n); [lia |]; reflexivity.
Qed.

(** X16.  [needs_orientation] is true exactly when the severity is not
    Faible: an urgency of 7 or more, or months or years in the duration,
    never occur with the severity Faible, so that the second and the third
    test of the disjunction add nothing to the first. *)
Theorem orientation_iff_severity (collected_params : gmap pystr pystr)
    (user_text : pystr) :
  let a := analyze_psychological_state collected_params user_text in
  an_needs_orientation a = negb (bool_decide (an_severity_level a = Faible))
  /\ (an_severity_level a = Faible ->
      (an_urgency_score a = intensite_num collected_params
       /\ an_urgency_score a < 6)%Z).
Proof. exact (needs_orientation_closed_form collected_params user_text). Qed.

(** ** The booking decision *)

(** X17.  An assessment of severity Élevé, or of urgency at least 7, always
    gets a booking from the orchestrator: the label that the analysis gives
    to the severity is one of the two that [should_propose_slots] looks for,
    and both rules come before those that read the duration.  The booking
    carries the generated slots and the reason of [_get_booking_reason]. *)
Theorem high_severity_gets_booking (o : Orchestrator) (w : Collab)
    (analysis : analysis_result) (collected_params : gmap pystr pystr) :
  an_severity_level analysis = Eleve \/ (7 <= an_urgency_score analysis)%Z ->
  let booking := _run_booking_agent o w analysis collected_params in
  bk_needs_booking booking = true
  /\ bk_slots booking = generate_slots (has_model o) w
  /\ bk_reason booking
     = _get_booking_reason
         {| bc_severity_level := Some (severity_label (an_severity_level analysis));
            bc_urgency_score := Some (an_urgency_score analysis);
            bc_duration := Some (default [] (collected_params !! py "duration"));
            bc_is_emergency := None |}.
Proof.
  intros H. cbv zeta. unfold _run_booking_agent, process_booking_decision.
  assert (Hp : should_propose_slots
                 {| bc_severity_level := Some (severity_label (an_severity_level analysis));
                    bc_urgency_score := Some (an_urgency_score analysis);
                    bc_duration := Some (default [] (collected_params !! py "duration"));
                    bc_is_emergency := None |} = true).
  { unfold should_propose_slots.
    cbn [bc_severity_level bc_urgency_score bc_duration bc_is_emergency default
         from_option id].
    destruct H as [-> | H].
    - cbn [severity_label].
      now rewrite (proj2 (mem_str_In (py "Élevé") [py "Élevé"; py "Elevé"])
                     (or_introl eq_refl)).
    - destruct (mem_str _ _); [reflexivity |].
      apply Z.leb_le in H. now rewrite H. }
  rewrite Hp. repeat split.
Qed.

(** X18.  The rules of the booking decision; the defaults stand for the
    missing keys.  The four rules that come before the count of the
    weeks each propose slots: the context is an emergency, the severity is
    Élevé or Elevé, the urgency is at least 7, the lowercased duration holds
    one of mois, ans, années, année.  When the decision is to propose, one of
    these holds, or the duration counts more than two weeks, or the severity
    is Modéré.  Without a booking the result has no slot and the fixed
    reason; with one it has the generated slots, which are the three
    fallback slots when there is no model or when the generation fails. *)
Theorem booking_decision_rules (model : bool) (w : Collab) (context : booking_context) :
  let severity_level := default (py "Faible") (bc_severity_level context) in
  let duration := default [] (bc_duration context) in
  let duration_lower := if truthy duration then str_lower duration else [] in
  let early :=
    bc_is_emergency context = Some true
    \/ In severity_level [py "Élevé"; py "Elevé"]
    \/ (7 <= default 0 (bc_urgency_score context))%Z
    \/ any_in [py "mois"; py "ans"; py "années"; py "année"] duration_lower = true in
  let b := process_booking_decision model w context in
  (early -> bk_needs_booking b = true)
  /\ (bk_needs_booking b = true ->
      early
      \/ (exists n, semaines_count duration_lower = Some n /\ (2 < n)%Z)
      \/ severity_level = py "Modéré")
  /\ (bk_needs_booking b = false ->
      bk_slots b = []
      /\ bk_reason b = py "Situation ne nécessite pas de consultation immédiate")
  /\ (bk_needs_booking b = true ->
      bk_slots b = generate_slots model w
      /\ bk_reason b = _get_booking_reason context
      /\ (model = false \/ gemini_slots w = None -> bk_slots b = _fallback_slots)).
Proof.
  cbv zeta.
  assert (Hn : bk_needs_booking (process_booking_decision model w context)
               = should_propose_slots context).
  { unfold process_booking_decision. now destruct (should_propose_slots context). }
  assert (Hrules :
            (bc_is_emergency context = Some true
             \/ In (default (py "Faible") (bc_severity_level context))
                  [py "Élevé"; py "Elevé"]
             \/ (7 <= default 0 (bc_urgency_score context))%Z
             \/ any_in [py "mois"; py "ans"; py "années"; py "année"]
                  (if truthy (default [] (bc_duration context))
                   then str_lower (default [] (bc_duration context)) else []) = true ->
             should_propose_slots context = true)
            /\ (should_propose_slots context = true ->
                (bc_is_emergency context = Some true
                 \/ In (default (py "Faible") (bc_severity_level context))
                      [py "Élevé"; py "Elevé"]
                 \/ (7 <= default 0 (bc_urgency_score context))%Z
                 \/ any_in [py "mois"; py "ans"; py "années"; py "année"]
                      (if truthy (default [] (bc_duration context))
                       then str_lower (default [] (bc_duration context)) else []) = true)
                \/ (exists n,
                      semaines_count
                        (if truthy (default [] (bc_duration context))
                         then str_lower (default [] (bc_duration context)) else [])
                      = Some n /\ (2 < n)%Z)
                \/ default (py "Faible") (bc_severity_level context) = py "Modéré")).
  { unfold should_propose_slots. cbv zeta.
    set (sev := default (py "Faible") (bc_severity_level context)).
    set (dl := if truthy (default [] (bc_duration context))
               then str_lower (default [] (bc_duration context)) else []).
    assert (He : default false (bc_is_emergency context) = true
                 <-> bc_is_emergency context = Some true).
    { destruct (bc_is_emergency context) as [[|]|]; cbn; split; congruence. }
    destruct (default false (bc_is_emergency context)).
    { split; [reflexivity | intros _; left; left; now apply He]. }
    assert (Hne : bc_is_emergency context <> Some true).
    { intros H. apply He in H. discriminate. }
    destruct (mem_str sev [py "Élevé"; py "Elevé"]) eqn:Hm.
    { apply mem_str_In in Hm. split; [reflexivity | intros _; left; right; now left]. }
    assert (Hnm : ~ In sev [py "Élevé"; py "Elevé"]).
    { intros H. apply mem_str_In in H. congruence. }
    destruct (Z.leb_spec 7 (default 0%Z (bc_urgency_score context))).
    { split; [reflexivity | intros _; left; tauto]. }
    destruct (any_in _ dl) eqn:Ha.
    { split; [reflexivity | intros _; left; tauto]. }
    split.
    { intros [H1 | [H1 | [H1 | H1]]]; [contradiction | contradiction | lia | discriminate]. }
    destruct (semaines_count dl) as [n |] eqn:Hw.
    - destruct (Z.ltb_spec 2 n).
      { intros _. right; left. now exists n. }
      destruct (str_eqb sev (py "Modéré")) eqn:Hq; [| discriminate].
      apply str_eqb_eq in Hq. intros _. right; right. exact Hq.
    - destruct (str_eqb sev (py "Modéré")) eqn:Hq; [| discriminate].
      apply str_eqb_eq in Hq. intros _. right; right. exact Hq. }
  destruct Hrules as [Hearly Hconv].
  split; [rewrite Hn; exact Hearly |]. split; [rewrite Hn; exact Hconv |]. split.
  - unfold process_booking_decision.
    destruct (should_propose_slots context); cbn; [discriminate | auto].
  - unfold process_booking_decision.
    destruct (should_propose_slots context); cbn; [| discriminate].
    intros _. split; [reflexivity |]. split; [reflexivity |].
    unfold generate_slots. intros [-> | ->]; [reflexivity | now destruct (negb model)].
Qed.

(** ** The sentiment score *)

Lemma count_in_bound (words : list pystr) (s : pystr) :
  (count_in words s <= length words)%nat.
Proof. unfold count_in. apply List.filter_length_le. Qed.

Lemma sentiment_closed_form (text : pystr) :
  let neg_count := count_in negative_words (str_lower text) in
  let pos_count := count_in positive_words (str_lower text) in
  let score := _analyze_sentiment_simple text in
  (score * inject_Z (Z.of_nat (neg_count + pos_count))
   == inject_Z (Z.of_nat pos_count - Z.of_nat neg_count))%Q
  /\ ((neg_count + pos_count = 0)%nat -> score = 0%Q)
  /\ ((0 < score)%Q <-> (neg_count < pos_count)%nat)
  /\ ((score < 0)%Q <-> (pos_count < neg_count)%nat)
  /\ ((score == 1)%Q <-> (neg_count = 0 /\ 0 < pos_count)%nat)
  /\ ((score == -1)%Q <-> (pos_count = 0 /\ 0 < neg_count)%nat)
  /\ (neg_count <= 10 /\ pos_count <= 8)%nat.
Proof.
  cbv zeta. unfold _analyze_sentiment_simple. cbv zeta.
  pose proof (count_in_bound negative_words (str_lower text)) as Hn.
  pose proof (count_in_bound positive_words (str_lower text)) as Hp.
  change (length negative_words) with 10%nat in Hn.
  change (length positive_words) with 8%nat in Hp.
  set (neg := count_in negative_words (str_lower text)) in *.
  set (pos := count_in positive_words (str_lower text)) in *.
  destruct (Nat.eqb_spec (neg + pos) 0) as [H0 | H0].
  - assert (neg = 0%nat) as -> by lia. assert (pos = 0%nat) as -> by lia.
    cbn. repeat split; intros; try discriminate; try lia;
      try (exfalso; now apply (Qlt_irrefl 0)).
  - set (total := Pos.of_nat (neg + pos)).
    assert (Ht : Z.pos total = Z.of_nat (neg + pos)).
    { unfold total. destruct (neg + pos)%nat eqn:E; [lia |].
      rewrite <- E. rewrite <- positive_nat_Z, Nat2Pos.id by lia. reflexivity. }
    clearbody total neg pos.
    set (sc := (Z.of_nat pos - Z.of_nat neg) # total).
    assert (Hle1 : (sc <= 1)%Q).
    { unfold sc, Qle. cbn [Qnum Qden]. rewrite Ht. lia. }
    assert (Hge : (-1 <= sc)%Q).
    { unfold sc, Qle. cbn [Qnum Qden]. rewrite Ht. lia. }
    assert (Hclamp : (Qmax (-1) (Qmin 1 sc) == sc)%Q).
    { rewrite (Q.min_r 1 sc Hle1). apply Q.max_r. exact Hge. }
    split; [| split; [| split; [| split; [| split; [| split]]]]].
    + rewrite Hclamp.
      unfold sc, Qeq, Qmult, inject_Z. cbn [Qnum Qden]. rewrite Pos.mul_1_r, Ht. lia.
    + intros H. lia.
    + rewrite Hclamp. unfold sc, Qlt. cbn [Qnum Qden]. lia.
    + rewrite Hclamp. unfold sc, Qlt. cbn [Qnum Qden]. lia.
    + rewrite Hclamp. unfold sc, Qeq. cbn [Qnum Qden]. rewrite Ht. lia.
    + rewrite Hclamp. unfold sc, Qeq. cbn [Qnum Qden]. rewrite Ht. lia.
    + lia.
Qed.

(** X19.  The sentiment score is the normalised difference of the numbers
    of positive and negative keywords found, and 0 when none is found; the
    clamp to [-1, 1] that follows never changes it.  Its sign tells which
    kind of keyword is the more frequent, and it reaches 1 or -1 exactly
    when keywords of one kind only are found. *)
Theorem sentiment_is_normalised_difference (text : pystr) :
  let neg_count := count_in negative_words (str_lower text) in
  let pos_count := count_in positive_words (str_lower text) in
  let score := _analyze_sentiment_simple text in
  (score * inject_Z (Z.of_nat (neg_count + pos_count))
   == inject_Z (Z.of_nat pos_count - Z.of_nat neg_count))%Q
  /\ ((neg_count + pos_count = 0)%nat -> score = 0%Q)
  /\ ((0 < score)%Q <-> (neg_count < pos_count)%nat)
  /\ ((score < 0)%Q <-> (pos_count < neg_count)%nat)
  /\ ((score == 1)%Q <-> (neg_count = 0 /\ 0 < pos_count)%nat)
  /\ ((score == -1)%Q <-> (pos_count = 0 /\ 0 < neg_count)%nat)
  /\ (neg_count <= 10 /\ pos_count <= 8)%nat.
Proof. exact (sentiment_closed_form text). Qed.

(** ** The calendar agent *)

Lemma Qgtb_false_iff (a b : Q) : Qgtb a b = false <-> (a <= b)%Q.
Proof.
  unfold Qgtb. rewrite negb_false_iff. apply Qle_bool_iff.
Qed.

Lemma Qltb_false_iff (a b : Q) : Qltb a b = false <-> (b <= a)%Q.
Proof.
  unfold Qltb. rewrite negb_false_iff. apply Qle_bool_iff.
Qed.

Lemma propose_deletions_delete (total need : Q) (events : list event) (freed : Q) (p : change) :
  In p (propose_deletions total need events freed) -> ch_action p = py "DELETE".
Proof.
  revert freed. induction events as [|e l IH]; intros freed; cbn [propose_deletions].
  - intros [].
  - destruct (Qle_bool need freed); [intros [] |].
    destruct (negb (has_id e)); [apply IH |].
    intros [<- | H]; [reflexivity | exact (IH _ H)].
Qed.

Lemma executer_action_agenda_add (endpoint : option pystr) (w : Collab)
    (date title : pystr) (duration_hours : Q) (description : fstr) :
  let call := CallPost (py "add") date title duration_hours description in
  executer_action_agenda endpoint w (py "ADD") date title duration_hours description
  = if negb (endpoint_set endpoint)
    then (ActionDict false (Some (py "Endpoint non configuré")), [])
    else (match calendar_post w call with
          | WriteJson success message => ActionDict success message
          | WriteRequestError e => ActionDict false (Some e)
          | WriteOtherError e => ActionRaises e
          end, [call]).
Proof.
  cbv zeta. unfold executer_action_agenda.
  destruct (negb (endpoint_set endpoint)); [reflexivity |].
  rewrite (proj2 (str_eqb_eq (py "ADD") (py "ADD")) eq_refl).
  now destruct (calendar_post w _).
Qed.

Lemma wellbeing_case_shape (endpoint : option pystr) (w : Collab) (date : pystr)
    (total taux : Q) (events : list event) :
  let d := _handle_wellbeing_case endpoint w date total taux events in
  cal_proposed_changes d.1 = []
  /\ cal_awaiting_confirmation d.1 = false
  /\ cal_charge_totale_heures d.1 = total
  /\ cal_nombre_evenements d.1 = length events
  /\ cal_charge_excessive d.1 = false
  /\ (forall a, In a (cal_actions_effectuees d.1) -> ch_action a = py "ADD")
  /\ (length (cal_actions_effectuees d.1) <= 1)%nat
  /\ d.2 = (if endpoint_set endpoint
            then [CallPost (py "add") date pause_title 1 (pause_description total taux)]
            else [])
  /\ (cal_actions_effectuees d.1 <> [] -> endpoint_set endpoint = true).
Proof.
  cbv zeta. unfold _handle_wellbeing_case. cbv zeta.
  rewrite executer_action_agenda_add.
  destruct (endpoint_set endpoint); cbn [negb].
  - destruct (calendar_post w _) as [[|] message | e | e];
      cbn [fst snd cal_proposed_changes cal_awaiting_confirmation cal_charge_totale_heures
           cal_nombre_evenements cal_charge_excessive cal_actions_effectuees length In];
      repeat split; try lia; try (intros a []; fail).
    intros a [<- | []]. reflexivity.
  - cbn [fst snd cal_proposed_changes cal_awaiting_confirmation cal_charge_totale_heures
         cal_nombre_evenements cal_charge_excessive cal_actions_effectuees length In].
    repeat split; try lia; try (intros a []; fail). intros H. now contradiction H.
Qed.

Lemma decide_calendar_cases (endpoint : option pystr) (w : Collab) (date : pystr)
    (taux : Q) (events : list event) (total : Q) :
  let d := decide_calendar_actions endpoint w date taux events total in
  (d.2 = []
   \/ (endpoint_set endpoint = true
       /\ d.2 = [CallPost (py "add") date pause_title 1 (pause_description total taux)]))
  /\ (cal_proposed_changes d.1 <> [] ->
      cal_actions_effectuees d.1 = [] /\ d.2 = []
      /\ events <> [] /\ (SEUIL_HEURES_JOURNALIER < total)%Q /\ (50 < taux)%Q)
  /\ (cal_actions_effectuees d.1 <> [] ->
      cal_proposed_changes d.1 = []
      /\ events <> [] /\ (total <= SEUIL_HEURES_JOURNALIER)%Q /\ (taux < 30)%Q)
  /\ (cal_awaiting_confirmation d.1 = true <-> cal_proposed_changes d.1 <> [])
  /\ (forall p, In p (cal_proposed_changes d.1) -> ch_action p = py "DELETE")
  /\ (forall a, In a (cal_actions_effectuees d.1) -> ch_action a = py "ADD")
  /\ (length (cal_actions_effectuees d.1) <= 1)%nat.
Proof.
  cbv zeta. unfold decide_calendar_actions.
  destruct events as [|e l].
  { cbn. repeat split; try tauto; try discriminate; try lia; auto. }
  cbv zeta.
  destruct (Qgtb total SEUIL_HEURES_JOURNALIER) eqn:Hg;
    [destruct (Qgtb taux 50) eqn:Hx | destruct (Qltb taux 30) eqn:Hx]; cbn [andb negb].
  - apply Qgtb_iff in Hg, Hx. unfold _handle_overload_case.
    cbn [fst snd cal_proposed_changes cal_actions_effectuees cal_awaiting_confirmation
         length In].
    split; [now left |]. split; [intros _; repeat split; auto; discriminate |].
    split; [intros H; now contradiction H |].
    split.
    { destruct (propose_deletions _ _ _ _); cbn; split; congruence. }
    split; [intros p; apply propose_deletions_delete |].
    split; [intros a [] | lia].
  - cbn [fst snd cal_proposed_changes cal_actions_effectuees cal_awaiting_confirmation
         length In].
    split; [now left |]. split; [intros H; now contradiction H |].
    split; [intros H; now contradiction H |].
    split; [split; [discriminate | intros H; now contradiction H] |].
    split; [intros p [] |]. split; [intros a [] | lia].
  - apply Qgtb_false_iff in Hg. apply Qltb_iff in Hx.
    destruct (wellbeing_case_shape endpoint w date total taux (e :: l))
      as (Hp & Hw & _ & _ & _ & Ha & Hl & Hc & Hs).
    cbv zeta in *. rewrite Hp, Hw.
    split.
    { rewrite Hc. destruct (endpoint_set endpoint); [right; now split | now left]. }
    split; [intros H; now contradiction H |].
    split; [intros _; repeat split; auto; discriminate |].
    split; [split; [discriminate | intros H; now contradiction H] |].
    split; [intros p [] |]. split; [exact Ha | exact Hl].
  - cbn [fst snd cal_proposed_changes cal_actions_effectuees cal_awaiting_confirmation
         length In].
    split; [now left |]. split; [intros H; now contradiction H |].
    split; [intros H; now contradiction H |].
    split; [split; [discriminate | intros H; now contradiction H] |].
    split; [intros p [] |]. split; [intros a [] | lia].
Qed.

Lemma analyze_calendar_load_unfold (endpoint : option pystr) (w : Collab)
    (date severity_level : pystr) (taux : Q) :
  let c := consulter_agenda endpoint w date in
  let d := decide_calendar_actions endpoint w date taux c.1.1 c.1.2 in
  analyze_calendar_load endpoint w date taux severity_level = (d.1, c.2 ++ d.2).
Proof.
  cbv zeta. unfold analyze_calendar_load.
  destruct (consulter_agenda endpoint w date) as [[events total] reads].
  cbn [fst snd]. now destruct (decide_calendar_actions _ _ _ _ _ _).
Qed.

Lemma consulter_agenda_calls (endpoint : option pystr) (w : Collab) (date : pystr) :
  (consulter_agenda endpoint w date).2
  = (if endpoint_set endpoint then [CallConsult date] else [])
  /\ (endpoint_set endpoint = false -> (consulter_agenda endpoint w date).1.1 = []).
Proof.
  unfold consulter_agenda. destruct (endpoint_set endpoint); cbn [negb].
  - destruct (calendar_get w date); split; try reflexivity; discriminate.
  - now split.
Qed.

(** X20.  Whatever the agenda and the distress, [analyze_calendar_load]
    sends nothing without an endpoint, and otherwise the consultation,
    followed by at most one write, which is the addition of the break: it
    never sends a deletion.  Proposals and performed actions exclude one
    another; proposals are deletions and come without any write; a performed
    action is an addition, and there is at most one; [awaiting_confirmation]
    tells whether there is a proposal. *)
Theorem rebalancer_never_deletes (endpoint : option pystr) (w : Collab)
    (date severity_level : pystr) (taux : Q) :
  let result := (analyze_calendar_load endpoint w date taux severity_level).1 in
  let calls := (analyze_calendar_load endpoint w date taux severity_level).2 in
  (if endpoint_set endpoint
   then calls = [CallConsult date]
        \/ exists total,
             calls = [ CallConsult date;
                       CallPost (py "add") date pause_title 1
                         (pause_description total taux) ]
   else calls = [])
  /\ (forall action date' title duration description,
        In (CallPost action date' title duration description) calls ->
        action = py "add")
  /\ (cal_proposed_changes result <> [] ->
      cal_actions_effectuees result = [] /\ calls = [CallConsult date])
  /\ (cal_actions_effectuees result <> [] -> cal_proposed_changes result = [])
  /\ (forall p, In p (cal_proposed_changes result) -> ch_action p = py "DELETE")
  /\ (forall a, In a (cal_actions_effectuees result) -> ch_action a = py "ADD")
  /\ (length (cal_actions_effectuees result) <= 1)%nat
  /\ (cal_awaiting_confirmation result = true <-> cal_proposed_changes result <> []).
Proof.
  cbv zeta. rewrite analyze_calendar_load_unfold. cbv zeta. cbn [fst snd].
  destruct (consulter_agenda_calls endpoint w date) as [Hc He]. rewrite Hc.
  destruct (decide_calendar_cases endpoint w date taux
              (consulter_agenda endpoint w date).1.1
              (consulter_agenda endpoint w date).1.2)
    as (Hcalls & Hp & Ha & Haw & Hd & Hadd & Hlen).
  cbv zeta in *.
  set (d := decide_calendar_actions endpoint w date taux _ _) in *.
  assert (Hset : endpoint_set endpoint = false -> d.2 = []).
  { intros H. destruct Hcalls as [Hn | [Hs _]]; [exact Hn | congruence]. }
  split; [| split; [| split; [| split; [| split; [| split; [| split]]]]]].
  - destruct (endpoint_set endpoint).
    + destruct Hcalls as [-> | [_ ->]]; [now left | right; eexists; reflexivity].
    + now rewrite Hset.
  - intros action date' title duration description Hin.
    apply in_app_iff in Hin. destruct Hin as [Hin | Hin].
    + destruct (endpoint_set endpoint); [| destruct Hin].
      destruct Hin as [Hin | []]. discriminate.
    + destruct Hcalls as [Hn | [_ Hn]]; rewrite Hn in Hin; [destruct Hin |].
      destruct Hin as [Hin | []]. now injection Hin as <-.
  - intros H. destruct (Hp H) as (Hact & Hn & Hev & _). split; [exact Hact |].
    rewrite Hn, app_nil_r.
    destruct (endpoint_set endpoint) eqn:Hs; [reflexivity |].
    exfalso. apply Hev. apply He. reflexivity.
  - intros H. apply (Ha H).
  - exact Hd.
  - exact Hadd.
  - exact Hlen.
  - exact Haw.
Qed.

(** X21.  Without an endpoint, when the consultation fails (an answer whose
    code is not 200, or a request error) and when the agenda of the day is
    empty, [analyze_calendar_load] returns the neutral result (no load, no
    proposal, no action, no message) and writes nothing, whatever the
    distress: the consultation is the only request, and it is not even sent
    without an endpoint. *)
Theorem unreadable_agenda_is_neutral (endpoint : option pystr) (w : Collab)
    (date severity_level : pystr) (taux : Q) :
  endpoint_set endpoint = false
  \/ calendar_get w date = ReadApiError
  \/ calendar_get w date = ReadRequestError
  \/ calendar_get w date = ReadOk [] ->
  analyze_calendar_load endpoint w date taux severity_level
  = (neutral_result, if endpoint_set endpoint then [CallConsult date] else []).
Proof.
  intros H. unfold analyze_calendar_load, consulter_agenda.
  destruct (endpoint_set endpoint); cbn [negb]; [| reflexivity].
  destruct H as [H | [-> | [-> | ->]]]; [discriminate | reflexivity ..].
Qed.

(** X22.  With events on the agenda, when neither case applies (an overload
    with a distress of at most 50, or a load within the threshold with a
    distress of at least 30) the rebalancer reports the load and the number
    of events, tells whether the load exceeds 8 hours, and does nothing: no
    proposal, no action, no message, and no request but the consultation.
    A distress from 30 to 50 is always in this case.  The load reported and
    compared with 8 is the sum that the code computes, whatever its
    rounding. *)
Theorem normal_load_no_action (endpoint : option pystr) (w : Collab)
    (date severity_level : pystr) (taux : Q) (events : list event) :
  endpoint_set endpoint = true ->
  calendar_get w date = ReadOk events ->
  events <> [] ->
  ((SEUIL_HEURES_JOURNALIER < total_duration events)%Q -> (taux <= 50)%Q) ->
  ((total_duration events <= SEUIL_HEURES_JOURNALIER)%Q -> (30 <= taux)%Q) ->
  analyze_calendar_load endpoint w date taux severity_level
  = ({| cal_charge_totale_heures := total_duration events;
        cal_nombre_evenements := length events;
        cal_charge_excessive := Qgtb (total_duration events) SEUIL_HEURES_JOURNALIER;
        cal_proposed_changes := [];
        cal_actions_effectuees := [];
        cal_calendar_message := [];
        cal_awaiting_confirmation := false |}, [CallConsult date])
  /\ (cal_charge_excessive (analyze_calendar_load endpoint w date taux severity_level).1
      = true
      <-> (SEUIL_HEURES_JOURNALIER < total_duration events)%Q).
Proof.
  intros He Hg Hne Hover Hlight.
  rewrite (analyze_calendar_load_read endpoint w date severity_level taux events He Hg).
  unfold decide_calendar_actions. destruct events as [|e l]; [contradiction |].
  cbv zeta. set (total := total_duration (e :: l)) in *.
  destruct (Qgtb total SEUIL_HEURES_JOURNALIER) eqn:Hq; cbn [andb negb].
  - pose proof Hq as Hq'. apply Qgtb_iff in Hq'. specialize (Hover Hq').
    apply Qgtb_false_iff in Hover. rewrite Hover.
    cbn [fst snd cal_charge_excessive]. split; [reflexivity |]. now split.
  - pose proof Hq as Hq'. apply Qgtb_false_iff in Hq'. specialize (Hlight Hq').
    apply Qltb_false_iff in Hlight. rewrite Hlight.
    cbn [fst snd cal_charge_excessive]. split; [reflexivity |].
    split; [discriminate |]. intros H. apply Qgtb_iff in H. congruence.
Qed.

(** X23.  The sort of the rebalancer is stable: the events that have the
    same priority and the same duration as a given event (with the defaults
    5 and 1 for a missing key) come in the sorted list in the order they
    have on the agenda. *)
Theorem sort_keeps_order_of_equal_keys (c : event) (events : list event) :
  let same x :=
    Qeq_bool (default 5%Q (ev_priority x)) (default 5%Q (ev_priority c))
    && Qeq_bool (event_duration x) (event_duration c) in
  List.filter same (sorted_events events) = List.filter same events.
Proof.
  cbv zeta.
  assert (Hext : forall x,
            Qeq_bool (default 5%Q (ev_priority x)) (default 5%Q (ev_priority c))
            && Qeq_bool (event_duration x) (event_duration c)
            = key_leb (sort_key x) (sort_key c) && key_leb (sort_key c) (sort_key x)).
  { intros x. apply eq_true_iff_eq.
    rewrite !andb_true_iff, !key_leb_iff, !Qeq_bool_iff.
    unfold dispensable_before. split.
    - intros [Hp Hd]. split; right; split; try (rewrite Hp; reflexivity);
        try (rewrite Hd; apply Qle_refl); try (symmetry; exact Hp).
    - intros [[H1 | [H1 H1']] [H2 | [H2 H2']]].
      + exfalso. apply (Qlt_irrefl (default 5%Q (ev_priority x))).
        now apply (Qlt_trans _ (default 5%Q (ev_priority c))).
      + exfalso. rewrite H2 in H1. now apply (Qlt_irrefl _ H1).
      + exfalso. rewrite H1 in H2. now apply (Qlt_irrefl _ H2).
      + split; [exact H1 |]. now apply Qle_antisym. }
  rewrite (List.filter_ext _ _ Hext (sorted_events events)).
  rewrite (List.filter_ext _ _ Hext events).
  apply (sorted_events_stable c events).
Qed.

(** X24.  [executer_action_agenda] sends at most one request, and none
    without an endpoint or for an action other than ADD and DELETE: it then
    returns a failure with a message.  The request carries the payload with
    the action in lower case.  A request error is turned into a failure that
    carries its text; the answer of the endpoint is returned as it is; only
    another error of the request is let through. *)
Theorem action_sends_at_most_one_request (endpoint : option pystr) (w : Collab)
    (action date title : pystr) (duration_hours : Q) (description : fstr) :
  let res := (executer_action_agenda endpoint w action date title duration_hours
                description).1 in
  let calls := (executer_action_agenda endpoint w action date title duration_hours
                  description).2 in
  let verb := if str_eqb action (py "ADD") then py "add" else py "delete" in
  let call := CallPost verb date title duration_hours description in
  (calls = [] \/ calls = [call])
  /\ (calls = [call]
      <-> endpoint_set endpoint = true /\ (action = py "ADD" \/ action = py "DELETE"))
  /\ (endpoint_set endpoint = false ->
      res = ActionDict false (Some (py "Endpoint non configuré")))
  /\ (endpoint_set endpoint = true -> action <> py "ADD" -> action <> py "DELETE" ->
      res = ActionDict false (Some (py "Action '" ++ action ++ py "' non supportée")))
  /\ (calls = [call] ->
      res = match calendar_post w call with
            | WriteJson success message => ActionDict success message
            | WriteRequestError e => ActionDict false (Some e)
            | WriteOtherError e => ActionRaises e
            end).
Proof.
  cbv zeta. unfold executer_action_agenda.
  destruct (endpoint_set endpoint); cbn [negb fst snd].
  2:{ repeat split; try (now left); try discriminate; intros; try congruence.
      destruct H as [H _]. discriminate. }
  destruct (str_eqb action (py "ADD")) eqn:Ha.
  { apply str_eqb_eq in Ha.
    destruct (calendar_post w _) as [s m | e | e]; cbn [fst snd];
      repeat split; try (now right); intros; try congruence; auto. }
  assert (Hna : action <> py "ADD").
  { intros H. apply str_eqb_eq in H. congruence. }
  destruct (str_eqb action (py "DELETE")) eqn:Hd.
  { apply str_eqb_eq in Hd.
    destruct (calendar_post w _) as [s m | e | e]; cbn [fst snd];
      repeat split; try (now right); intros; try congruence; auto. }
  assert (Hnd : action <> py "DELETE").
  { intros H. apply str_eqb_eq in H. congruence. }
  cbn [fst snd]. repeat split; try (now left); intros; try discriminate; auto.
  destruct H as [_ [H | H]]; contradiction.
Qed.

(** ** The calendar in the orchestrator *)

(** X25.  In the analysis step the calendar agent runs only when an endpoint
    is configured, and what it does follows the collected intensity, since
    the distress it receives is ten times that number: deletions are
    proposed only for an intensity of 6 or more, a break is added only for
    an intensity of 2 or less, and from 3 to 5 the agenda is left as it
    is. *)
Theorem calendar_follows_intensity (o : Orchestrator) (w : Collab)
    (collected_params : gmap pystr pystr) (msg : pystr) :
  let n := intensite_num collected_params in
  let analysis := analyze_psychological_state collected_params msg in
  (_run_calendar_agent o w analysis = None <-> endpoint_set (agenda_endpoint o) = false)
  /\ forall c, _run_calendar_agent o w analysis = Some c ->
       (cal_proposed_changes c <> [] -> (6 <= n)%Z)
       /\ (cal_actions_effectuees c <> [] -> (n <= 2)%Z)
       /\ ((3 <= n <= 5)%Z ->
           cal_proposed_changes c = [] /\ cal_actions_effectuees c = []).
Proof.
  cbv zeta. unfold _run_calendar_agent.
  destruct (endpoint_set (agenda_endpoint o)); cbn [negb].
  2:{ split; [now split | discriminate]. }
  split; [split; discriminate |].
  intros c Hc. injection Hc as <-.
  unfold process_calendar_analysis. rewrite analyze_calendar_load_unfold.
  cbv zeta. cbn [fst snd].
  destruct (analysis_urgency_is_scored collected_params msg) as [_ ->].
  set (n := intensite_num collected_params).
  destruct (decide_calendar_cases (agenda_endpoint o) w (py "2025-10-30")
              (inject_Z n / 10 * 100)
              (consulter_agenda (agenda_endpoint o) w (py "2025-10-30")).1.1
              (consulter_agenda (agenda_endpoint o) w (py "2025-10-30")).1.2)
    as (_ & Hp & Ha & _).
  cbv zeta in Hp, Ha.
  set (d := decide_calendar_actions _ _ _ _ _ _) in *.
  assert (Hover : (50 < inject_Z n / 10 * 100)%Q -> (6 <= n)%Z).
  { unfold Qlt, Qdiv, Qmult, Qinv, inject_Z. cbn. lia. }
  assert (Hlight : (inject_Z n / 10 * 100 < 30)%Q -> (n <= 2)%Z).
  { unfold Qlt, Qdiv, Qmult, Qinv, inject_Z. cbn. lia. }
  split; [| split].
  - intros H. apply Hover. apply (Hp H).
  - intros H. apply Hlight. apply (Ha H).
  - intros Hn. split.
    + destruct (cal_proposed_changes d.1) eqn:E; [reflexivity |].
      assert (H : (6 <= n)%Z) by (apply Hover, Hp; discriminate). lia.
    + destruct (cal_actions_effectuees d.1) eqn:E; [reflexivity |].
      assert (H : (n <= 2)%Z) by (apply Hlight, Ha; discriminate). lia.
Qed.

(** ** The recommendation agent *)

Lemma resource_get_in (database : list (pystr * list recommendation)) (category : pystr)
    (x : recommendation) :
  In x (resource_get database category) ->
  exists resources, In (category, resources) database /\ In x resources.
Proof.
  induction database as [|[k v] rest IH]; cbn [resource_get]; [intros [] |].
  destruct (str_eqb k category) eqn:E.
  - apply str_eqb_eq in E. subst k. intros H. exists v. split; [now left | exact H].
  - intros H. destruct (IH H) as (r & Hr & Hx). exists r. split; [now right | exact Hx].
Qed.

Ltac split_selection Hs :=
  lazymatch type of Hs with
  | In _ (if ?b then _ else _) => destruct b; split_selection Hs
  | In _ (_ ++ _) =>
    apply in_app_iff in Hs; destruct Hs as [Hs | Hs]; split_selection Hs
  | In _ [] => destruct Hs
  | _ => idtac
  end.

Lemma select_from_database_spec (symptomes emotion severity : pystr) :
  let selected := _select_from_database symptomes emotion severity in
  (1 <= length selected <= 5)%nat
  /\ (forall x, In x selected ->
        x = gratitude_journal
        \/ exists category resources,
             In (category, resources) _load_resource_database /\ In x resources)
  /\ (selected = [gratitude_journal] <-> no_category_matches symptomes emotion)
  /\ (forall severity', _select_from_database symptomes emotion severity' = selected).
Proof.
  cbv zeta. split; [| split; [| split]].
  - unfold _select_from_database. cbv zeta.
    split; [| rewrite length_firstn; lia].
    destruct (any_in _ (str_lower symptomes)), (any_in _ (str_lower symptomes)),
      (any_in _ (str_lower symptomes)), (any_in _ (str_lower symptomes)),
      (any_in _ (str_lower emotion)), (any_in _ (str_lower emotion));
      vm_compute; lia.
  - intros x Hx. unfold _select_from_database in Hx. cbv zeta in Hx.
    apply In_firstn in Hx.
    match type of Hx with
    | In x (match ?s with [] => _ | _ :: _ => _ end) =>
      assert (Hs : In x s \/ x = gratitude_journal)
        by (destruct s; [right; destruct Hx as [<- | []]; reflexivity | now left]);
      clear Hx
    end.
    destruct Hs as [Hs | Hs]; [right | now left].
    split_selection Hs;
      destruct (resource_get_in _ _ _ Hs) as (r & Hr & Hxr);
      eexists _, r; split; eassumption.
  - unfold no_category_matches, _select_from_database. cbv zeta.
    destruct (any_in _ (str_lower symptomes)), (any_in _ (str_lower symptomes)),
      (any_in _ (str_lower symptomes)), (any_in _ (str_lower symptomes)),
      (any_in _ (str_lower emotion)), (any_in _ (str_lower emotion));
      (split;
       [ intros H; apply (f_equal (@length recommendation)) in H;
         vm_compute in H; try discriminate H; repeat split
       | intros (H1 & H2 & H3 & H4 & H5 & H6); try discriminate; reflexivity ]).
  - reflexivity.
Qed.

(** X26.  [_select_from_database] returns between one and five resources,
    each of them a resource of the database or the gratitude journal of the
    fallback; it returns that journal alone exactly when no keyword of the
    six categories occurs in the symptoms and the emotion; and the severity
    it is given plays no part. *)
Theorem selection_is_bounded (symptomes emotion severity : pystr) :
  let selected := _select_from_database symptomes emotion severity in
  (1 <= length selected <= 5)%nat
  /\ (forall x, In x selected ->
        x = gratitude_journal
        \/ exists category resources,
             In (category, resources) _load_resource_database /\ In x resources)
  /\ (selected = [gratitude_journal] <-> no_category_matches symptomes emotion)
  /\ (forall severity', _select_from_database symptomes emotion severity' = selected).
Proof. exact (select_from_database_spec symptomes emotion severity). Qed.

(** X27.  The selection is cut after five resources, and the categories of
    the symptoms come first: when the symptoms name both anxiety and sleep,
    the result is the three resources against anxiety and the first two for
    sleep, and the emotion has no influence on it. *)
Theorem symptoms_fill_the_selection (symptomes emotion severity : pystr) :
  any_in [py "anxiété"; py "anxieux"; py "stress"; py "angoisse"] (str_lower symptomes)
  = true ->
  any_in [py "insomnie"; py "sommeil"; py "dors"] (str_lower symptomes) = true ->
  _select_from_database symptomes emotion severity
  = resource_get _load_resource_database (py "anxiety_stress")
    ++ firstn 2 (resource_get _load_resource_database (py "insomnia"))
  /\ forall emotion',
       _select_from_database symptomes emotion' severity
       = _select_from_database symptomes emotion severity.
Proof.
  intros Ha Hs.
  assert (H : forall e,
            _select_from_database symptomes e severity
            = resource_get _load_resource_database (py "anxiety_stress")
              ++ firstn 2 (resource_get _load_resource_database (py "insomnia"))).
  { intros e. unfold _select_from_database. cbv zeta. rewrite Ha, Hs. cbv iota.
    clear Ha Hs.
    repeat match goal with
           | |- context [if any_in ?words ?s then _ else _] => destruct (any_in words s)
           end;
      vm_compute; reflexivity. }
  split; [apply H |]. intros e. now rewrite !H.
Qed.

(** X28.  [generate_recommendations] adds the agenda entry, with the
    proposals it is given, after the selected resources and only when there
    is a proposal: the result has from one to six entries.  The request
    that [_run_recommendation_agent] makes passes no proposal: its result is
    the selection for the collected symptoms and emotion, and its count is
    the number of recommendations. *)
Theorem recommendations_shape (model : bool) (context : recommendation_context)
    (proposed : option (list change)) (o : Orchestrator) (analysis : analysis_result)
    (collected_params : gmap pystr pystr) :
  let selected :=
    _select_from_database (default [] (rc_symptomes context))
      (default [] (rc_emotion context))
      (default (py "Modéré") (rc_severity_level context)) in
  let generated := generate_recommendations model context proposed in
  let request := _run_recommendation_agent o analysis collected_params in
  (1 <= length generated <= 6)%nat
  /\ firstn (length selected) generated = selected
  /\ (match proposed with
      | Some (c :: changes) =>
        exists entry,
          generated = selected ++ [entry]
          /\ rec_type entry = py "agenda"
          /\ rec_proposed_changes entry = c :: changes
      | _ => generated = selected
      end)
  /\ request.1
     = _select_from_database (default [] (collected_params !! py "symptomes"))
         (default [] (collected_params !! py "emotion"))
         (default (severity_label (an_severity_level analysis))
            (collected_params !! py "severity_level"))
  /\ request.2 = length request.1
  /\ (1 <= request.2 <= 5)%nat.
Proof.
  cbv zeta.
  assert (Hg : forall m c p,
            generate_recommendations m c p
            = match p with
              | Some ((_ :: _) as changes) =>
                _select_from_database (default [] (rc_symptomes c))
                  (default [] (rc_emotion c))
                  (default (py "Modéré") (rc_severity_level c))
                ++ [ {| rec_type := py "agenda";
                        rec_titre := py "Optimisation de votre planning";
                        rec_message :=
                          [ Lit (py "J'ai analysé votre agenda et identifié ");
                            Num (inject_Z (Z.of_nat (length changes)));
                            Lit (py " opportunités pour libérer du temps et réduire votre charge.") ];
                        rec_proposed_changes := changes |} ]
              | _ =>
                _select_from_database (default [] (rc_symptomes c))
                  (default [] (rc_emotion c))
                  (default (py "Modéré") (rc_severity_level c))
              end).
  { intros m c p. unfold generate_recommendations, _enrich_with_gemini. cbv zeta.
    now destruct (m && _). }
  pose proof (select_from_database_spec (default [] (rc_symptomes context))
                (default [] (rc_emotion context))
                (default (py "Modéré") (rc_severity_level context))) as [Hb _].
  cbv zeta in Hb.
  pose proof (select_from_database_spec (default [] (collected_params !! py "symptomes"))
                (default [] (collected_params !! py "emotion"))
                (default (severity_label (an_severity_level analysis))
                   (collected_params !! py "severity_level"))) as [Hr _].
  cbv zeta in Hr.
  unfold _run_recommendation_agent, process_recommendation_request. cbv zeta.
  cbn [fst snd]. rewrite !Hg.
  cbn [rc_symptomes rc_emotion rc_severity_level default from_option id].
  set (sel := _select_from_database (default [] (rc_symptomes context)) _ _) in *.
  split.
  { destruct proposed as [[|c ch]|]; rewrite ?length_app; cbn [length]; lia. }
  split.
  { destruct proposed as [[|c ch]|];
      rewrite ?firstn_app, ?Nat.sub_diag, ?firstn_all; cbn [firstn];
      rewrite ?app_nil_r; reflexivity. }
  split.
  { destruct proposed as [[|c ch]|]; try reflexivity.
    eexists. split; [reflexivity |]. split; reflexivity. }
  split; [reflexivity |]. split; [reflexivity | exact Hr].
Qed.

(** ** The routes *)

Lemma delete_events_counts (delete : nat -> pystr -> delete_outcome)
    (event_ids : list pystr) (k deleted_count failed_count : nat) :
  let '(d, f, requests) := delete_events delete k event_ids deleted_count failed_count in
  (d + f = deleted_count + failed_count + length event_ids)%nat
  /\ requests = event_ids
  /\ d = (deleted_count + accepted_deletions delete k event_ids)%nat.
Proof.
  revert k deleted_count failed_count.
  induction event_ids as [|event_id rest IH]; intros k deleted_count failed_count;
    cbn [delete_events accepted_deletions length]; [repeat split; lia |].
  destruct (deletion_accepted (delete k event_id)).
  - specialize (IH (S k) (deleted_count + 1)%nat failed_count).
    destruct (delete_events _ _ _ _ _) as [[d f] requests].
    destruct IH as (H1 & H2 & H3). subst requests. repeat split; lia.
  - specialize (IH (S k) deleted_count (failed_count + 1)%nat).
    destruct (delete_events _ _ _ _ _) as [[d f] requests].
    destruct IH as (H1 & H2 & H3). subst requests. repeat split; lia.
Qed.

(** X29.  [confirm_agenda_changes] deletes only on the action apply (the
    default) with a non-empty list: it then calls the endpoint once per
    identifier, in the order of the list, counts as deleted the calls
    answered with the code 200 and as failed all the others, exceptions
    included, so that the two counters add up to the length of the list,
    and it replies with a success even when every deletion fails.  For any
    other action, and for an empty list, it calls nothing and reports no
    deletion. *)
Theorem confirmation_counts (delete : nat -> pystr -> delete_outcome)
    (event_ids : option (list pystr)) (action : option pystr) :
  let ids := default [] event_ids in
  let reply := (confirm_agenda_changes delete (ConfirmBody event_ids action)).1 in
  let requests := (confirm_agenda_changes delete (ConfirmBody event_ids action)).2 in
  (default (py "apply") action = py "apply" -> ids <> [] ->
   exists message deleted_count failed_count,
     reply = ConfirmDone message deleted_count (Some failed_count)
     /\ (deleted_count + failed_count = length ids)%nat
     /\ requests = ids
     /\ deleted_count = accepted_deletions delete 0 ids)
  /\ (default (py "apply") action <> py "apply" \/ ids = [] ->
      reply = ConfirmDone [Lit (py "Modifications annulées")] 0 None
      /\ requests = []).
Proof.
  cbv zeta. unfold confirm_agenda_changes. cbv zeta.
  set (ids := default [] event_ids).
  set (act := default (py "apply") action).
  split.
  - intros Ha Hne. rewrite (proj2 (str_eqb_eq _ _) Ha).
    destruct ids as [|i l] eqn:E; [contradiction |]. rewrite <- E. cbn [andb].
    assert (Hlen : (0 <? length ids)%nat = true) by (rewrite E; reflexivity).
    rewrite Hlen.
    pose proof (delete_events_counts delete ids 0 0 0) as H.
    destruct (delete_events delete 0 ids 0 0) as [[d f] requests].
    destruct H as (H1 & H2 & H3). cbn [fst snd].
    exists [ Lit (py "✅ "); Num (inject_Z (Z.of_nat d));
             Lit (py " suppression(s) effectuée(s) avec succès") ], d, f.
    split; [reflexivity |]. split; [lia |]. split; [exact H2 |]. exact H3.
  - intros [Hna | Hnil].
    + destruct (str_eqb act (py "apply")) eqn:E.
      * apply str_eqb_eq in E. contradiction.
      * cbn [andb fst snd]. now split.
    + rewrite Hnil. cbn [length]. rewrite andb_false_r. cbn [fst snd]. now split.
Qed.

(** X30.  [chat] validates the body before it calls the orchestrator: a
    missing or empty body, and a text that is absent or blank once stripped,
    are refused with the status 400, a body that cannot be read with the
    status 500, and in both cases no session is created or changed.
    Otherwise the stripped text goes to [process_message] under the stripped
    session identifier, or under a fresh one when that is missing or blank,
    and the reply follows the outcome of that call: a response that the call
    returns is sent as it is, an exception that the call lets through is
    answered by the internal error with the status 500.  On an orchestrator
    that [__init__], [process_message] and [reset_session] can produce, a
    response that is sent is a success and names that session, and the reply
    is never the default error dictionary of [process_message]. *)
Theorem chat_validates_then_delegates (o : Orchestrator) (w : Collab)
    (fresh_id : pystr) (req : chat_request) :
  match req with
  | NoJson | NotAnObject =>
    chat o w fresh_id req = (o, ChatError 500 (py "Erreur interne du serveur"))
  | FalsyBody => chat o w fresh_id req = (o, ChatError 400 (py "Corps JSON requis"))
  | Body text session_id =>
    match get_stripped text, get_stripped session_id with
    | Some user_text, Some stripped_id =>
      if truthy user_text then
        let sid := if truthy stripped_id then stripped_id else fresh_id in
        let result := process_message o w sid user_text in
        (chat o w fresh_id req).1 = result.1
        /\ (forall r,
              result.2 = Responded r -> (chat o w fresh_id req).2 = ChatJson (Some r))
        /\ (result.2 = Propagated ->
            (chat o w fresh_id req).2 = ChatError 500 (py "Erreur interne du serveur"))
        /\ (reachable o ->
            (chat o w fresh_id req).2 <> ChatJson None
            /\ forall r,
                 (chat o w fresh_id req).2 = ChatJson (Some r) ->
                 r_success r = true /\ r_session_id r = sid)
      else chat o w fresh_id req = (o, ChatError 400 text_required)
    | _, _ =>
      chat o w fresh_id req = (o, ChatError 500 (py "Erreur interne du serveur"))
    end
  end.
Proof.
  destruct req as [| | | text session_id]; try reflexivity.
  unfold chat. cbv zeta.
  destruct (get_stripped text) as [user_text |]; [| reflexivity].
  destruct (get_stripped session_id) as [stripped_id |]; [| reflexivity].
  destruct (truthy user_text); cbn [negb]; [| reflexivity].
  set (sid := if truthy stripped_id then stripped_id else fresh_id).
  split; [| split; [| split; [| intros Hr]]].
  - now destruct (process_message o w sid user_text) as [o' [r | | |]].
  - destruct (process_message o w sid user_text) as [o' [r | | |]]; cbn [fst snd];
      intros r0 H0; try discriminate. now injection H0 as <-.
  - destruct (process_message o w sid user_text) as [o' [r | | |]]; cbn [fst snd];
      intros H0; try discriminate. reflexivity.
  - destruct (reachable_turn_responds o w sid user_text Hr)
      as (sd' & r & Hp & Hs & Hid & _).
    rewrite Hp. cbn [fst snd]. split; [discriminate |].
    intros r0 H0. injection H0 as <-. auto.
Qed.

End FurtherProperties.

(** * The properties on sample inputs *)



Lemma session_flag_and_fields_persist_witness :
  let sid := py "s1" in
  let o1 := (process_message (L:=latin1_lib) model_orchestrator informed_world sid
               (py "je veux me suicider")).1 in
  let sd1 := default (new_session sid) (sessions o1 !! sid) in
  let turns :=
    [ {| t_world := silent_world; t_session_id := sid; t_message := py "oui" |};
      {| t_world := contrary_world; t_session_id := sid;
         t_message := py "en fait je vais bien" |};
      {| t_world := contrary_world; t_session_id := sid; t_message := py "non" |} ] in
  sessions o1 !! sid = Some sd1
  /\ s_is_emergency sd1 = true
  /\ s_collected_params sd1 !! py "emotion" = Some (py "suicide")
  /\ exists sd',
       sessions (play_turns (L:=latin1_lib) o1 turns) !! sid = Some sd'
       /\ s_is_emergency sd' = true
       /\ s_collected_params sd' !! py "emotion" = Some (py "suicide").
Proof.
  cbv zeta.
  assert (H : sessions (process_message (L:=latin1_lib) model_orchestrator informed_world
                          (py "s1") (py "je veux me suicider")).1 !! py "s1"
              = Some (default (new_session (py "s1"))
                        (sessions (process_message (L:=latin1_lib) model_orchestrator
                                     informed_world (py "s1")
                                     (py "je veux me suicider")).1 !! py "s1")))
    by (vm_compute; reflexivity).
  split; [exact H |].
  split; [vm_compute; reflexivity |]. split; [vm_compute; reflexivity |].
  destruct (session_flag_and_fields_persist (L:=latin1_lib) _
              [ {| t_world := silent_world; t_session_id := py "s1";
                   t_message := py "oui" |};
                {| t_world := contrary_world; t_session_id := py "s1";
                   t_message := py "en fait je vais bien" |};
                {| t_world := contrary_world; t_session_id := py "s1";
                   t_message := py "non" |} ] _ _ H)
    as [(sd' & Hl & Hf & Hc) _].
  exists sd'. split; [exact Hl |]. split.
  - apply Hf. vm_compute. reflexivity.
  - apply Hc; vm_compute; reflexivity.
Defined.

Lemma negative_token_confirms_witness :
  let sd := set_state WAITING_USER_CONFIRMATION (new_session (py "s1")) in
  let msg := py "  Rien à Ajouter " in
  s_state sd = WAITING_USER_CONFIRMATION
  /\ In (strip (str_lower (PyLib:=latin1_lib) msg)) negative_tokens
  /\ (10 < len msg)%Z
  /\ s_user_confirmed (_handle_waiting_confirmation (L:=latin1_lib) sd msg) = Some true
  /\ s_state (_handle_waiting_confirmation (L:=latin1_lib) sd msg)
     = ANALYZING_AND_RESPONDING.
Proof.
  cbv zeta.
  assert (H : In (strip (str_lower (PyLib:=latin1_lib) (py "  Rien à Ajouter ")))
                 negative_tokens).
  { apply (mem_str_In (strip (str_lower (PyLib:=latin1_lib) (py "  Rien à Ajouter ")))
             negative_tokens).
    vm_compute. reflexivity. }
  split; [reflexivity |]. split; [exact H |]. split; [vm_compute; reflexivity |].
  destruct (negative_token_confirms (L:=latin1_lib) 1 fresh_orchestrator silent_world
              (set_state WAITING_USER_CONFIRMATION (new_session (py "s1")))
              (py "  Rien à Ajouter ") eq_refl H)
    as (Hu & Hs & _).
  split; [exact Hu | exact Hs].
Defined.

(** C4, the scorer on an intensity above the scale.  With the intensity
    "15" the base urgency is 15; the rule of the critical emotion then sets
    it to 10, and so does the cap of the rule of the long duration: the
    urgency returned is below the base. *)
Lemma scorer_lowers_urgency_above_scale :
  let crisis := <[py "intensite" := py "15"]> (<[py "emotion" := py "suicide"]> ∅) in
  let lasting := <[py "intensite" := py "15"]> (<[py "duration" := py "3 mois"]> ∅) in
  intensite_num (L:=latin1_lib) crisis = 15%Z
  /\ sc_urgency (base_score 15) = 15%Z
  /\ sc_urgency (rule_emotion (L:=latin1_lib) (py "suicide") (base_score 15)) = 10%Z
  /\ sc_urgency (rule_duration (py "3 mois") (base_score 15)) = 10%Z
  /\ an_urgency_score (analyze_psychological_state (L:=latin1_lib) crisis []) = 10%Z
  /\ an_urgency_score (analyze_psychological_state (L:=latin1_lib) lasting []) = 10%Z.
Proof. cbv zeta. repeat split; vm_compute; reflexivity. Qed.

(** C5, the assessment on an intensity outside the scale.  With the
    intensity "15" and nothing else the urgency returned is 15 and the
    distress ratio 15/10; with "-3" they are -3 and -3/10. *)
Lemma assessment_leaves_ranges_outside_scale :
  let high := analyze_psychological_state (L:=latin1_lib) (<[py "intensite" := py "15"]> ∅) [] in
  let low := analyze_psychological_state (L:=latin1_lib) (<[py "intensite" := py "-3"]> ∅) [] in
  an_urgency_score high = 15%Z
  /\ (1 < an_taux_mal_etre high)%Q
  /\ an_urgency_score low = (-3)%Z
  /\ (an_taux_mal_etre low < 0)%Q.
Proof. cbv zeta. repeat split; vm_compute; reflexivity. Qed.

Lemma emergency_always_books_witness :
  let context :=
    {| bc_severity_level := Some (py "Faible"); bc_urgency_score := Some 0%Z;
       bc_duration := Some (py "2 jours"); bc_is_emergency := Some true |} in
  bc_is_emergency context = Some true
  /\ bk_needs_booking (process_booking_decision (L:=latin1_lib) false silent_world context)
     = true.
Proof.
  cbv zeta. split; [reflexivity |].
  exact (proj1 (proj2 (emergency_always_books (L:=latin1_lib) false silent_world
                         {| bc_severity_level := Some (py "Faible");
                            bc_urgency_score := Some 0%Z;
                            bc_duration := Some (py "2 jours");
                            bc_is_emergency := Some true |} eq_refl))).
Defined.

(** C7 on a day of ten hours, and on a day whose hours are rounded.  On
    [rounding_day] the hours to free are 0.3000000000000007 in binary64; the
    events of 0.2 and 0.1 hours free 0.30000000000000004, which is less, and
    the event of 8 hours is proposed as well. *)
Lemma overload_proposes_deletions_witness :
  let w := calendar_world busy_day (WriteJson true None) in
  let result :=
    (analyze_calendar_load (L:=latin1_lib) sample_endpoint w (py "2025-10-30") 60
       (py "Modéré")).1 in
  let need := py_sub (PyLib:=latin1_lib) (total_duration (L:=latin1_lib) busy_day)
                SEUIL_HEURES_JOURNALIER in
  let w64 := calendar_world rounding_day (WriteJson true None) in
  let result64 :=
    (analyze_calendar_load (L:=binary64_lib) sample_endpoint w64 (py "2025-10-30") 60
       (py "Modéré")).1 in
  let need64 := py_sub (PyLib:=binary64_lib) (total_duration (L:=binary64_lib) rounding_day)
                  SEUIL_HEURES_JOURNALIER in
  (endpoint_set sample_endpoint = true
   /\ calendar_get w (py "2025-10-30") = ReadOk busy_day
   /\ busy_day <> []
   /\ (SEUIL_HEURES_JOURNALIER < total_duration (L:=latin1_lib) busy_day)%Q
   /\ (50 < 60)%Q
   /\ (need <= freed_after (L:=latin1_lib) 0 (List.filter has_id (sorted_events busy_day)))%Q
   /\ (need <= proposed_hours (L:=latin1_lib) (cal_proposed_changes result))%Q
   /\ map ch_event_id (cal_proposed_changes result) = [Some (py "e2")])
  /\ (rounding_day <> []
      /\ (SEUIL_HEURES_JOURNALIER < total_duration (L:=binary64_lib) rounding_day)%Q
      /\ need64 = (84442493013197 # 281474976710656)%Q
      /\ freed_after (L:=binary64_lib) 0
           (firstn 2 (List.filter has_id (sorted_events rounding_day)))
         = (1351079888211149 # 4503599627370496)%Q
      /\ (freed_after (L:=binary64_lib) 0
            (firstn 2 (List.filter has_id (sorted_events rounding_day))) < need64)%Q
      /\ (need64 <= proposed_hours (L:=binary64_lib) (cal_proposed_changes result64))%Q
      /\ map ch_event_id (cal_proposed_changes result64)
         = [Some (py "b"); Some (py "a"); Some (py "c")]).
Proof.
  cbv zeta.
  assert (H1 : endpoint_set sample_endpoint = true) by (vm_compute; reflexivity).
  assert (H5 : (50 < 60)%Q) by (vm_compute; reflexivity).
  split.
  - assert (H3 : busy_day <> []) by discriminate.
    assert (H4 : (SEUIL_HEURES_JOURNALIER < total_duration (L:=latin1_lib) busy_day)%Q)
      by (vm_compute; reflexivity).
    assert (H6 : (py_sub (PyLib:=latin1_lib) (total_duration (L:=latin1_lib) busy_day)
                    SEUIL_HEURES_JOURNALIER
                  <= freed_after (L:=latin1_lib) 0
                       (List.filter has_id (sorted_events busy_day)))%Q)
      by (vm_compute; discriminate).
    split; [exact H1 |]. split; [reflexivity |]. split; [exact H3 |].
    split; [exact H4 |]. split; [exact H5 |]. split; [exact H6 |].
    destruct (overload_proposes_deletions (L:=latin1_lib) sample_endpoint
                (calendar_world busy_day (WriteJson true None))
                (py "2025-10-30") (py "Modéré") 60 busy_day H1 eq_refl H3 H4 H5)
      as (_ & _ & _ & Hsum & _).
    split; [exact (Hsum H6) | vm_compute; reflexivity].
  - assert (H3 : rounding_day <> []) by discriminate.
    assert (H4 : (SEUIL_HEURES_JOURNALIER
                  < total_duration (L:=binary64_lib) rounding_day)%Q)
      by (vm_compute; reflexivity).
    assert (H6 : (py_sub (PyLib:=binary64_lib)
                    (total_duration (L:=binary64_lib) rounding_day)
                    SEUIL_HEURES_JOURNALIER
                  <= freed_after (L:=binary64_lib) 0
                       (List.filter has_id (sorted_events rounding_day)))%Q)
      by (vm_compute; discriminate).
    split; [exact H3 |]. split; [exact H4 |].
    split; [vm_compute; reflexivity |]. split; [vm_compute; reflexivity |].
    split; [vm_compute; reflexivity |].
    destruct (overload_proposes_deletions (L:=binary64_lib) sample_endpoint
                (calendar_world rounding_day (WriteJson true None))
                (py "2025-10-30") (py "Modéré") 60 rounding_day H1 eq_refl H3 H4 H5)
      as (_ & _ & _ & Hsum & _).
    split; [exact (Hsum H6) | vm_compute; reflexivity].
Defined.

(** C8 on a day of five hours, with the arithmetic of binary64.  On
    [threshold_day] the hours add up to 8.000000000000002 in binary64: the
    total is above the threshold and the case of the break does not apply. *)
Lemma wellbeing_adds_one_break_witness :
  let w := calendar_world light_day (WriteJson true None) in
  let result :=
    (analyze_calendar_load (L:=binary64_lib) sample_endpoint w (py "2025-10-30") 20
       (py "Faible")).1 in
  let calls :=
    (analyze_calendar_load (L:=binary64_lib) sample_endpoint w (py "2025-10-30") 20
       (py "Faible")).2 in
  endpoint_set sample_endpoint = true
  /\ calendar_get w (py "2025-10-30") = ReadOk light_day
  /\ light_day <> []
  /\ (total_duration (L:=binary64_lib) light_day <= SEUIL_HEURES_JOURNALIER)%Q
  /\ (20 < 30)%Q
  /\ calls = [ CallConsult (py "2025-10-30");
               CallPost (py "add") (py "2025-10-30") pause_title 1
                 (pause_description (total_duration (L:=binary64_lib) light_day) 20) ]
  /\ cal_proposed_changes result = []
  /\ map ch_action (cal_actions_effectuees result) = [py "ADD"]
  /\ total_duration (L:=binary64_lib) threshold_day
     = (4503599627370497 # 562949953421312)%Q
  /\ ~ (total_duration (L:=binary64_lib) threshold_day <= SEUIL_HEURES_JOURNALIER)%Q.
Proof.
  cbv zeta.
  assert (H1 : endpoint_set sample_endpoint = true) by (vm_compute; reflexivity).
  assert (H3 : light_day <> []) by discriminate.
  assert (H4 : (total_duration (L:=binary64_lib) light_day <= SEUIL_HEURES_JOURNALIER)%Q)
    by (vm_compute; discriminate).
  assert (H5 : (20 < 30)%Q) by (vm_compute; reflexivity).
  split; [exact H1 |]. split; [reflexivity |]. split; [exact H3 |].
  split; [exact H4 |]. split; [exact H5 |].
  destruct (wellbeing_adds_one_break (L:=binary64_lib) sample_endpoint
              (calendar_world light_day (WriteJson true None))
              (py "2025-10-30") (py "Faible") 20 light_day H1 eq_refl H3 H4 H5)
    as (Hc & Hp & _ & Hw).
  split; [exact Hc |]. split; [exact Hp |].
  cbn [calendar_world calendar_post] in Hw.
  destruct Hw as ((a & -> & Ha & _) & _). cbn [map]. rewrite Ha.
  split; [reflexivity |]. split; [vm_compute; reflexivity |].
  intros H. vm_compute in H. now apply H.
Defined.

Lemma crisis_turn_never_fails_witness :
  contains_critical_phrase (L:=latin1_lib) (py "je veux me suicider")
  /\ enters_at_routing fresh_orchestrator (py "s1")
  /\ sessions fresh_orchestrator !! py "s1" = None
  /\ exists o' r,
       process_message (L:=latin1_lib) fresh_orchestrator silent_world (py "s1")
         (py "je veux me suicider") = (o', Responded r)
       /\ r_success r = true
       /\ r_is_emergency r = true
       /\ pr_hotline <$> r_protocol r = Some (py "3114")
       /\ startswith emergency_fallback_message (r_response r) = true.
Proof.
  assert (H1 : contains_critical_phrase (L:=latin1_lib) (py "je veux me suicider")).
  { apply detect_emergency_iff. vm_compute. reflexivity. }
  assert (H2 : enters_at_routing fresh_orchestrator (py "s1")) by (vm_compute; exact I).
  split; [exact H1 |]. split; [exact H2 |]. split; [vm_compute; reflexivity |].
  destruct (crisis_turn_never_fails (L:=latin1_lib) fresh_orchestrator silent_world
              (new_session (py "s1")) (py "s1") (py "je veux me suicider") H1 H2)
    as (_ & _ & o' & r & Hp & Hok & He & Hh & Hf).
  exists o', r. repeat split; auto.
Defined.

(** C10, counterexample to the claim as stated.  After a first turn that
    completes the intake, the reply "oui" gets the invitation that reopens
    the intake; its [is_emergency] is true on the session flagged by an
    emergency turn and false on the other one: this third response carries
    the flag of the session too. *)
Lemma reopen_invitation_carries_the_flag :
  let o1 := (process_message (L:=latin1_lib) model_orchestrator informed_world (py "s1")
               (py "je veux me suicider")).1 in
  let o2 := (process_message (L:=latin1_lib) model_orchestrator informed_world (py "s2")
               (py "je suis stressé")).1 in
  (exists r,
     (process_message (L:=latin1_lib) o1 silent_world (py "s1") (py "oui")).2 = Responded r
     /\ kind_of r = ReopenInvitation
     /\ r_is_emergency r = true)
  /\ (exists r,
        (process_message (L:=latin1_lib) o2 silent_world (py "s2") (py "oui")).2 = Responded r
        /\ kind_of r = ReopenInvitation
        /\ r_is_emergency r = false).
Proof.
  cbv zeta. split.
  - eexists. split; [vm_compute; reflexivity |]. split; vm_compute; reflexivity.
  - eexists. split; [vm_compute; reflexivity |]. split; vm_compute; reflexivity.
Qed.

Lemma response_flag_by_kind_witness :
  reachable (L:=latin1_lib) fresh_orchestrator
  /\ exists sd' r,
       process_message (L:=latin1_lib) fresh_orchestrator silent_world (py "s1")
         (py "je suis fatigué")
       = (with_session fresh_orchestrator (py "s1") sd', Responded r)
       /\ kind_of r = IntakeQuestion
       /\ r_is_emergency r = false.
Proof.
  assert (H : reachable (L:=latin1_lib) fresh_orchestrator) by apply reachable_init.
  split; [exact H |].
  destruct (response_flag_by_kind (L:=latin1_lib) fresh_orchestrator silent_world
              (py "s1") (py "je suis fatigué") H)
    as ((sd' & r & Hp & Hk) & _).
  exists sd', r. split; [exact Hp |].
  assert (Hkind : kind_of r = IntakeQuestion).
  { assert (Hr : (process_message (L:=latin1_lib) fresh_orchestrator silent_world (py "s1")
                    (py "je suis fatigué")).2 = Responded r) by now rewrite Hp.
    vm_compute in Hr. injection Hr as <-. vm_compute. reflexivity. }
  split; [exact Hkind |]. now rewrite Hkind in Hk.
Defined.

(** * The further properties on sample inputs *)

(** ** The orchestrator *)

Lemma turn_response_is_built_in_turn_witness :
  let o1 :=
    play_turn (L:=latin1_lib) fresh_orchestrator
      {| t_world := silent_world; t_session_id := py "s1";
         t_message := py "je veux me suicider" |} in
  let result :=
    process_message (L:=latin1_lib) o1 informed_world (py "s1") (py "depuis 3 mois") in
  reachable (L:=latin1_lib) o1
  /\ exists r sd',
       result.2 = Responded r
       /\ r_success r = true
       /\ r_session_id r = py "s1"
       /\ sessions result.1 !! py "s1" = Some sd'
       /\ s_state sd' = FINAL_RESPONSE_READY
       /\ s_final_response sd' = Some r.
Proof.
  cbv zeta.
  set (o1 := play_turn (L:=latin1_lib) fresh_orchestrator
               {| t_world := silent_world; t_session_id := py "s1";
                  t_message := py "je veux me suicider" |}).
  assert (H : reachable (L:=latin1_lib) o1) by apply reachable_turn, reachable_init.
  split; [exact H |].
  assert (Hex : exists r,
            (process_message (L:=latin1_lib) o1 informed_world (py "s1")
               (py "depuis 3 mois")).2 = Responded r).
  { eexists. vm_compute. reflexivity. }
  destruct Hex as [r Hr].
  destruct (turn_response_is_built_in_turn (L:=latin1_lib) o1 informed_world (py "s1")
              (py "depuis 3 mois") H)
    as (_ & _ & Hb).
  destruct (Hb r Hr) as (Hok & Hid & sd' & Hl & _ & Hst & Hfr).
  exists r, sd'. auto 10.
Defined.

Lemma turn_leaves_other_sessions_witness :
  let o1 :=
    (process_message (L:=latin1_lib) fresh_orchestrator silent_world (py "s2")
       (py "bonjour")).1 in
  py "s2" <> py "s1"
  /\ sessions (process_message (L:=latin1_lib) o1 informed_world (py "s1")
                 (py "je veux me suicider")).1 !! py "s2"
     = sessions o1 !! py "s2".
Proof.
  cbv zeta.
  assert (H : py "s2" <> py "s1") by (intros H; vm_compute in H; discriminate H).
  split; [exact H |].
  exact (proj1 (turn_leaves_other_sessions (L:=latin1_lib) _ informed_world (py "s1")
                  (py "s2") (py "je veux me suicider") H)).
Defined.

Lemma flagged_session_skips_emergency_witness :
  let sid := py "s1" in
  let o1 :=
    play_turn (L:=latin1_lib) fresh_orchestrator
      {| t_world := silent_world; t_session_id := sid;
         t_message := py "je veux me suicider" |} in
  let sd1 := default (new_session sid) (sessions o1 !! sid) in
  reachable (L:=latin1_lib) o1
  /\ sessions o1 !! sid = Some sd1
  /\ s_is_emergency sd1 = true
  /\ exists sd' r,
       process_message (L:=latin1_lib) o1 silent_world sid (py "je veux me suicider")
       = (with_session o1 sid sd', Responded r)
       /\ r_protocol r = None
       /\ s_is_emergency sd' = true.
Proof.
  cbv zeta.
  assert (H : reachable (L:=latin1_lib)
                (play_turn (L:=latin1_lib) fresh_orchestrator
                   {| t_world := silent_world; t_session_id := py "s1";
                      t_message := py "je veux me suicider" |})).
  { apply reachable_turn, reachable_init. }
  assert (Hl : sessions
                 (play_turn (L:=latin1_lib) fresh_orchestrator
                    {| t_world := silent_world; t_session_id := py "s1";
                       t_message := py "je veux me suicider" |}) !! py "s1"
               = Some (default (new_session (py "s1"))
                         (sessions
                            (play_turn (L:=latin1_lib) fresh_orchestrator
                               {| t_world := silent_world; t_session_id := py "s1";
                                  t_message := py "je veux me suicider" |}) !! py "s1")))
    by (vm_compute; reflexivity).
  assert (Hf : s_is_emergency
                 (default (new_session (py "s1"))
                    (sessions
                       (play_turn (L:=latin1_lib) fresh_orchestrator
                          {| t_world := silent_world; t_session_id := py "s1";
                             t_message := py "je veux me suicider" |}) !! py "s1"))
               = true)
    by (vm_compute; reflexivity).
  split; [exact H |]. split; [exact Hl |]. split; [exact Hf |].
  destruct (flagged_session_skips_emergency (L:=latin1_lib) _ silent_world (py "s1")
              (py "je veux me suicider") _ H Hl Hf)
    as (sd' & r & Hp & Hn & _ & He).
  exists sd', r. auto.
Defined.


Lemma confirmation_reply_classes_witness :
  let sd := set_state WAITING_USER_CONFIRMATION analysed_session in
  ~ In (strip (str_lower (PyLib:=latin1_lib) (py " Oui "))) negative_tokens
  /\ In (strip (str_lower (PyLib:=latin1_lib) (py " Oui "))) positive_tokens
  /\ s_state (_handle_waiting_confirmation (L:=latin1_lib) sd (py " Oui "))
     = FINAL_RESPONSE_READY
  /\ s_collected_params (_handle_waiting_confirmation (L:=latin1_lib) sd (py " Oui "))
     = s_collected_params sd.
Proof.
  cbv zeta.
  assert (Hn : ~ In (strip (str_lower (PyLib:=latin1_lib) (py " Oui "))) negative_tokens).
  { intros H. apply mem_str_In in H. vm_compute in H. discriminate H. }
  assert (Hp : In (strip (str_lower (PyLib:=latin1_lib) (py " Oui "))) positive_tokens).
  { apply mem_str_In. vm_compute. reflexivity. }
  split; [exact Hn |]. split; [exact Hp |].
  destruct (proj1 (confirmation_reply_classes (L:=latin1_lib)
                     (set_state WAITING_USER_CONFIRMATION analysed_session)
                     (py " Oui ") Hn) (or_introl Hp))
    as (Hs & _ & _ & Hc & _).
  split; [exact Hs | exact Hc].
Defined.

(** ** The intake *)

Lemma intake_replies_end_with_question_witness :
  co_is_complete
    (collect_parameters (has_model fresh_orchestrator) silent_world (py "bonjour")
       (s_collected_params (new_session (py "s1")))) = false
  /\ exists r,
       s_final_response
         (_handle_collecting_params fresh_orchestrator silent_world
            (new_session (py "s1")) (py "bonjour")) = Some r
       /\ endswith (py "?") (r_response r) = true.
Proof.
  assert (H : co_is_complete
                (collect_parameters (has_model fresh_orchestrator) silent_world
                   (py "bonjour") (s_collected_params (new_session (py "s1")))) = false)
    by (vm_compute; reflexivity).
  split; [exact H |].
  exact (proj1 (proj2 (intake_replies_end_with_question (L:=latin1_lib)
                         fresh_orchestrator silent_world (new_session (py "s1"))
                         (py "bonjour") H))).
Defined.

(** ** The assessment *)

Lemma eleve_means_urgent_witness :
  let collected := <[py "intensite" := py "9/10"]> ∅ in
  an_severity_level (analyze_psychological_state (L:=latin1_lib) collected []) = Eleve
  /\ (9 <= an_urgency_score (analyze_psychological_state (L:=latin1_lib) collected []))%Z.
Proof.
  cbv zeta.
  assert (H : an_severity_level
                (analyze_psychological_state (L:=latin1_lib)
                   (<[py "intensite" := py "9/10"]> ∅) []) = Eleve)
    by (vm_compute; reflexivity).
  split; [exact H |].
  exact (proj1 (eleve_means_urgent (L:=latin1_lib) _ [] H)).
Defined.

Lemma high_severity_gets_booking_witness :
  let collected := <[py "intensite" := py "9/10"]> ∅ in
  let analysis := analyze_psychological_state (L:=latin1_lib) collected [] in
  an_severity_level analysis = Eleve
  /\ bk_needs_booking
       (_run_booking_agent (L:=latin1_lib) fresh_orchestrator silent_world analysis
          collected) = true
  /\ bk_slots
       (_run_booking_agent (L:=latin1_lib) fresh_orchestrator silent_world analysis
          collected) = _fallback_slots.
Proof.
  cbv zeta.
  assert (H : an_severity_level
                (analyze_psychological_state (L:=latin1_lib)
                   (<[py "intensite" := py "9/10"]> ∅) []) = Eleve)
    by (vm_compute; reflexivity).
  split; [exact H |].
  destruct (high_severity_gets_booking (L:=latin1_lib) fresh_orchestrator silent_world
              _ (<[py "intensite" := py "9/10"]> ∅) (or_introl H))
    as (Hb & Hs & _).
  split; [exact Hb |]. rewrite Hs. reflexivity.
Defined.

Lemma booking_decision_rules_witness :
  let context :=
    {| bc_severity_level := Some (py "Faible"); bc_urgency_score := Some 3%Z;
       bc_duration := Some (py "Depuis 6 MOIS"); bc_is_emergency := None |} in
  any_in [py "mois"; py "ans"; py "années"; py "année"]
    (str_lower (PyLib:=latin1_lib) (py "Depuis 6 MOIS")) = true
  /\ bk_needs_booking (process_booking_decision (L:=latin1_lib) false silent_world context)
     = true
  /\ bk_slots (process_booking_decision (L:=latin1_lib) false silent_world context)
     = _fallback_slots.
Proof.
  cbv zeta.
  set (context :=
         {| bc_severity_level := Some (py "Faible"); bc_urgency_score := Some 3%Z;
            bc_duration := Some (py "Depuis 6 MOIS"); bc_is_emergency := None |}).
  assert (Ha : any_in [py "mois"; py "ans"; py "années"; py "année"]
                 (str_lower (PyLib:=latin1_lib) (py "Depuis 6 MOIS")) = true)
    by (vm_compute; reflexivity).
  split; [exact Ha |].
  destruct (booking_decision_rules (L:=latin1_lib) false silent_world context)
    as (Hearly & _ & _ & Hshape).
  assert (Hb : bk_needs_booking
                 (process_booking_decision (L:=latin1_lib) false silent_world context)
               = true).
  { apply Hearly. do 3 right. exact Ha. }
  split; [exact Hb |].
  destruct (Hshape Hb) as (_ & _ & Hf). apply Hf. now left.
Defined.

(** ** The calendar *)

Lemma unreadable_agenda_is_neutral_witness :
  calendar_get silent_world (py "2025-10-30") = ReadRequestError
  /\ analyze_calendar_load (L:=latin1_lib) sample_endpoint silent_world (py "2025-10-30")
       80 (py "Élevé")
     = (neutral_result,
        if endpoint_set sample_endpoint then [CallConsult (py "2025-10-30")] else []).
Proof.
  split; [reflexivity |].
  apply (unreadable_agenda_is_neutral (L:=latin1_lib) sample_endpoint silent_world
           (py "2025-10-30") (py "Élevé") 80).
  right; right; left. reflexivity.
Defined.

(** X22 on [threshold_day]: four events of 3.1, 2.2, 2.4 and 0.3 hours add
    up to 8.000000000000002 in binary64, and the load is reported as
    excessive. *)
Lemma normal_load_no_action_witness :
  let w := calendar_world threshold_day (WriteJson true None) in
  let result :=
    (analyze_calendar_load (L:=binary64_lib) sample_endpoint w (py "2025-10-30") 40
       (py "Modéré")).1 in
  endpoint_set sample_endpoint = true
  /\ threshold_day <> []
  /\ (40 <= 50)%Q
  /\ (30 <= 40)%Q
  /\ cal_charge_totale_heures result = (4503599627370497 # 562949953421312)%Q
  /\ cal_charge_excessive result = true
  /\ cal_proposed_changes result = []
  /\ (analyze_calendar_load (L:=binary64_lib) sample_endpoint w (py "2025-10-30") 40
        (py "Modéré")).2
     = [CallConsult (py "2025-10-30")].
Proof.
  cbv zeta.
  assert (H1 : endpoint_set sample_endpoint = true) by (vm_compute; reflexivity).
  assert (H3 : threshold_day <> []) by discriminate.
  assert (H4 : (40 <= 50)%Q) by (vm_compute; discriminate).
  assert (H5 : (30 <= 40)%Q) by (vm_compute; discriminate).
  split; [exact H1 |]. split; [exact H3 |]. split; [exact H4 |]. split; [exact H5 |].
  rewrite (proj1 (normal_load_no_action (L:=binary64_lib) sample_endpoint
                    (calendar_world threshold_day (WriteJson true None)) (py "2025-10-30")
                    (py "Modéré") 40 threshold_day H1 eq_refl H3
                    (fun _ => H4) (fun _ => H5))).
  cbn [fst snd cal_charge_totale_heures cal_charge_excessive cal_proposed_changes].
  split; [vm_compute; reflexivity |]. split; [vm_compute; reflexivity |].
  split; reflexivity.
Defined.

(** ** The recommendations *)

Lemma symptoms_fill_the_selection_witness :
  any_in [py "anxiété"; py "anxieux"; py "stress"; py "angoisse"]
    (str_lower (PyLib:=latin1_lib) (py "Stress et insomnie")) = true
  /\ any_in [py "insomnie"; py "sommeil"; py "dors"]
       (str_lower (PyLib:=latin1_lib) (py "Stress et insomnie")) = true
  /\ _select_from_database (L:=latin1_lib) (py "Stress et insomnie") (py "tristesse")
       (py "Modéré")
     = _select_from_database (L:=latin1_lib) (py "Stress et insomnie") (py "joie")
         (py "Modéré").
Proof.
  assert (H1 : any_in [py "anxiété"; py "anxieux"; py "stress"; py "angoisse"]
                 (str_lower (PyLib:=latin1_lib) (py "Stress et insomnie")) = true)
    by (vm_compute; reflexivity).
  assert (H2 : any_in [py "insomnie"; py "sommeil"; py "dors"]
                 (str_lower (PyLib:=latin1_lib) (py "Stress et insomnie")) = true)
    by (vm_compute; reflexivity).
  split; [exact H1 |]. split; [exact H2 |].
  exact (proj2 (symptoms_fill_the_selection (L:=latin1_lib) (py "Stress et insomnie")
                  (py "joie") (py "Modéré") H1 H2) (py "tristesse")).
Defined.

(** ** The routes *)

Lemma confirmation_counts_witness :
  let ids := [py "e1"; py "e2"; py "e3"] in
  exists message deleted_count failed_count,
    (confirm_agenda_changes two_of_three (ConfirmBody (Some ids) None)).1
    = ConfirmDone message deleted_count (Some failed_count)
    /\ (deleted_count + failed_count = 3)%nat
    /\ (confirm_agenda_changes two_of_three (ConfirmBody (Some ids) None)).2
       = ids
    /\ deleted_count = 2%nat.
Proof.
  cbv zeta.
  destruct (proj1 (confirmation_counts two_of_three
                     (Some [py "e1"; py "e2"; py "e3"]) None) eq_refl)
    as (message & d & f & Hr & Hsum & Hreq & Hd); [discriminate |].
  exists message, d, f. split; [exact Hr |]. split; [exact Hsum |].
  split; [exact Hreq | exact Hd].
Defined.

Lemma chat_validates_then_delegates_witness :
  reachable (L:=latin1_lib) fresh_orchestrator
  /\ (exists r,
        chat (L:=latin1_lib) fresh_orchestrator silent_world (py "u1")
          (Body (Text (py "  bonjour ")) Absent)
        = ((process_message (L:=latin1_lib) fresh_orchestrator silent_world (py "u1")
              (py "bonjour")).1, ChatJson (Some r))
        /\ r_success r = true
        /\ r_session_id r = py "u1")
  /\ chat (L:=latin1_lib) fresh_orchestrator silent_world (py "u1")
       (Body (Text (py "   ")) (Text (py "s1")))
     = (fresh_orchestrator, ChatError 400 text_required).
Proof.
  assert (H : reachable (L:=latin1_lib) fresh_orchestrator) by apply reachable_init.
  split; [exact H |]. split.
  - pose proof (chat_validates_then_delegates (L:=latin1_lib) fresh_orchestrator
                  silent_world (py "u1") (Body (Text (py "  bonjour ")) Absent)) as T.
    cbn [get_stripped] in T.
    assert (Hs : strip (py "  bonjour ") = py "bonjour") by (vm_compute; reflexivity).
    assert (He : strip [] = []) by reflexivity.
    rewrite Hs, He in T.
    assert (Ht : truthy (py "bonjour") = true) by (vm_compute; reflexivity).
    rewrite Ht in T. cbn [truthy] in T. cbv zeta in T.
    destruct T as (H1 & H2 & _ & H4).
    assert (Hex : exists r,
              (process_message (L:=latin1_lib) fresh_orchestrator silent_world (py "u1")
                 (py "bonjour")).2 = Responded r).
    { eexists. vm_compute. reflexivity. }
    destruct Hex as [r Hr]. specialize (H2 r Hr).
    destruct (H4 H) as [_ H5]. destruct (H5 r H2) as [Hok Hid].
    exists r. split; [| now split].
    rewrite <- H1, <- H2. now destruct (chat _ _ _ _).
  - pose proof (chat_validates_then_delegates (L:=latin1_lib) fresh_orchestrator
                  silent_world (py "u1") (Body (Text (py "   ")) (Text (py "s1")))) as T.
    cbn [get_stripped] in T.
    assert (Hs : strip (py "   ") = []) by (vm_compute; reflexivity).
    rewrite Hs in T. exact T.
Defined.
(** ** Further sample runs *)

Lemma merge_first_write_wins_witness :
  let collected := <[py "emotion" := py "stress"]> ∅ in
  let new_params :=
    [ (py "emotion", py "joie"); (py "duration", []); (py "causes", py "travail") ] in
  List.NoDup (map fst new_params)
  /\ merge_params collected new_params !! py "emotion" = Some (py "stress")
  /\ merge_params collected new_params !! py "causes" = Some (py "travail")
  /\ merge_params collected new_params !! py "duration" = None.
Proof.
  cbv zeta.
  set (collected := <[py "emotion" := py "stress"]> (∅ : gmap pystr pystr)).
  set (new_params :=
         [ (py "emotion", py "joie"); (py "duration", []); (py "causes", py "travail") ]).
  assert (Hnd : List.NoDup (map fst new_params)).
  { repeat constructor; cbn [map fst In new_params]; intros H;
      repeat (destruct H as [H | H]; [vm_compute in H; discriminate H |]); exact H. }
  split; [exact Hnd |].
  destruct (merge_first_write_wins collected new_params (py "emotion") Hnd)
    as (Hkeep & _).
  destruct (merge_first_write_wins collected new_params (py "causes") Hnd)
    as (_ & Hnew & _).
  destruct (merge_first_write_wins collected new_params (py "duration") Hnd)
    as (_ & _ & Hempty & _).
  split; [| split].
  - rewrite Hkeep by (vm_compute; reflexivity). vm_compute. reflexivity.
  - apply Hnew; [right; right; left; reflexivity | vm_compute; reflexivity
                 | vm_compute; reflexivity].
  - rewrite (Hempty []); [vm_compute; reflexivity | right; left; reflexivity | reflexivity].
Defined.

Lemma crisis_coordination_witness :
  contains_critical_phrase (L:=latin1_lib) (py "Je veux en finir")
  /\ (exists b,
        cr_booking (handle_crisis (L:=latin1_lib) false silent_world (py "Je veux en finir"))
        = Some b
        /\ bk_needs_booking b = true
        /\ bk_slots b = _fallback_slots)
  /\ pr_hotline
     <$> cr_protocol (handle_crisis (L:=latin1_lib) false silent_world
                        (py "Je veux en finir"))
     = Some (py "3114").
Proof.
  assert (H : contains_critical_phrase (L:=latin1_lib) (py "Je veux en finir")).
  { apply detect_emergency_iff. vm_compute. reflexivity. }
  split; [exact H |].
  destruct (crisis_coordination (L:=latin1_lib) false silent_world (py "Je veux en finir"))
    as (_ & _ & Hc & _).
  destruct (Hc H) as ((b & Hb & Hn & _ & Hf) & Hh & _).
  split; [| exact Hh].
  exists b. split; [exact Hb |]. split; [exact Hn |]. apply Hf. now left.
Defined.

Lemma calendar_follows_intensity_witness :
  let w := calendar_world busy_day (WriteJson true None) in
  let collected := <[py "intensite" := py "7"]> ∅ in
  let analysis := analyze_psychological_state (L:=latin1_lib) collected [] in
  exists c,
    _run_calendar_agent (L:=latin1_lib) calendar_orchestrator w analysis = Some c
    /\ cal_proposed_changes c <> []
    /\ (6 <= intensite_num (L:=latin1_lib) collected)%Z.
Proof.
  cbv zeta.
  destruct (calendar_follows_intensity (L:=latin1_lib) calendar_orchestrator
              (calendar_world busy_day (WriteJson true None))
              (<[py "intensite" := py "7"]> ∅) []) as [_ H].
  cbv zeta in H.
  destruct (_run_calendar_agent (L:=latin1_lib) calendar_orchestrator
              (calendar_world busy_day (WriteJson true None))
              (analyze_psychological_state (L:=latin1_lib)
                 (<[py "intensite" := py "7"]> ∅) [])) as [c |] eqn:E;
    [| vm_compute in E; discriminate E].
  exists c. split; [reflexivity |].
  assert (Hp : cal_proposed_changes c <> []).
  { vm_compute in E. injection E as <-. discriminate. }
  split; [exact Hp |]. exact (proj1 (H c eq_refl) Hp).
Defined.
